(** * Zagros Oak Forest bot: the time cycle, the energy rule and the
      callback handler of [oak_forest_bot_improved_english.py]

    The Python module keeps every player in one MongoDB document and reacts
    to inline-keyboard callbacks in a single handler, [button].  This file
    embeds the module as Rocq functions and proves the properties its
    specification lists.

    Conventions of the embedding.
    - A [datetime] is the integer number of microseconds since
      1970-01-01 (the resolution of Python's [datetime]); a [timedelta] is a
      signed number of microseconds.
    - Python [float] values are rationals ([Q]).  The handlers take float
      arithmetic as exact.  For [get_game_time], where the rounding of IEEE
      doubles can move a result, the evaluation in double precision is
      given as well ([game_time_in_doubles]), with the instants at which the
      two readings agree.
    - [datetime.utcnow()] and the [random] module are effects: the handler
      runs in a state monad whose state holds the collection, the clock and
      the generator.  Each call of [utcnow] takes a fresh reading, each call
      of [random.random] or [random.randint] a fresh output of the
      generator; nothing is assumed of the readings or of the outputs.
    - The collection returns what was stored in it (the millisecond
      resolution of BSON dates is not modelled), and one handler runs at a
      time.
    - A message is recorded by the values put into its text. *)

From Stdlib Require Import ZArith QArith Qround Qabs Qpower Lia Lqa.
From Stdlib Require Import String Ascii List Bool.
From stdpp Require Import base option gmap.

Import ListNotations.
Local Open Scope Z_scope.

(** ** Python numerics on rationals *)

Module PyNum.

(** [int(x)] on a float: truncation toward zero. *)
Definition int_of_float (x : Q) : Z := Z.quot (Qnum x) (Zpos (Qden x)).

(** [x // y] on floats: the floor of the quotient, as a float. *)
Definition floordiv (x y : Q) : Q := inject_Z (Qfloor (x / y)).

(** [x % y] on floats: the remainder that goes with [floordiv]. *)
Definition pymod (x y : Q) : Q := (x - y * floordiv x y)%Q.

(** Rounding to the nearest integer, ties to even, as [timedelta] does
    when it is built from a float number of seconds. *)
Definition round_half_even (x : Q) : Z :=
  let f := Qfloor x in
  let r := (x - inject_Z f)%Q in
  match (r ?= 1 # 2)%Q with
  | Lt => f
  | Gt => f + 1
  | Eq => if Z.even f then f else f + 1
  end.

End PyNum.

(** ** [datetime] and [timedelta] *)

Module PyTime.

Definition datetime := Z.
Definition timedelta := Z.

Definition us_per_second : Z := 1000000.

(** [datetime(1970, 1, 1)] *)
Definition epoch : datetime := 0.

(** [timedelta.total_seconds()] *)
Definition total_seconds (td : timedelta) : Q :=
  (inject_Z td / inject_Z us_per_second)%Q.

(** [timedelta(seconds=s)] for a float [s] *)
Definition timedelta_seconds (s : Q) : timedelta :=
  PyNum.round_half_even (s * inject_Z us_per_second)%Q.

(** [timedelta(hours=h)] for an int [h] *)
Definition timedelta_hours (h : Z) : timedelta := h * 3600 * us_per_second.

End PyTime.

Import PyTime.

(** ** The time cycle: [get_game_time] (lines 32-39)

    [game_time_at now] is the body of [get_game_time] after [now] has been
    read from the clock, with the floats of lines 35-38 read as exact
    rationals.  It is the reading the handlers below pass on.  What the
    interpreter computes in doubles is [game_time_in_doubles]; the two
    return the same triple from the epoch to [2^33] seconds after it, away
    from the boundaries between game days. *)

Definition cycle_duration : Z := 4 * 3600.

Definition game_time_at (now : datetime) : Z * bool * timedelta :=
  let elapsed_seconds := total_seconds (now - epoch) in
  let game_day :=
    PyNum.int_of_float
      (PyNum.pymod
         (PyNum.floordiv elapsed_seconds (inject_Z cycle_duration / 13))
         13) + 1 in
  let is_night := 6 <? game_day in
  let time_to_next :=
    (inject_Z cycle_duration
     - PyNum.pymod elapsed_seconds (inject_Z cycle_duration))%Q in
  (game_day, is_night, timedelta_seconds time_to_next).

Definition game_day_at (now : datetime) : Z := fst (fst (game_time_at now)).
Definition is_night_at (now : datetime) : bool := snd (fst (game_time_at now)).
Definition time_to_next_at (now : datetime) : timedelta := snd (game_time_at now).

(** ** Energy regeneration: [update_energy] (lines 42-47) *)

(** The arithmetic of line 46 on a stored energy [e] and [h] elapsed hours. *)
Definition regen (e : Z) (h : Q) : Z :=
  Z.min (e + PyNum.int_of_float (h * 2)%Q) 10.


(** ** The users collection

    One document per player, as [start] inserts it (lines 52-70).  The key
    of the map is the document's ['user_id'].  [update_energy] reads
    ['energy'] and ['last_energy_update'] with [dict.get] and a default, so
    these two fields may be absent; the handler reads every other field with
    [user_data[...]]. *)

Inductive squirrel := healthy | injured.

Record user_doc := UserDoc {
  username : option string;
  acorns : Z;
  stars : Z;
  squirrel_status : squirrel;
  squirrel_recovery_time : option datetime;
  level : Z;
  trees : list string;
  squirrels : list string;
  energy : option Z;
  last_energy_update : option datetime
}.

(** The document of a new player (the [$setOnInsert] of [start]). *)
Definition new_user (name : option string) (now : datetime) : user_doc :=
  {| username := name; acorns := 0; stars := 0;
     squirrel_status := healthy; squirrel_recovery_time := None;
     level := 1; trees := ["oak_1"%string]; squirrels := ["squirrel_1"%string];
     energy := Some 10; last_energy_update := Some now |}.

(** Field updates: [$set] replaces a field, [$inc] adds to it (and creates
    an absent field with the increment as its value). *)

Definition set_energy (v : Z) (d : user_doc) : user_doc :=
  {| username := username d; acorns := acorns d; stars := stars d;
     squirrel_status := squirrel_status d;
     squirrel_recovery_time := squirrel_recovery_time d;
     level := level d; trees := trees d; squirrels := squirrels d;
     energy := Some v; last_energy_update := last_energy_update d |}.

Definition set_last_energy_update (t : datetime) (d : user_doc) : user_doc :=
  {| username := username d; acorns := acorns d; stars := stars d;
     squirrel_status := squirrel_status d;
     squirrel_recovery_time := squirrel_recovery_time d;
     level := level d; trees := trees d; squirrels := squirrels d;
     energy := energy d; last_energy_update := Some t |}.

Definition set_squirrel_status (s : squirrel) (d : user_doc) : user_doc :=
  {| username := username d; acorns := acorns d; stars := stars d;
     squirrel_status := s;
     squirrel_recovery_time := squirrel_recovery_time d;
     level := level d; trees := trees d; squirrels := squirrels d;
     energy := energy d; last_energy_update := last_energy_update d |}.

Definition set_squirrel_recovery_time (t : option datetime) (d : user_doc)
  : user_doc :=
  {| username := username d; acorns := acorns d; stars := stars d;
     squirrel_status := squirrel_status d;
     squirrel_recovery_time := t;
     level := level d; trees := trees d; squirrels := squirrels d;
     energy := energy d; last_energy_update := last_energy_update d |}.

Definition set_level (v : Z) (d : user_doc) : user_doc :=
  {| username := username d; acorns := acorns d; stars := stars d;
     squirrel_status := squirrel_status d;
     squirrel_recovery_time := squirrel_recovery_time d;
     level := v; trees := trees d; squirrels := squirrels d;
     energy := energy d; last_energy_update := last_energy_update d |}.

Definition inc_energy (k : Z) (d : user_doc) : user_doc :=
  set_energy (default 0 (energy d) + k) d.

Definition inc_acorns (k : Z) (d : user_doc) : user_doc :=
  {| username := username d; acorns := acorns d + k; stars := stars d;
     squirrel_status := squirrel_status d;
     squirrel_recovery_time := squirrel_recovery_time d;
     level := level d; trees := trees d; squirrels := squirrels d;
     energy := energy d; last_energy_update := last_energy_update d |}.

Definition inc_stars (k : Z) (d : user_doc) : user_doc :=
  {| username := username d; acorns := acorns d; stars := stars d + k;
     squirrel_status := squirrel_status d;
     squirrel_recovery_time := squirrel_recovery_time d;
     level := level d; trees := trees d; squirrels := squirrels d;
     energy := energy d; last_energy_update := last_energy_update d |}.

(** ** Messages

    [query.message.reply_text] is recorded with the values interpolated into
    the text; wording and keyboards are presentation. *)

Inductive reply :=
| msg_welcome (night : bool) (game_day : Z)         (* lines 79-84 *)
| msg_start_again                                   (* line 104 *)
| msg_resting (minutes : Z)                         (* lines 120-122 *)
| msg_tired                                         (* lines 135, 150 *)
| msg_where (energy : Z)                            (* lines 143-146 *)
| msg_threat (threat : string)                      (* lines 183-185 *)
| msg_level_up (location : string) (acorns_found new_level : Z)
                                                    (* lines 200-207 *)
| msg_found (location : string) (acorns_found : Z)  (* lines 209-215 *)
| msg_daytime (hours : Z)                           (* lines 220-222 *)
| msg_stars (stars_available : Z)                   (* lines 230-233 *)
| msg_caught                                        (* lines 240-246 *)
| msg_status (acorns next_level_acorns stars level energy : Z)
    (squirrel_healthy : bool) (trees : nat) (night : bool)
    (game_day hours : Z)                            (* lines 251-261 *)
| msg_help.                                         (* lines 264-272 *)

(** ** The world the handler runs in *)

Record world := World {
  users_collection : gmap Z user_doc;
  clock : nat -> datetime;      (* the successive readings of [utcnow] *)
  utcnow_calls : nat;           (* readings taken so far *)
  entropy : nat -> Z;           (* the successive outputs of the generator *)
  random_calls : nat;           (* outputs consumed so far *)
  sent : list reply             (* messages sent so far, oldest first *)
}.

(** A Python exception escaping the handler. *)
Inductive outcome (A : Type) :=
| Returned (a : A)
| Raised (exn : string).
Arguments Returned {A} a.
Arguments Raised {A} exn.

Definition io (A : Type) : Type := world -> outcome A * world.

Definition ret {A} (a : A) : io A := fun w => (Returned a, w).

Definition bind {A B} (c : io A) (k : A -> io B) : io B :=
  fun w =>
    match c w with
    | (Returned a, w') => k a w'
    | (Raised e, w') => (Raised e, w')
    end.

Definition raise {A} (e : string) : io A := fun w => (Raised e, w).

Declare Scope io_scope.
Delimit Scope io_scope with io.
Notation "x <- c ;; k" := (bind c (fun x => k))
  (at level 100, c at next level, right associativity) : io_scope.
Notation "c ;; k" := (bind c (fun _ => k))
  (at level 100, right associativity) : io_scope.
Local Open Scope io_scope.

(** The final world of a run. *)
Definition exec {A} (c : io A) (w : world) : world := snd (c w).

(** The elementary changes of the world. *)

Definition tick_clock (w : world) : world :=
  {| users_collection := users_collection w; clock := clock w;
     utcnow_calls := S (utcnow_calls w);
     entropy := entropy w; random_calls := random_calls w;
     sent := sent w |}.

Definition seek_random (n : nat) (w : world) : world :=
  {| users_collection := users_collection w; clock := clock w;
     utcnow_calls := utcnow_calls w;
     entropy := entropy w; random_calls := n;
     sent := sent w |}.

Definition tick_random (w : world) : world :=
  seek_random (S (random_calls w)) w.

Definition store (f : gmap Z user_doc -> gmap Z user_doc) (w : world) : world :=
  {| users_collection := f (users_collection w); clock := clock w;
     utcnow_calls := utcnow_calls w;
     entropy := entropy w; random_calls := random_calls w;
     sent := sent w |}.

Definition send (m : reply) (w : world) : world :=
  {| users_collection := users_collection w; clock := clock w;
     utcnow_calls := utcnow_calls w;
     entropy := entropy w; random_calls := random_calls w;
     sent := sent w ++ [m] |}.

(** [datetime.utcnow()] *)
Definition utcnow : io datetime :=
  fun w => (Returned (clock w (utcnow_calls w)), tick_clock w).

(** The next raw output of the generator. *)
Definition next_random : io Z :=
  fun w => (Returned (entropy w (random_calls w)), tick_random w).

(** The float that [random.random()] makes of a raw output: a multiple of
    [2^-53] in [[0, 1)]. *)
Definition unit_float (n : Z) : Q :=
  (inject_Z (n mod 2 ^ 53) / inject_Z (2 ^ 53))%Q.

(** [random.random()] *)
Definition random : io Q :=
  n <- next_random ;;
  ret (unit_float n).

(** [random.randint(a, b)]: an integer in [[a, b]].  Python draws it from
    the generator's bits; the model keeps that it is an integer of the range
    fixed by the generator's output. *)
Definition randint (a b : Z) : io Z :=
  n <- next_random ;;
  ret (a + n mod (b - a + 1)).

(** [users_collection.find_one({'user_id': user})] *)
Definition find_one (user : Z) : io (option user_doc) :=
  fun w => (Returned (users_collection w !! user), w).

(** [users_collection.update_one({'user_id': user}, ...)]: the update [f] is
    applied to the matching document, if there is one. *)
Definition update_one (user : Z) (f : user_doc -> user_doc) : io unit :=
  fun w => (Returned tt, store (alter f user) w).

(** [await query.message.reply_text(...)] *)
Definition reply_text (m : reply) : io unit :=
  fun w => (Returned tt, send m w).

(** [d[key]] on a field that may be absent: [KeyError] when it is. *)
Definition getitem {A} (key : string) (field : option A) : io A :=
  match field with
  | Some v => ret v
  | None => raise ("KeyError: " ++ key)
  end.

(** ** String helpers used on [query.data] *)

(** [s.split(sep)] for a one-character separator. *)
Fixpoint split_on (sep : ascii) (s : string) : list string :=
  match s with
  | EmptyString => [EmptyString]
  | String c s' =>
      if Ascii.eqb c sep then EmptyString :: split_on sep s'
      else match split_on sep s' with
           | [] => [String c EmptyString]
           | part :: parts => String c part :: parts
           end
  end.

Definition is_between (lo hi : nat) (c : ascii) : bool :=
  (lo <=? nat_of_ascii c)%nat && (nat_of_ascii c <=? hi)%nat.

Definition to_upper (c : ascii) : ascii :=
  if is_between 97 122 c then ascii_of_nat (nat_of_ascii c - 32) else c.

Definition to_lower (c : ascii) : ascii :=
  if is_between 65 90 c then ascii_of_nat (nat_of_ascii c + 32) else c.

Fixpoint lower (s : string) : string :=
  match s with
  | EmptyString => EmptyString
  | String c s' => String (to_lower c) (lower s')
  end.

(** [s.capitalize()] on ASCII text. *)
Definition capitalize (s : string) : string :=
  match s with
  | EmptyString => EmptyString
  | String c s' => String (to_upper c) (lower s')
  end.

(** ** [get_game_time] and [update_energy] as effects *)

Definition get_game_time : io (Z * bool * timedelta) :=
  now <- utcnow ;;
  ret (game_time_at now).

(** Lines 44-46 once [now] has been read. *)
Definition energy_at (user_data : user_doc) (now : datetime) : Z :=
  let last_energy_update := default now (last_energy_update user_data) in
  let elapsed_hours := (total_seconds (now - last_energy_update)%Z / 3600)%Q in
  regen (default 10 (energy user_data)) elapsed_hours.

Definition update_energy (user_data : user_doc) : io Z :=
  now <- utcnow ;;
  ret (energy_at user_data now).

(** ** The threat roll (lines 161-170) *)

Definition threats : list (string * Q) :=
  [("fox"%string, 0.1%Q); ("eagle"%string, 0.05%Q); ("storm"%string, 0.05%Q)].

Definition Qltb (x y : Q) : bool :=
  match (x ?= y)%Q with Lt => true | _ => false end.

(** The [for] loop with its [break]: one draw per threat tried. *)
Fixpoint roll_threat (ts : list (string * Q)) : io (option string) :=
  match ts with
  | [] => ret None
  | (t_name, t_prob) :: ts' =>
      u <- random ;;
      if Qltb u t_prob then ret (Some t_name) else roll_threat ts'
  end.

(** ** The branch [query.data.startswith('explore_')] (lines 148-215) *)

Definition explore_area (user : Z) (user_data : user_doc) (data : string)
  : io unit :=
  e <- getitem "energy" (energy user_data) ;;
  if e <? 1 then reply_text msg_tired
  else
    (* Deduct energy *)
    update_one user (inc_energy (-1)) ;;
    let star_bonus := if 0 <? stars user_data then 2 else 1 in
    r <- randint 0 5 ;;
    let acorns_found := r * star_bonus in
    threat <- roll_threat threats ;;
    location <- match split_on "_" data with
                | _ :: part :: _ => ret (capitalize part)
                | _ => raise "IndexError"
                end ;;
    match threat with
    | Some t_name =>
        now <- utcnow ;;
        update_one user
          (fun d => set_squirrel_recovery_time (Some (now + timedelta_hours 2))
                      (set_squirrel_status injured d)) ;;
        reply_text (msg_threat t_name)
    | None =>
        update_one user (inc_acorns acorns_found) ;;
        (* Check for level up *)
        fetched <- find_one user ;;
        user_data <- match fetched with
                     | Some d => ret d
                     | None => raise "TypeError"
                     end ;;
        let new_level := level user_data in
        if new_level * 50 <=? acorns user_data then
          let new_level := new_level + 1 in
          update_one user
            (fun d => inc_energy 5 (inc_stars 1 (set_level new_level d))) ;;
          reply_text (msg_level_up location acorns_found new_level)
        else
          reply_text (msg_found location acorns_found)
    end.

(** ** The action dispatch (lines 131-272) *)

Definition hours_of (td : timedelta) : Z :=
  PyNum.int_of_float (total_seconds td / 3600)%Q.

Definition dispatch (user : Z) (user_data : user_doc) (data : string)
  : io unit :=
  gt <- get_game_time ;;
  let '(game_day, is_night, time_to_next) := gt in
  if String.eqb data "explore" then
    e <- getitem "energy" (energy user_data) ;;
    if e <? 1 then reply_text msg_tired
    else reply_text (msg_where e)
  else if String.prefix "explore_" data then
    explore_area user user_data data
  else if String.eqb data "collect_star" then
    if negb is_night then
      reply_text (msg_daytime (hours_of time_to_next))
    else
      stars_available <- randint 1 3 ;;
      reply_text (msg_stars stars_available)
  else if String.prefix "star_" data then
    update_one user (inc_stars 1) ;;
    reply_text msg_caught
  else if String.eqb data "status" then
    fetched <- find_one user ;;
    user_data <- match fetched with
                 | Some d => ret d
                 | None => raise "TypeError"
                 end ;;
    let next_level_acorns := level user_data * 50 in
    e <- getitem "energy" (energy user_data) ;;
    reply_text
      (msg_status (acorns user_data) next_level_acorns (stars user_data)
         (level user_data) e
         (match squirrel_status user_data with
          | healthy => true
          | injured => false
          end)
         (length (trees user_data)) is_night game_day
         (hours_of time_to_next))
  else if String.eqb data "help" then
    reply_text msg_help
  else
    ret tt.

(** ** The callback handler [button] (lines 97-272) *)

Definition heal (d : user_doc) : user_doc :=
  set_squirrel_recovery_time None (set_squirrel_status healthy d).

Definition button (user : Z) (data : string) : io unit :=
  found <- find_one user ;;
  match found with
  | None => reply_text msg_start_again
  | Some user_data =>
      (* Update energy *)
      new_energy <- update_energy user_data ;;
      now <- utcnow ;;
      update_one user
        (fun d => set_last_energy_update now (set_energy new_energy d)) ;;
      let user_data := set_energy new_energy user_data in
      (* Check squirrel status *)
      let recovered :=
        update_one user heal ;;
        dispatch user (set_squirrel_status healthy user_data) data in
      match squirrel_status user_data with
      | injured =>
          match squirrel_recovery_time user_data with
          | Some recovery_time =>
              now <- utcnow ;;
              if now <? recovery_time then
                now <- utcnow ;;
                let remaining :=
                  (total_seconds (recovery_time - now)%Z / 60)%Q in
                reply_text (msg_resting (PyNum.int_of_float remaining))
              else recovered
          | None => recovered
          end
      | healthy => dispatch user user_data data
      end
  end.

(** ** The command handler [start] (lines 49-84)

    The upsert with [$setOnInsert] creates the document of a player who has
    none and leaves an existing document as it is. *)

Definition insert_if_absent (user : Z) (d : user_doc) (m : gmap Z user_doc)
  : gmap Z user_doc :=
  match m !! user with
  | Some _ => m
  | None => <[user := d]> m
  end.

Definition start (user : Z) (name : option string) : io unit :=
  now <- utcnow ;;
  (fun w => (Returned tt, store (insert_if_absent user (new_user name now)) w)) ;;
  gt <- get_game_time ;;
  let '(game_day, is_night, _) := gt in
  reply_text (msg_welcome is_night game_day).

(** ** The command handler [help_command] (lines 86-95) *)

Definition help_command : io unit := reply_text msg_help.

(** ** Vocabulary of the statements *)

(** The [k]-th reading of the clock from world [w] on, and the [k]-th raw
    output of the generator from [w] on. *)
Definition reading (w : world) (k : nat) : datetime :=
  clock w (k + utcnow_calls w).

Definition raw_draw (w : world) (k : nat) : Z :=
  entropy w (k + random_calls w).

(** The floats [random.random()] returns along the generator's outputs. *)
Definition draws (w : world) (i : nat) : Q := unit_float (entropy w i).

(** The first threat of [ts] whose draw is below its probability, the draws
    being taken one per threat from position [i] on; and the position of the
    generator after the last draw taken. *)
Fixpoint first_threat (ts : list (string * Q)) (draw : nat -> Q) (i : nat)
  : option string :=
  match ts with
  | [] => None
  | (t_name, t_prob) :: ts' =>
      if Qltb (draw i) t_prob then Some t_name
      else first_threat ts' draw (S i)
  end.

Fixpoint cursor_after (ts : list (string * Q)) (draw : nat -> Q) (i : nat)
  : nat :=
  match ts with
  | [] => i
  | (_, t_prob) :: ts' =>
      if Qltb (draw i) t_prob then S i
      else cursor_after ts' draw (S i)
  end.

(** The threat an exploration started in [w] meets: the acorn roll takes the
    first output, the threat draws follow. *)
Definition threat_met (w : world) : option string :=
  first_threat threats (draws w) (S (random_calls w)).

(** The squirrel check of lines 116-129 on the stored document [d]: whether
    it stops the handler, and how many clock readings it takes when it does
    not. *)
Definition resting (d : user_doc) (w : world) : bool :=
  match squirrel_status d, squirrel_recovery_time d with
  | injured, Some recovery_time => reading w 2 <? recovery_time
  | _, _ => false
  end.

Definition check_reads (d : user_doc) : nat :=
  match squirrel_status d, squirrel_recovery_time d with
  | injured, Some _ => 1
  | _, _ => 0
  end.

(** The stored document once energy has been regenerated (lines 108-112),
    and once the squirrel check has let the action through. *)
Definition regenerated (d : user_doc) (w : world) : user_doc :=
  set_last_energy_update (reading w 1)
    (set_energy (energy_at d (reading w 0)) d).

Definition cleared (d : user_doc) (w : world) : user_doc :=
  match squirrel_status d with
  | injured => heal (regenerated d w)
  | healthy => regenerated d w
  end.

(** One cycle in microseconds. *)
Definition cycle_us : Z := cycle_duration * us_per_second.

(** The day index in the words of the specification:
    [floor((secondsSinceEpoch mod cycleDuration) / (cycleDuration/13)) + 1]. *)
Definition day_index_spec (now : datetime) : Z :=
  let secondsSinceEpoch := total_seconds (now - epoch) in
  let cycleDuration := inject_Z (4 * 3600) in
  Qfloor (PyNum.pymod secondsSinceEpoch cycleDuration / (cycleDuration / 13))%Q
  + 1.

(** The location shown in the answer to an exploration (line 171). *)
Definition location_of (data : string) : string :=
  match split_on "_" data with
  | _ :: part :: _ => capitalize part
  | _ => EmptyString
  end.

(** The value [random.randint(0, 5)] returns in world [w], and the star
    bonus of line 158. *)
Definition acorn_roll (w : world) : Z :=
  match fst (randint 0 5 w) with
  | Returned r => r
  | Raised _ => 0
  end.

Definition star_bonus (d : user_doc) : Z := if 0 <? stars d then 2 else 1.

(** An exploration of an area that the handler accepts: the player has a
    document, the squirrel check lets the action through, and the
    regenerated energy is at least 1. *)
Definition accepted (user : Z) (d : user_doc) (data : string) (w : world)
  : Prop :=
  users_collection w !! user = Some d
  /\ resting d w = false
  /\ String.prefix "explore_" data = true
  /\ 1 <= energy_at d (reading w 0).

(** The handler's own copy of the document ([user_data]) and the world when
    the dispatch of line 131 starts, for an action the squirrel check lets
    through. *)
Definition briefed (d : user_doc) (w : world) : user_doc :=
  let user_data := set_energy (energy_at d (reading w 0)) d in
  match squirrel_status d with
  | injured => set_squirrel_status healthy user_data
  | healthy => user_data
  end.

Definition let_through (user : Z) (d : user_doc) (w : world) : world :=
  let e := energy_at d (reading w 0) in
  let w1 :=
    store (alter (fun d' => set_last_energy_update (reading w 1)
                              (set_energy e d')) user)
      (tick_clock (tick_clock w)) in
  match squirrel_status d, squirrel_recovery_time d with
  | healthy, _ => w1
  | injured, Some _ => store (alter heal user) (tick_clock w1)
  | injured, None => store (alter heal user) w1
  end.

(** ** Sample worlds *)

Definition player : Z := 7.

(** One player, a clock and a generator; nothing read or sent yet. *)
Definition world_of (d : user_doc) (clk : nat -> datetime) (ent : nat -> Z)
  : world :=
  {| users_collection := {[ player := d ]};
     clock := clk; utcnow_calls := 0;
     entropy := ent; random_calls := 0;
     sent := [] |}.

(** A clock that advances one microsecond per reading. *)
Definition clock_from (t : datetime) : nat -> datetime :=
  fun k => t + Z.of_nat k.

(** A generator whose first output is [roll] and whose later outputs make
    [random.random()] return 0.5 (no threat), respectively 0.0 (every
    threat drawn). *)
Definition calm (roll : Z) : nat -> Z :=
  fun i => match i with O => roll | S _ => 2 ^ 52 end.

Definition stormy (roll : Z) : nat -> Z :=
  fun i => match i with O => roll | S _ => 0 end.

(** Ten seconds after midnight is day 1; 8000 seconds after is day 8. *)
Definition by_day : datetime := 10 * us_per_second.
Definition by_night : datetime := 8000 * us_per_second.

(** A player about to level up, one with a star, and one whose squirrel
    was injured at [by_day]. *)
Definition nearly_level_2 : user_doc := inc_acorns 49 (new_user None by_day).

Definition starred : user_doc := inc_stars 1 (new_user None by_day).

Definition hurt (since : datetime) : user_doc :=
  set_squirrel_recovery_time (Some (since + timedelta_hours 2))
    (set_squirrel_status injured (new_user None since)).

(** ** What one action can do to a document

    [action_effect c d'] lists the forms the stored document [d'] can take
    after the dispatch, [c] being the stored document when the dispatch
    starts: untouched, one star more (lines 236-239), a threat (lines
    153-156 and 174-182), acorns found (lines 153-156 and 187-190), and
    acorns found with a level-up (lines 196-199). *)

Inductive action_effect (c : user_doc) : user_doc -> Prop :=
| effect_none : action_effect c c
| effect_star : action_effect c (inc_stars 1 c)
| effect_threat (now : datetime) (e : Z) :
    energy c = Some e -> 1 <= e ->
    action_effect c
      (set_squirrel_recovery_time (Some (now + timedelta_hours 2))
         (set_squirrel_status injured (inc_energy (-1) c)))
| effect_found (r e : Z) :
    energy c = Some e -> 1 <= e -> 0 <= r <= 5 ->
    acorns c + r * star_bonus c < level c * 50 ->
    action_effect c (inc_acorns (r * star_bonus c) (inc_energy (-1) c))
| effect_level_up (r e : Z) :
    energy c = Some e -> 1 <= e -> 0 <= r <= 5 ->
    level c * 50 <= acorns c + r * star_bonus c ->
    action_effect c
      (inc_energy 5
         (inc_stars 1
            (set_level (level c + 1)
               (inc_acorns (r * star_bonus c) (inc_energy (-1) c))))).

(** ** The updates the application routes (lines 281-283)

    [main] registers [start] for the command [/start], [help_command] for
    [/help] and [button] for every callback query; updates are handled one
    after the other. *)

Inductive update :=
| command_start (user : Z) (name : option string)
| command_help
| callback_query (user : Z) (data : string).

Definition handle (u : update) : io unit :=
  match u with
  | command_start user name => start user name
  | command_help => help_command
  | callback_query user data => button user data
  end.

(** The world after a sequence of updates. *)
Fixpoint after (us : list update) (w : world) : world :=
  match us with
  | [] => w
  | u :: us' => after us' (exec (handle u) w)
  end.

(** The shape of the documents the handlers produce. *)
Definition well_formed (d : user_doc) : Prop :=
  0 <= acorns d
  /\ 0 <= stars d
  /\ 1 <= level d
  /\ acorns d < level d * 50
  /\ (squirrel_status d = injured <-> is_Some (squirrel_recovery_time d))
  /\ (exists e, energy d = Some e /\ e <= 14)
  /\ is_Some (last_energy_update d)
  /\ trees d = ["oak_1"%string]
  /\ squirrels d = ["squirrel_1"%string].

(** A world with no player yet. *)
Definition fresh_world (clk : nat -> datetime) (ent : nat -> Z) : world :=
  {| users_collection := ∅;
     clock := clk; utcnow_calls := 0;
     entropy := ent; random_calls := 0;
     sent := [] |}.

(** Whether the character [sep] is absent from [s]. *)
Fixpoint lacks (sep : ascii) (s : string) : bool :=
  match s with
  | EmptyString => true
  | String c s' => negb (Ascii.eqb c sep) && lacks sep s'
  end.

(** A clock whose readings never go back, and a document whose energy is in
    range and whose last energy update is not after any reading still to
    come. *)
Definition clock_never_goes_back (w : world) : Prop :=
  forall i j, (i <= j)%nat -> clock w i <= clock w j.

Definition charged (w : world) (d : user_doc) : Prop :=
  (exists e, energy d = Some e /\ 0 <= e <= 14)
  /\ (exists t, last_energy_update d = Some t
                /\ forall j, (utcnow_calls w <= j)%nat -> t <= clock w j).

(** ** [get_game_time] in double precision

    [game_time_at] reads the floats of lines 35-38 as exact rationals.  The
    interpreter evaluates them in IEEE 754 binary64; next to a boundary
    between two game days the rounding can move the day index, and once
    doubles no longer resolve microseconds it moves the time to the next
    start of a cycle.  The definitions below follow the double-precision
    evaluation of lines 35-39, and of the hours of lines 219 and 260, step
    by step.  A finite double is a rational [m * 2^e] with [|m| < 2^53]; the
    values met here are far from overflow and underflow, so the exponent is
    not bounded, and the sign of a zero is not kept. *)

Module Double.

(** [floor(log2 x)] for [x > 0]. *)
Definition ilog2 (x : Q) : Z :=
  let n := Qnum x in
  let d := Zpos (Qden x) in
  let l := Z.log2 n - Z.log2 d in
  if (if 0 <=? l then d * 2 ^ l <=? n else d <=? n * 2 ^ (- l))
  then l else l - 1.

(** Rounding of a positive rational to 53 significant bits, to nearest,
    ties to even. *)
Definition round_pos (x : Q) : Q :=
  let e := ilog2 x - 52 in
  (inject_Z (PyNum.round_half_even (x / 2 ^ e)) * 2 ^ e)%Q.

(** The double nearest to a rational. *)
Definition fl (x : Q) : Q :=
  match (x ?= 0)%Q with
  | Eq => 0%Q
  | Gt => round_pos x
  | Lt => (- round_pos (- x))%Q
  end.

(** [a / b] on two ints: the quotient, correctly rounded. *)
Definition int_truediv (a b : Z) : Q := fl (inject_Z a / inject_Z b).

(** The C library's [fmod]: the remainder of the truncated quotient, which
    is exact. *)
Definition fmod (x y : Q) : Q :=
  (x - y * inject_Z (PyNum.int_of_float (x / y)))%Q.

(** [_float_div_mod] of CPython's [floatobject.c], the quotient part:
    [x // y] on floats. *)
Definition float_floor_div (vx wx : Q) : Q :=
  let mod_ := fmod vx wx in
  let div := fl (fl (vx - mod_) / wx) in
  let div :=
    if negb (Qeq_bool mod_ 0)
       && negb (Bool.eqb (Qltb wx 0) (Qltb mod_ 0))
    then fl (div - 1) else div in
  if negb (Qeq_bool div 0) then
    let floordiv := inject_Z (Qfloor div) in
    if Qltb (1 # 2) (fl (div - floordiv)) then fl (floordiv + 1)
    else floordiv
  else 0%Q.

(** [float_rem] of CPython's [floatobject.c]: [x % y] on floats. *)
Definition float_rem (vx wx : Q) : Q :=
  let mod_ := fmod vx wx in
  if negb (Qeq_bool mod_ 0) then
    if negb (Bool.eqb (Qltb wx 0) (Qltb mod_ 0)) then fl (mod_ + wx)
    else mod_
  else 0%Q.

(** Half the distance between 1 and the next double. *)
Definition eps : Q := 1 # 9007199254740992.

End Double.

(** Lines 35-36 as the interpreter evaluates them: [total_seconds()] is the
    true division of the microseconds by [10^6], [cycle_duration / 13] a
    true division of two ints, [//] and [%] the float operations. *)
Definition game_day_in_doubles (now : datetime) : Z :=
  let elapsed_seconds := Double.int_truediv (now - epoch) us_per_second in
  PyNum.int_of_float
    (Double.float_rem
       (Double.float_floor_div elapsed_seconds
          (Double.int_truediv cycle_duration 13))
       (inject_Z 13)) + 1.

(** Line 37. *)
Definition is_night_in_doubles (now : datetime) : bool :=
  6 <? game_day_in_doubles now.

(** The day index in the words of the specification, on a number of
    seconds: [floor((secondsSinceEpoch mod cycleDuration) /
    (cycleDuration/13)) + 1]. *)
Definition day_index_of_seconds (secondsSinceEpoch : Q) : Z :=
  let cycleDuration := inject_Z (4 * 3600) in
  Qfloor (PyNum.pymod secondsSinceEpoch cycleDuration / (cycleDuration / 13))%Q
  + 1.

(** [timedelta(seconds=s)] for a float [s] (line 39).  The constructor
    splits [s] with [modf] into whole seconds and a fraction, both exact;
    the whole seconds become microseconds as integers, the fraction is
    multiplied by [10^6] in double precision and rounded to the nearest
    integer, ties to even. *)
Definition timedelta_seconds_in_doubles (s : Q) : timedelta :=
  let intpart := PyNum.int_of_float s in
  let fracpart := (s - inject_Z intpart)%Q in
  intpart * us_per_second
  + PyNum.round_half_even (Double.fl (inject_Z us_per_second * fracpart)).

(** Lines 35, 38 and 39 as the interpreter evaluates them. *)
Definition time_to_next_in_doubles (now : datetime) : timedelta :=
  let elapsed_seconds := Double.int_truediv (now - epoch) us_per_second in
  let time_to_next :=
    Double.fl (inject_Z cycle_duration
               - Double.float_rem elapsed_seconds (inject_Z cycle_duration)) in
  timedelta_seconds_in_doubles time_to_next.

(** [get_game_time] in double precision. *)
Definition game_time_in_doubles (now : datetime) : Z * bool * timedelta :=
  (game_day_in_doubles now, is_night_in_doubles now,
   time_to_next_in_doubles now).

(** [int(td.total_seconds() / 3600)] in double precision (lines 219-221
    and 260). *)
Definition hours_in_doubles (td : timedelta) : Z :=
  PyNum.int_of_float (Double.fl (Double.int_truediv td us_per_second / 3600)).

(** One unit in the last place of a double of the size of [x], at most:
    the [2^-52]-th part of its absolute value. *)
Definition double_rounding (x : Q) : Q :=
  (Qabs x * (1 # 4503599627370496))%Q.

(** Whether a number of seconds lies within [tolerance] of a boundary
    between two game days: of the last one or of the next one. *)
Definition near_day_boundary (seconds tolerance : Q) : bool :=
  let day_length := (inject_Z cycle_duration / 13)%Q in
  let since := PyNum.pymod seconds day_length in
  Qle_bool since tolerance || Qle_bool (day_length - since) tolerance.

(** * Python numerics: facts *)

Module PyNumFacts.

Import PyNum.

Lemma int_of_float_cases (x : Q) :
  int_of_float x = if Qle_bool 0 x then Qfloor x else Qceiling x.
Proof.
  destruct x as [n d]. unfold int_of_float, Qle_bool, Qceiling, Qfloor, Qopp.
  cbn [Qnum Qden]. rewrite Z.mul_1_r, Z.mul_0_l.
  destruct (Z.leb_spec 0 n) as [Hn | Hn].
  - apply Z.quot_div_nonneg; lia.
  - rewrite <- (Z.opp_involutive n) at 1.
    rewrite Z.quot_opp_l by lia.
    rewrite Z.quot_div_nonneg by lia. reflexivity.
Qed.

#[global] Instance int_of_float_proper : Proper (Qeq ==> eq) int_of_float.
Proof.
  intros x y Hxy. rewrite !int_of_float_cases.
  rewrite Hxy. destruct (Qle_bool 0 y); now rewrite Hxy.
Qed.

#[global] Instance floordiv_proper : Proper (Qeq ==> Qeq ==> Qeq) floordiv.
Proof.
  intros x x' Hx y y' Hy. unfold floordiv. now rewrite Hx, Hy.
Qed.

#[global] Instance pymod_proper : Proper (Qeq ==> Qeq ==> Qeq) pymod.
Proof.
  intros x x' Hx y y' Hy. unfold pymod. now rewrite Hx, Hy.
Qed.

#[global] Instance round_half_even_proper : Proper (Qeq ==> eq) round_half_even.
Proof.
  intros x y Hxy. unfold round_half_even.
  rewrite (Qfloor_comp x y Hxy). cbv zeta.
  assert (E : (x - inject_Z (Qfloor y) ?= 1 # 2)%Q
              = (y - inject_Z (Qfloor y) ?= 1 # 2)%Q).
  { apply Qcompare_comp; [now rewrite Hxy | reflexivity]. }
  now rewrite E.
Qed.

Lemma int_of_float_Z (z : Z) : int_of_float (inject_Z z) = z.
Proof. unfold int_of_float. cbn. apply Z.quot_1_r. Qed.

Lemma round_half_even_Z (z : Z) : round_half_even (inject_Z z) = z.
Proof.
  unfold round_half_even. rewrite Qfloor_Z.
  assert (H : (inject_Z z - inject_Z z == 0)%Q) by ring.
  rewrite H. reflexivity.
Qed.

(** Floor division and remainder of integer-valued floats. *)
Lemma floordiv_Z (a b : Z) :
  (floordiv (inject_Z a) (inject_Z b) == inject_Z (a / b))%Q.
Proof. unfold floordiv. now rewrite <- Zdiv_Qdiv. Qed.

Lemma pymod_Z (a b : Z) : b <> 0 ->
  (pymod (inject_Z a) (inject_Z b) == inject_Z (a mod b))%Q.
Proof.
  intros Hb. unfold pymod. rewrite floordiv_Z.
  rewrite Z.mod_eq by exact Hb.
  unfold Z.sub. rewrite inject_Z_plus, inject_Z_opp, inject_Z_mult.
  reflexivity.
Qed.

(** Floats that are ratios of integers. *)
Lemma Qfloor_ratios (a b c d : Z) : 0 < b -> 0 < c -> 0 < d ->
  Qfloor (inject_Z a / inject_Z b / (inject_Z c / inject_Z d))
  = (a * d) / (b * c).
Proof.
  intros Hb Hc Hd. rewrite Zdiv_Qdiv.
  rewrite !inject_Z_mult.
  assert (E : (inject_Z a / inject_Z b / (inject_Z c / inject_Z d)
               == inject_Z a * inject_Z d / (inject_Z b * inject_Z c))%Q).
  { field. repeat split; intros H; unfold Qeq in H; cbn in H; lia. }
  now rewrite E.
Qed.

Lemma floordiv_ratio (a b c d : Z) : 0 < b -> 0 < c -> 0 < d ->
  floordiv (inject_Z a / inject_Z b) (inject_Z c / inject_Z d)
  = inject_Z ((a * d) / (b * c)).
Proof. intros. unfold floordiv. now rewrite Qfloor_ratios. Qed.

End PyNumFacts.

(** * The time cycle: facts *)

Module TimeFacts.

Import PyNum PyNumFacts.

Lemma Qfloor_ratio (a b : Z) : Qfloor (inject_Z a / inject_Z b) = a / b.
Proof. symmetry. apply Zdiv_Qdiv. Qed.

Lemma inject_Z_nonzero (z : Z) : z <> 0 -> ~ (inject_Z z == 0)%Q.
Proof. intros Hz H. unfold Qeq in H. cbn in H. lia. Qed.

Lemma pymod_ratio (a b c : Z) : 0 < b -> 0 < c ->
  (pymod (inject_Z a / inject_Z b) (inject_Z c)
   == inject_Z (a mod (b * c)) / inject_Z b)%Q.
Proof.
  intros Hb Hc. unfold pymod, floordiv.
  assert (E : (inject_Z a / inject_Z b / inject_Z c
               == inject_Z a / inject_Z (b * c))%Q).
  { rewrite inject_Z_mult. field.
    split; apply inject_Z_nonzero; lia. }
  rewrite E, Qfloor_ratio.
  rewrite (Z.mod_eq a (b * c)) by lia.
  unfold Z.sub. rewrite inject_Z_plus, inject_Z_opp, !inject_Z_mult.
  field. apply inject_Z_nonzero; lia.
Qed.

Lemma elapsed_seconds t :
  total_seconds (t - epoch) = (inject_Z t / inject_Z us_per_second)%Q.
Proof. unfold total_seconds, epoch. now rewrite Z.sub_0_r. Qed.

Lemma game_day_at_Z t : game_day_at t = (t * 13 / cycle_us) mod 13 + 1.
Proof.
  unfold game_day_at, game_time_at. cbn [fst snd]. f_equal.
  rewrite elapsed_seconds.
  change 13%Q with (inject_Z 13).
  rewrite floordiv_ratio by (unfold us_per_second, cycle_duration; lia).
  rewrite pymod_Z by lia. rewrite int_of_float_Z.
  reflexivity.
Qed.

Lemma time_to_next_at_Z t : time_to_next_at t = cycle_us - t mod cycle_us.
Proof.
  unfold time_to_next_at, game_time_at. cbn [fst snd].
  rewrite elapsed_seconds. unfold timedelta_seconds.
  rewrite pymod_ratio by (unfold us_per_second, cycle_duration; lia).
  rewrite <- round_half_even_Z. apply round_half_even_proper.
  unfold cycle_us, Z.sub.
  rewrite inject_Z_plus, inject_Z_opp, inject_Z_mult. rewrite Z.mul_comm.
  field. apply inject_Z_nonzero. unfold us_per_second. lia.
Qed.

Lemma is_night_at_eq t : is_night_at t = (6 <? game_day_at t).
Proof. reflexivity. Qed.

Lemma day_index_spec_Z t :
  day_index_spec t = (t mod cycle_us) * 13 / cycle_us + 1.
Proof.
  unfold day_index_spec. cbv zeta. f_equal.
  rewrite elapsed_seconds.
  rewrite pymod_ratio by (unfold us_per_second; lia).
  change 13%Q with (inject_Z 13).
  rewrite Qfloor_ratios by (unfold us_per_second; lia).
  unfold cycle_us, cycle_duration. now rewrite (Z.mul_comm us_per_second).
Qed.

(** One cycle later the quotient by a thirteenth of a cycle has advanced by
    thirteen. *)
Lemma day_quotient t :
  t * 13 / cycle_us = 13 * (t / cycle_us) + (t mod cycle_us) * 13 / cycle_us.
Proof.
  assert (Hc : 0 < cycle_us) by (unfold cycle_us, cycle_duration, us_per_second; lia).
  rewrite (Z.div_mod t cycle_us) at 1 by lia.
  replace ((cycle_us * (t / cycle_us) + t mod cycle_us) * 13)
    with (13 * (t / cycle_us) * cycle_us + (t mod cycle_us) * 13) by ring.
  rewrite Z.div_add_l by lia. reflexivity.
Qed.

Lemma day_in_cycle_range t : 0 <= (t mod cycle_us) * 13 / cycle_us < 13.
Proof.
  assert (Hc : 0 < cycle_us) by (unfold cycle_us, cycle_duration, us_per_second; lia).
  pose proof (Z.mod_pos_bound t cycle_us Hc) as Hr.
  split.
  - apply Z.div_pos; lia.
  - apply Z.div_lt_upper_bound; lia.
Qed.

Lemma game_day_at_spec t : game_day_at t = day_index_spec t.
Proof.
  rewrite game_day_at_Z, day_index_spec_Z, day_quotient.
  rewrite (Z.add_comm (13 * _)), (Z.mul_comm 13), Z.mod_add by lia.
  rewrite Z.mod_small by apply day_in_cycle_range. reflexivity.
Qed.

End TimeFacts.

(** * Running the handler *)

Module Run.

#[local] Arguments energy_at : simpl never.
#[local] Arguments game_time_at : simpl never.
#[local] Arguments hours_of : simpl never.
#[local] Arguments unit_float : simpl never.
#[local] Arguments Qltb : simpl never.
#[local] Arguments Z.mul : simpl never.
#[local] Arguments Z.add : simpl never.
#[local] Arguments Z.modulo : simpl never.
#[local] Arguments Z.ltb : simpl never.
#[local] Arguments Z.leb : simpl never.

Lemma prefix_app (p s : string) :
  String.prefix p s = true -> exists rest, s = String.append p rest.
Proof.
  revert s. induction p as [|a p IH]; intros s H.
  - exists s. reflexivity.
  - destruct s as [|b s]; [discriminate|]. cbn in H.
    destruct (ascii_dec a b) as [->|]; [|discriminate].
    destruct (IH _ H) as [rest ->]. exists rest. reflexivity.
Qed.

(** Which branch of the dispatch a callback takes. *)
Lemma route_area data :
  String.prefix "explore_" data = true ->
  String.eqb data "explore" = false.
Proof. intros H. apply prefix_app in H as [rest ->]. reflexivity. Qed.

Lemma route_star data :
  String.prefix "star_" data = true ->
  String.eqb data "explore" = false
  /\ String.prefix "explore_" data = false
  /\ String.eqb data "collect_star" = false.
Proof. intros H. apply prefix_app in H as [rest ->]. repeat split. Qed.

Lemma split_area data :
  String.prefix "explore_" data = true ->
  exists part parts, split_on "_" data = "explore"%string :: part :: parts.
Proof.
  intros H. apply prefix_app in H as [rest ->].
  assert (Hne : exists part parts, split_on "_" rest = part :: parts).
  { destruct rest as [|c rest]; cbn; [eauto|].
    destruct (Ascii.eqb c "_"); [eauto|].
    destruct (split_on "_" rest); eauto. }
  destruct Hne as (part & parts & E). exists part, parts.
  cbv [String.append]. cbn. rewrite E. reflexivity.
Qed.

(** The squirrel check. *)
Lemma button_run user data w d :
  users_collection w !! user = Some d ->
  button user data w =
  let e := energy_at d (reading w 0) in
  let w1 :=
    store (alter (fun d' => set_last_energy_update (reading w 1)
                              (set_energy e d')) user)
      (tick_clock (tick_clock w)) in
  match squirrel_status d, squirrel_recovery_time d with
  | healthy, _ => dispatch user (set_energy e d) data w1
  | injured, Some recovery_time =>
      if reading w 2 <? recovery_time then
        (Returned tt,
         send (msg_resting
                 (PyNum.int_of_float
                    (total_seconds (recovery_time - reading w 3)%Z / 60)%Q))
           (tick_clock (tick_clock w1)))
      else
        dispatch user (set_squirrel_status healthy (set_energy e d)) data
          (store (alter heal user) (tick_clock w1))
  | injured, None =>
      dispatch user (set_squirrel_status healthy (set_energy e d)) data
        (store (alter heal user) w1)
  end.
Proof.
  intros Hd. unfold button, bind, find_one. rewrite Hd. cbn.
  destruct (squirrel_status d); [reflexivity|].
  destruct (squirrel_recovery_time d) as [rt|]; [|reflexivity].
  cbn. unfold reading. cbn.
  destruct (_ <? rt); reflexivity.
Qed.

Lemma roll_threat_run ts w :
  roll_threat ts w =
  (Returned (first_threat ts (draws w) (random_calls w)),
   seek_random (cursor_after ts (draws w) (random_calls w)) w).
Proof.
  revert w. induction ts as [|[t_name t_prob] ts IH]; intros w.
  - destruct w; reflexivity.
  - cbn. unfold bind, random, bind, next_random, ret. cbn.
    fold (draws w (random_calls w)).
    destruct (Qltb (draws w (random_calls w)) t_prob); [reflexivity|].
    rewrite IH. destruct w; reflexivity.
Qed.

Lemma dispatch_area user ud data w :
  String.prefix "explore_" data = true ->
  dispatch user ud data w = explore_area user ud data (tick_clock w).
Proof.
  intros Hp. unfold dispatch, bind, get_game_time, bind, utcnow, ret.
  destruct (game_time_at _) as [[game_day is_night] time_to_next].
  rewrite (route_area _ Hp), Hp. reflexivity.
Qed.

Lemma dispatch_star user ud data w :
  String.prefix "star_" data = true ->
  dispatch user ud data w =
  (Returned tt,
   send msg_caught (store (alter (inc_stars 1) user) (tick_clock w))).
Proof.
  intros Hp. unfold dispatch, bind, get_game_time, bind, utcnow, ret.
  destruct (game_time_at _) as [[game_day is_night] time_to_next].
  destruct (route_star _ Hp) as (-> & -> & ->). rewrite Hp. reflexivity.
Qed.


Lemma explore_area_run user ud data w d0 e :
  energy ud = Some e ->
  users_collection w !! user = Some d0 ->
  String.prefix "explore_" data = true ->
  explore_area user ud data w =
  if e <? 1 then (Returned tt, send msg_tired w)
  else
    let acorns_found :=
      (0 + raw_draw w 0 mod (5 - 0 + 1))
      * (if 0 <? stars ud then 2 else 1) in
    let w2 :=
      seek_random (cursor_after threats (draws w) (S (random_calls w)))
        (store (alter (inc_energy (-1)) user) w) in
    match threat_met w with
    | Some t_name =>
        (Returned tt,
         send (msg_threat t_name)
           (store
              (alter
                 (fun d =>
                    set_squirrel_recovery_time
                      (Some (reading w 0 + timedelta_hours 2))
                      (set_squirrel_status injured d)) user)
              (tick_clock w2)))
    | None =>
        let w3 := store (alter (inc_acorns acorns_found) user) w2 in
        if level d0 * 50 <=? acorns d0 + acorns_found then
          (Returned tt,
           send (msg_level_up (location_of data) acorns_found (level d0 + 1))
             (store
                (alter
                   (fun d =>
                      inc_energy 5 (inc_stars 1 (set_level (level d0 + 1) d)))
                   user) w3))
        else
          (Returned tt, send (msg_found (location_of data) acorns_found) w3)
    end.
Proof.
  intros He Hd Hp. unfold explore_area. rewrite He.
  unfold bind at 1. cbn [getitem ret].
  destruct (e <? 1); [reflexivity|].
  unfold bind, update_one, randint, bind, next_random, ret, find_one.
  rewrite roll_threat_run.
  unfold threat_met, location_of, raw_draw, reading. cbn [Nat.add].
  destruct (split_area _ Hp) as (part & parts & ->).
  change (random_calls (tick_random (store _ w))) with (S (random_calls w)).
  change (draws (tick_random (store _ w))) with (draws w).
  destruct (first_threat threats (draws w) (S (random_calls w))) as [t|].
  - reflexivity.
  - cbn [users_collection store seek_random tick_random send].
    rewrite !lookup_alter_eq, Hd. cbn [fmap option_fmap option_map].
    cbn [level acorns inc_acorns inc_energy set_energy].
    destruct (_ <=? _); reflexivity.
Qed.

End Run.

(** * What an accepted exploration does *)

Module Outcome.

Import Run.

#[local] Arguments energy_at : simpl never.
#[local] Arguments Z.mul : simpl never.
#[local] Arguments Z.add : simpl never.
#[local] Arguments Z.modulo : simpl never.
#[local] Arguments Z.ltb : simpl never.
#[local] Arguments Z.leb : simpl never.

Lemma exploration_outcome user d data w :
  accepted user d data w ->
  let w' := exec (button user data) w in
  let found := acorn_roll w * star_bonus d in
  let base := inc_energy (-1) (cleared d w) in
  random_calls w' = cursor_after threats (draws w) (S (random_calls w))
  /\ match threat_met w with
     | Some t_name =>
         users_collection w' !! user
         = Some (set_squirrel_recovery_time
                   (Some (reading w (3 + check_reads d) + timedelta_hours 2))
                   (set_squirrel_status injured base))
         /\ sent w' = sent w ++ [msg_threat t_name]
         /\ utcnow_calls w' = (4 + check_reads d + utcnow_calls w)%nat
     | None =>
         utcnow_calls w' = (3 + check_reads d + utcnow_calls w)%nat
         /\ if level d * 50 <=? acorns d + found then
              users_collection w' !! user
              = Some (inc_energy 5
                        (inc_stars 1
                           (set_level (level d + 1) (inc_acorns found base))))
              /\ sent w'
                 = sent w ++ [msg_level_up (location_of data) found
                                (level d + 1)]
            else
              users_collection w' !! user = Some (inc_acorns found base)
              /\ sent w' = sent w ++ [msg_found (location_of data) found]
     end.
Proof.
  intros (Hd & Hrest & Hp & He). unfold exec.
  rewrite (button_run _ _ _ _ Hd). cbv zeta.
  unfold resting in Hrest. unfold cleared, regenerated, check_reads.
  assert (Hlt : (energy_at d (reading w 0) <? 1) = false) by (apply Z.ltb_ge; lia).
  destruct (squirrel_status d) eqn:Hs;
    [| destruct (squirrel_recovery_time d) as [rt|] eqn:Hrt; [rewrite Hrest|] ].
  all: rewrite (dispatch_area _ _ _ _ Hp).
  all: erewrite explore_area_run; [ | reflexivity | | exact Hp ].
  all: try (cbn [users_collection store tick_clock];
            rewrite ?lookup_alter_eq, Hd; reflexivity).
  all: rewrite Hlt; cbv zeta.
  all: change (threat_met (tick_clock ?x)) with (threat_met w).
  all: change (draws (tick_clock ?x)) with (draws w).
  all: unfold acorn_roll, star_bonus, reading, raw_draw.
  all: cbn [snd fst users_collection send store tick_clock seek_random
            tick_random random_calls sent utcnow_calls clock entropy
            Nat.add randint bind next_random ret
            level acorns stars set_energy set_last_energy_update
            set_squirrel_status set_squirrel_recovery_time heal].
  all: destruct (threat_met w) as [t|];
    [| destruct (_ <=? _) ];
    cbn [snd fst users_collection send store tick_clock seek_random
            tick_random random_calls sent utcnow_calls clock entropy];
    rewrite ?lookup_alter_eq, Hd; repeat split.
Qed.

End Outcome.

(** * Registration *)

(** [start] gives a new player the default document and leaves the document
    of a known player alone. *)
Lemma start_registers user name w :
  users_collection (exec (start user name) w) !! user
  = match users_collection w !! user with
    | Some d => Some d
    | None => Some (new_user name (reading w 0))
    end
  /\ fst (start user name w) = Returned tt.
Proof.
  unfold exec, start, bind, utcnow, get_game_time, bind, utcnow, ret.
  cbn [fst snd users_collection store tick_clock].
  destruct (game_time_at _) as [[game_day is_night] time_to_next].
  cbn [fst snd users_collection send reply_text]. unfold insert_if_absent.
  split; [| reflexivity].
  cbn [users_collection store tick_clock]. unfold reading. cbn [Nat.add].
  destruct (users_collection w !! user) as [d|] eqn:Hd.
  - exact Hd.
  - apply lookup_insert_eq.
Qed.

(** * The time cycle *)

Module Cycle.

Import TimeFacts.

Lemma cycle_us_pos : 0 < cycle_us.
Proof. reflexivity. Qed.

Lemma four_hours : timedelta_hours 4 = cycle_us.
Proof. reflexivity. Qed.

Lemma game_time_at_parts t :
  game_time_at t = (game_day_at t, 6 <? game_day_at t, time_to_next_at t).
Proof. reflexivity. Qed.

(** Whole cycles do not change what the oracle returns. *)
Lemma game_time_at_shift t k :
  game_time_at (t + k * cycle_us) = game_time_at t.
Proof.
  pose proof cycle_us_pos as Hc.
  rewrite !game_time_at_parts.
  assert (Hday : game_day_at (t + k * cycle_us) = game_day_at t).
  { rewrite !game_day_at_Z.
    replace ((t + k * cycle_us) * 13) with (t * 13 + (k * 13) * cycle_us)
      by ring.
    rewrite Z.div_add by lia.
    rewrite Z.mul_comm, Z.add_comm, Z.mul_comm, Z.add_comm.
    now rewrite Z.mod_add by lia. }
  assert (Hnext : time_to_next_at (t + k * cycle_us) = time_to_next_at t).
  { rewrite !time_to_next_at_Z. now rewrite Z.mod_add by lia. }
  now rewrite Hday, Hnext.
Qed.

(** A shift that the oracle does not see is a whole number of cycles. *)
Lemma period_is_cycles p :
  time_to_next_at (0 + p) = time_to_next_at 0 -> p = (p / cycle_us) * cycle_us.
Proof.
  pose proof cycle_us_pos as Hc.
  rewrite !time_to_next_at_Z, Z.add_0_l. rewrite Z.mod_0_l by lia.
  intros H. rewrite (Z.div_mod p cycle_us) at 1 by lia. lia.
Qed.

Lemma game_day_at_range t : 1 <= game_day_at t <= 13.
Proof.
  rewrite game_day_at_Z.
  pose proof (Z.mod_pos_bound (t * 13 / cycle_us) 13 ltac:(lia)). lia.
Qed.

End Cycle.

(** The exact reading of the oracle.  With the floats of lines 35-38 read
    as exact rationals, the day index is
    [floor((t mod cycleDuration) / (cycleDuration/13)) + 1] with a cycle of
    four hours, and a shift of the clock is invisible to the oracle exactly
    when it is a whole number of four-hour cycles. *)
Lemma exact_oracle_cycle :
  (forall t : datetime,
      game_day_at t = day_index_spec t
      /\ 1 <= game_day_at t <= 13
      /\ is_night_at t = (6 <? game_day_at t)
      /\ game_time_at (t + timedelta_hours 4) = game_time_at t)
  /\ (forall p : timedelta,
        (forall t, game_time_at (t + p) = game_time_at t)
        <-> (exists k, p = k * timedelta_hours 4)).
Proof.
  split.
  - intros t. split; [apply TimeFacts.game_day_at_spec|].
    split; [apply Cycle.game_day_at_range|].
    split; [reflexivity|].
    rewrite Cycle.four_hours, <- (Z.mul_1_l cycle_us).
    apply Cycle.game_time_at_shift.
  - intros p. rewrite Cycle.four_hours. split.
    + intros Hp. exists (p / cycle_us). apply Cycle.period_is_cycles.
      unfold time_to_next_at. now rewrite Hp.
    + intros [k ->] t. apply Cycle.game_time_at_shift.
Qed.

(** * Energy regeneration *)

Module Regen.

Import PyNum PyNumFacts.

(** Truncation of a quotient that is above [-1]. *)
Lemma quot_nonneg a b : 0 < b -> - b < a -> 0 <= Z.quot a b.
Proof.
  intros Hb Ha. destruct (Z.le_gt_cases 0 a) as [H0 | H0].
  - apply Z.quot_pos; lia.
  - rewrite <- (Z.opp_involutive a), Z.quot_opp_l by lia.
    rewrite Z.quot_small by lia. lia.
Qed.

Lemma quot_negative a b : 0 < b -> a <= - b -> Z.quot a b <= -1.
Proof.
  intros Hb Ha.
  rewrite <- (Z.opp_involutive a), Z.quot_opp_l by lia.
  assert (1 <= Z.quot (- a) b); [|lia].
  apply Z.quot_le_lower_bound; lia.
Qed.

Lemma int_of_float_floor (x : Q) : (0 <= x)%Q -> int_of_float x = Qfloor x.
Proof.
  intros H. rewrite int_of_float_cases.
  apply Qle_bool_iff in H. now rewrite H.
Qed.

Lemma int_twice_nonneg (h : Q) :
  (- (1 # 2) < h)%Q -> 0 <= int_of_float (h * 2).
Proof.
  destruct h as [n d]. unfold Qlt, int_of_float. cbn [Qnum Qden Qmult Qopp].
  intros H. apply quot_nonneg; lia.
Qed.

Lemma int_twice_negative (h : Q) :
  (h <= - (1 # 2))%Q -> int_of_float (h * 2) <= -1.
Proof.
  destruct h as [n d]. unfold Qle, int_of_float. cbn [Qnum Qden Qmult Qopp].
  intros H. apply quot_negative; lia.
Qed.

Lemma regen_le (e : Z) (h : Q) : regen e h <= 10.
Proof. unfold regen. lia. Qed.

End Regen.

(** C2, as the code has it. For every starting energy [e] and elapsed hours
    [h >= 0], regeneration returns [min(10, e + floor(2h))].  From full
    energy it returns 10 for every [h > -1/2]; for [h <= -1/2] (a last
    update that lies half an hour or more in the future) [int()] truncates
    [2h] to a negative integer and full energy drops below 10. *)
Theorem regen_formula (e : Z) (h : Q) :
  ((0 <= h)%Q -> regen e h = Z.min 10 (e + Qfloor (2 * h)))
  /\ ((- (1 # 2) < h)%Q -> regen 10 h = 10)
  /\ ((h <= - (1 # 2))%Q ->
      regen 10 h = 10 + PyNum.int_of_float (h * 2) /\ regen 10 h < 10).
Proof.
  unfold regen. repeat split.
  - intros Hh. rewrite Regen.int_of_float_floor.
    + rewrite (Qfloor_comp (h * 2) (2 * h)) by apply Qmult_comm. lia.
    + apply Qmult_le_0_compat; [exact Hh | discriminate].
  - intros Hh. pose proof (Regen.int_twice_nonneg h Hh). lia.
  - pose proof (Regen.int_twice_negative h H). lia.
  - pose proof (Regen.int_twice_negative h H). lia.
Qed.

Lemma regen_formula_witness :
  regen 3 (7 # 4) = Z.min 10 (3 + Qfloor (2 * (7 # 4)))
  /\ regen 10 (- (1 # 4)) = 10
  /\ regen 10 (- (3 # 2)) < 10.
Proof.
  split; [| split].
  - apply (proj1 (regen_formula 3 (7 # 4))). discriminate.
  - apply (proj1 (proj2 (regen_formula 10 (- (1 # 4))))). reflexivity.
  - apply (proj2 (proj2 (regen_formula 10 (- (3 # 2))))). discriminate.
Defined.

(** C2, as the specification states it, fails: one hour before the last
    update, full energy regenerates to 8. *)
Lemma regen_full_energy_drops :
  regen 10 (-1) = 8 /\ ~ (forall h : Q, regen 10 h = 10).
Proof.
  split; [reflexivity|].
  intros H. specialize (H (-1)%Q). discriminate H.
Qed.

(** * Rounding to a double: facts *)

Module DoubleFacts.

Import Double.

Local Open Scope Q_scope.

Lemma pow2_pos (e : Z) : 0 < 2 ^ e.
Proof. apply Qpower_0_lt. reflexivity. Qed.

Lemma pow2_succ (e : Z) : 2 ^ (e + 1) == 2 * 2 ^ e.
Proof. rewrite Qpower_plus by discriminate. change (2 ^ 1) with 2. ring. Qed.

Lemma pow2_pred (e : Z) : 2 * 2 ^ (e - 1) == 2 ^ e.
Proof.
  rewrite <- pow2_succ. now replace (e - 1 + 1)%Z with e by lia.
Qed.

Lemma pow2_inject (e : Z) : (0 <= e)%Z -> inject_Z (2 ^ e) == 2 ^ e.
Proof. intros H. now rewrite Zpower_Qpower. Qed.

Lemma pow2_sub (a b : Z) : 2 ^ (a - b) * 2 ^ b == 2 ^ a.
Proof.
  rewrite <- Qpower_plus by discriminate.
  now replace (a - b + b)%Z with a by lia.
Qed.

(** Bounds of a positive integer by the powers of two around it. *)
Lemma log2_bounds (n : Z) :
  (0 < n)%Z ->
  2 ^ Z.log2 n <= inject_Z n /\ inject_Z n < 2 * 2 ^ Z.log2 n.
Proof.
  intros Hn. destruct (Z.log2_spec n Hn) as [Hlo Hhi].
  pose proof (Z.log2_nonneg n) as Hl.
  rewrite <- pow2_succ, <- !pow2_inject by lia.
  rewrite <- Zle_Qle, <- Zlt_Qlt. split; [exact Hlo|].
  now replace (Z.log2 n + 1)%Z with (Z.succ (Z.log2 n)) by lia.
Qed.

Lemma ilog2_spec (x : Q) :
  0 < x -> 2 ^ ilog2 x <= x /\ x < 2 * 2 ^ ilog2 x.
Proof.
  intros Hx. destruct x as [n d].
  assert (Hn : (0 < n)%Z).
  { unfold Qlt in Hx. cbn in Hx. lia. }
  unfold ilog2. cbn [Qnum Qden].
  set (l := (Z.log2 n - Z.log2 (Z.pos d))%Z).
  destruct (log2_bounds n Hn) as [Hn1 Hn2].
  destruct (log2_bounds (Z.pos d) ltac:(lia)) as [Hd1 Hd2].
  pose proof (pow2_sub (Z.log2 n) (Z.log2 (Z.pos d))) as Hl. fold l in Hl.
  pose proof (pow2_pos l) as Hpl.
  pose proof (pow2_pos (Z.log2 (Z.pos d))) as Hpd.
  pose proof (pow2_pred l) as Hpred.
  pose proof (pow2_pos (l - 1)) as Hpl1.
  assert (Hx_eq : (n # d) * inject_Z (Z.pos d) == inject_Z n).
  { unfold Qeq. cbn. rewrite Pos.mul_1_r. lia. }
  assert (HD : 0 < inject_Z (Z.pos d)) by reflexivity.
  set (x := n # d) in *. set (D := inject_Z (Z.pos d)) in *.
  set (N := inject_Z n) in *.
  set (a := 2 ^ Z.log2 n) in *. set (b := 2 ^ Z.log2 (Z.pos d)) in *.
  set (p := 2 ^ l) in *. set (p1 := 2 ^ (l - 1)) in *.
  assert (Hupper : x < 2 * p).
  { apply Qmult_lt_r with (z := D); [exact HD|]. nra. }
  assert (Hlower : p1 <= x).
  { apply Qmult_le_r with (z := D); [exact HD|]. nra. }
  assert (Htest :
    (if (0 <=? l)%Z then (Z.pos d * 2 ^ l <=? n)%Z
     else (Z.pos d <=? n * 2 ^ (- l))%Z) = true <-> p <= x).
  { destruct (Z.leb_spec 0 l) as [Hl0 | Hl0].
    - rewrite Z.leb_le, Zle_Qle, inject_Z_mult, pow2_inject by lia.
      fold D N p. split; intros H.
      + apply Qmult_le_r with (z := D); [exact HD|]. nra.
      + nra.
    - rewrite Z.leb_le, Zle_Qle, inject_Z_mult, pow2_inject by lia.
      fold D N.
      assert (Hinv : 2 ^ (- l) * p == 1).
      { unfold p. rewrite <- Qpower_plus by discriminate.
        now replace (- l + l)%Z with 0%Z by lia. }
      pose proof (pow2_pos (- l)) as Hpn.
      set (q := 2 ^ (- l)) in *. split; intros H.
      + apply Qmult_le_r with (z := D * q); [nra|]. nra.
      + nra. }
  destruct (if (0 <=? l)%Z then _ else _) eqn:E.
  - split; [now apply Htest | exact Hupper].
  - split; [exact Hlower|].
    assert (Hnot : ~ p <= x) by (intros H; apply Htest in H; congruence).
    fold p1. lra.
Qed.

Lemma ilog2_unique (x : Q) (a b : Z) :
  2 ^ a <= x -> x < 2 * 2 ^ a -> 2 ^ b <= x -> x < 2 * 2 ^ b -> a = b.
Proof.
  assert (Hone : forall c d : Z,
             2 ^ c <= x -> x < 2 * 2 ^ d -> (c < d + 1)%Z).
  { intros c d Hc Hd. rewrite <- pow2_succ in Hd.
    apply (Qpower_lt_compat_l_inv 2); [| reflexivity]. lra. }
  intros Ha1 Ha2 Hb1 Hb2.
  pose proof (Hone a b Ha1 Hb2). pose proof (Hone b a Hb1 Ha2). lia.
Qed.

Lemma ilog2_proper (x y : Q) : x == y -> 0 < x -> ilog2 x = ilog2 y.
Proof.
  intros Hxy Hx.
  destruct (ilog2_spec x Hx) as [Hx1 Hx2].
  destruct (ilog2_spec y ltac:(lra)) as [Hy1 Hy2].
  apply (ilog2_unique x); lra.
Qed.

(** Rounding to the nearest integer moves by at most one half. *)
Lemma round_half_even_error (x : Q) :
  x - (1 # 2) <= inject_Z (PyNum.round_half_even x)
  /\ inject_Z (PyNum.round_half_even x) <= x + (1 # 2).
Proof.
  unfold PyNum.round_half_even. cbv zeta.
  pose proof (Qfloor_le x) as Hlo. pose proof (Qlt_floor x) as Hhi.
  rewrite inject_Z_plus in Hhi. change (inject_Z 1) with 1 in Hhi.
  destruct (Qcompare_spec (x - inject_Z (Qfloor x)) (1 # 2)) as [E | E | E];
    [destruct (Z.even (Qfloor x)) | |];
    rewrite ?inject_Z_plus; change (inject_Z 1) with 1; lra.
Qed.

Lemma round_pos_ext (x y : Q) :
  x == y -> 0 < x -> round_pos x = round_pos y.
Proof.
  intros Hxy Hx. unfold round_pos. cbv zeta.
  rewrite <- (ilog2_proper x y Hxy Hx).
  assert (E : x / 2 ^ (ilog2 x - 52) == y / 2 ^ (ilog2 x - 52))
    by (apply Qdiv_comp; [exact Hxy | reflexivity]).
  now rewrite (PyNumFacts.round_half_even_proper _ _ E).
Qed.

(** Equal rationals round to the same double, written the same way. *)
Lemma fl_ext (x y : Q) : x == y -> fl x = fl y.
Proof.
  intros Hxy. unfold fl.
  rewrite (Qcompare_comp x y Hxy 0 0 (Qeq_refl 0)).
  destruct (Qcompare_spec y 0) as [E | E | E]; [reflexivity | |].
  - f_equal. apply round_pos_ext; lra.
  - apply round_pos_ext; lra.
Qed.

#[global] Instance fl_proper : Proper (Qeq ==> Qeq) fl.
Proof. intros x y Hxy. now rewrite (fl_ext x y Hxy). Qed.

Lemma pow2_52 : 2 ^ 52 == 4503599627370496.
Proof. reflexivity. Qed.

(** The relative error of rounding is at most [2^-53]. *)
Lemma round_pos_error (x : Q) :
  0 < x ->
  x - eps * x <= round_pos x /\ round_pos x <= x + eps * x.
Proof.
  intros Hx. unfold round_pos. cbv zeta.
  destruct (ilog2_spec x Hx) as [Hlo _].
  pose proof (pow2_sub (ilog2 x) 52) as Hsplit.
  pose proof (pow2_pos (ilog2 x - 52)) as Hpos.
  rewrite pow2_52 in Hsplit.
  set (p := 2 ^ (ilog2 x - 52)) in *.
  destruct (round_half_even_error (x / p)) as [Hm1 Hm2].
  set (m := inject_Z (PyNum.round_half_even (x / p))) in *.
  assert (Hq : x / p * p == x) by (field; lra).
  set (q := x / p) in *. unfold eps.
  split; nra.
Qed.

Lemma fl_pos (x : Q) : 0 < x -> fl x = round_pos x.
Proof.
  intros Hx. unfold fl. now apply Qgt_alt in Hx as ->.
Qed.

Lemma fl_error (x : Q) :
  0 < x -> x - eps * x <= fl x /\ fl x <= x + eps * x.
Proof. intros Hx. rewrite (fl_pos x Hx). now apply round_pos_error. Qed.

Lemma fl_neg (x : Q) : x < 0 -> fl x = - round_pos (- x).
Proof.
  intros Hx. unfold fl. now apply Qlt_alt in Hx as ->.
Qed.

Lemma fl_error_neg (x : Q) :
  x < 0 -> x + eps * x <= fl x /\ fl x <= x - eps * x.
Proof.
  intros Hx. rewrite (fl_neg x Hx).
  destruct (round_pos_error (- x)) as [H1 H2]; [lra|]. split; lra.
Qed.

(** The error of rounding a number of size at most [b]. *)
Lemma fl_error_within (x b : Q) :
  - b <= x -> x <= b -> x - eps * b <= fl x /\ fl x <= x + eps * b.
Proof.
  intros Hlo Hhi. unfold eps.
  destruct (Q_dec x 0) as [[Hneg | Hpos] | Hzero].
  - destruct (fl_error_neg x Hneg) as [H1 H2]. unfold eps in *.
    split; lra.
  - destruct (fl_error x Hpos) as [H1 H2]. unfold eps in *. split; lra.
  - rewrite (fl_ext _ _ Hzero). change (fl 0) with 0. split; lra.
Qed.

Lemma fl_zero (x : Q) : x == 0 -> fl x == 0.
Proof. intros E. now rewrite E. Qed.

(** Rounding an integer gives an integer, and the same integer if it has
    at most 53 bits. *)
Lemma round_pos_int (z : Z) :
  (0 < z)%Z ->
  exists z' : Z,
    round_pos (inject_Z z) == inject_Z z'
    /\ ((z < 2 ^ 53)%Z -> z' = z).
Proof.
  intros Hz.
  assert (Hx : 0 < inject_Z z) by (rewrite Zlt_Qlt in Hz; exact Hz).
  destruct (ilog2_spec _ Hx) as [Hlo Hhi].
  unfold round_pos. cbv zeta.
  set (e := (ilog2 (inject_Z z) - 52)%Z).
  destruct (Z.le_gt_cases e 0) as [He | He].
  - exists z.
    assert (Hscale : inject_Z z / 2 ^ e == inject_Z (z * 2 ^ (- e))).
    { rewrite inject_Z_mult, pow2_inject by lia.
      rewrite Qpower_opp. reflexivity. }
    rewrite (PyNumFacts.round_half_even_proper _ _ Hscale).
    rewrite PyNumFacts.round_half_even_Z, inject_Z_mult, pow2_inject by lia.
    split; [| reflexivity].
    rewrite Qpower_opp. field. pose proof (pow2_pos e). lra.
  - exists (PyNum.round_half_even (inject_Z z / 2 ^ e) * 2 ^ e)%Z.
    split.
    + now rewrite inject_Z_mult, pow2_inject by lia.
    + intros Hsmall. exfalso.
      assert (H53 : inject_Z z < 2 ^ 53).
      { rewrite <- pow2_inject by lia. now rewrite <- Zlt_Qlt. }
      assert ((ilog2 (inject_Z z) < 53)%Z); [| lia].
      apply (Qpower_lt_compat_l_inv 2); [| reflexivity]. lra.
Qed.

Lemma fl_int (z : Z) :
  exists z' : Z,
    fl (inject_Z z) == inject_Z z'
    /\ ((- 2 ^ 53 < z < 2 ^ 53)%Z -> z' = z).
Proof.
  destruct (Z.lt_trichotomy z 0) as [Hneg | [-> | Hpos]].
  - destruct (round_pos_int (- z) ltac:(lia)) as (z' & E & Hsmall).
    exists (- z')%Z. split.
    + unfold fl.
      assert (Hlt : inject_Z z < 0) by (rewrite Zlt_Qlt in Hneg; exact Hneg).
      apply Qlt_alt in Hlt as ->.
      change (- inject_Z z) with (inject_Z (- z)).
      rewrite E. reflexivity.
    + intros H. rewrite Hsmall; lia.
  - exists 0%Z. split; [reflexivity | reflexivity].
  - destruct (round_pos_int z Hpos) as (z' & E & Hsmall).
    exists z'. split.
    + rewrite fl_pos by (rewrite Zlt_Qlt in Hpos; exact Hpos). exact E.
    + intros H. apply Hsmall. lia.
Qed.

Lemma fl_small_int (z : Z) :
  (- 2 ^ 53 < z < 2 ^ 53)%Z -> fl (inject_Z z) == inject_Z z.
Proof.
  intros H. destruct (fl_int z) as (z' & E & Hsmall).
  now rewrite E, (Hsmall H).
Qed.

End DoubleFacts.

(** * Line 36 in doubles: facts *)

Module DayInDoubles.

Import Double DoubleFacts.

Local Open Scope Q_scope.

Lemma Qltb_lt (x y : Q) : Qltb x y = true <-> x < y.
Proof.
  unfold Qltb. destruct (Qcompare_spec x y) as [E | E | E]; split;
    intros H; try reflexivity; try discriminate; try exact E; lra.
Qed.

Lemma Qltb_ge (x y : Q) : Qltb x y = false <-> y <= x.
Proof.
  unfold Qltb. destruct (Qcompare_spec x y) as [E | E | E]; split;
    intros H; try reflexivity; try discriminate; lra.
Qed.

Lemma Qeq_bool_false (x y : Q) : Qeq_bool x y = false <-> ~ x == y.
Proof.
  split.
  - intros H E. apply Qeq_bool_iff in E. congruence.
  - intros H. destruct (Qeq_bool x y) eqn:E; [| reflexivity].
    apply Qeq_bool_iff in E. contradiction.
Qed.

Lemma inject_Z_sub (a b : Z) : inject_Z (a - b) == inject_Z a - inject_Z b.
Proof.
  unfold Z.sub, Qminus. now rewrite inject_Z_plus, inject_Z_opp.
Qed.

Lemma Qfloor_unique (x : Q) (n : Z) :
  inject_Z n <= x -> x < inject_Z n + 1 -> Qfloor x = n.
Proof.
  intros Hlo Hhi.
  pose proof (Qfloor_le x) as Hf1. pose proof (Qlt_floor x) as Hf2.
  rewrite inject_Z_plus in Hf2. change (inject_Z 1) with 1 in Hf2.
  assert (H1 : inject_Z (Qfloor x) < inject_Z (n + 1)).
  { rewrite inject_Z_plus. change (inject_Z 1) with 1. lra. }
  assert (H2 : inject_Z n < inject_Z (Qfloor x + 1)).
  { rewrite inject_Z_plus. change (inject_Z 1) with 1. lra. }
  rewrite <- Zlt_Qlt in H1, H2. lia.
Qed.

(** The quotient of the floor division is a whole number. *)
Lemma float_floor_div_int (vx wx : Q) :
  exists k : Z, float_floor_div vx wx == inject_Z k.
Proof.
  unfold float_floor_div. cbv zeta.
  match goal with |- context [Qeq_bool ?d 0] => set (div := d) end.
  destruct (negb (Qeq_bool div 0)); [| exists 0%Z; reflexivity].
  match goal with
  | |- context [if ?c then fl _ else inject_Z _] => destruct c
  end; [| eexists; reflexivity].
  destruct (fl_int (Qfloor div + 1)) as (z & E & _).
  exists z. rewrite <- E. apply fl_proper.
  rewrite inject_Z_plus. reflexivity.
Qed.

Lemma fmod_int (k : Z) :
  fmod (inject_Z k) (inject_Z 13) == inject_Z (Z.rem k 13).
Proof.
  unfold fmod.
  assert (E : PyNum.int_of_float (inject_Z k / inject_Z 13) = Z.quot k 13).
  { unfold PyNum.int_of_float. cbn. now rewrite Z.mul_1_r. }
  rewrite E.
  rewrite <- inject_Z_mult. unfold Qminus.
  rewrite <- inject_Z_opp, <- inject_Z_plus.
  apply inject_Z_injective.
  pose proof (Z.quot_rem' k 13). lia.
Qed.

(** The remainder by 13 of a whole number is its residue in 0..12. *)
Lemma float_rem_int (q : Q) (k : Z) :
  q == inject_Z k ->
  float_rem q (inject_Z 13) == inject_Z (k mod 13).
Proof.
  intros Hq. unfold float_rem. cbv zeta.
  assert (Hm : fmod q (inject_Z 13) == inject_Z (Z.rem k 13)).
  { rewrite <- fmod_int. unfold fmod.
    assert (E : q / inject_Z 13 == inject_Z k / inject_Z 13)
      by (apply Qdiv_comp; [exact Hq | reflexivity]).
    rewrite (PyNumFacts.int_of_float_proper _ _ E). now rewrite Hq. }
  set (m := fmod q (inject_Z 13)) in *.
  pose proof (Z.rem_bound_abs k 13 ltac:(lia)) as Hbound.
  pose proof (Z.quot_rem' k 13) as Hquot.
  change (Qltb (inject_Z 13) 0) with false.
  destruct (Qeq_bool m 0) eqn:Ezero; cbn [negb].
  - apply Qeq_bool_iff in Ezero. rewrite Hm in Ezero.
    assert (Hr0 : Z.rem k 13 = 0%Z).
    { apply inject_Z_injective. exact Ezero. }
    assert (Hk : (k mod 13 = 0)%Z).
    { symmetry. apply (Z.mod_unique_pos k 13 (Z.quot k 13)); lia. }
    now rewrite Hk.
  - apply Qeq_bool_false in Ezero.
    destruct (Qltb m 0) eqn:Eneg; cbn [Bool.eqb negb].
    + apply Qltb_lt in Eneg. rewrite Hm in Eneg.
      assert (Hr : (Z.rem k 13 < 0)%Z).
      { rewrite Zlt_Qlt. exact Eneg. }
      assert (Hk : (k mod 13 = Z.rem k 13 + 13)%Z).
      { symmetry. apply (Z.mod_unique_pos k 13 (Z.quot k 13 - 1)); lia. }
      rewrite Hk.
      transitivity (fl (inject_Z (Z.rem k 13 + 13)));
        [| apply fl_small_int; lia].
      apply fl_proper. rewrite Hm, inject_Z_plus. reflexivity.
    + apply Qltb_ge in Eneg. rewrite Hm in Eneg.
      assert (Hr : (0 <= Z.rem k 13)%Z).
      { rewrite Zle_Qle. exact Eneg. }
      assert (Hk : (k mod 13 = Z.rem k 13)%Z).
      { symmetry. apply (Z.mod_unique_pos k 13 (Z.quot k 13)); lia. }
      rewrite Hk. exact Hm.
Qed.

Lemma game_day_in_doubles_range (t : datetime) :
  (1 <= game_day_in_doubles t <= 13)%Z.
Proof.
  unfold game_day_in_doubles. cbv zeta.
  destruct (float_floor_div_int
              (int_truediv (t - epoch) us_per_second)
              (int_truediv cycle_duration 13)) as (k & Hk).
  rewrite (PyNumFacts.int_of_float_proper _ _ (float_rem_int _ k Hk)).
  rewrite PyNumFacts.int_of_float_Z.
  pose proof (Z.mod_pos_bound k 13 ltac:(lia)). lia.
Qed.

(** The last step of the floor division: a quotient within a quarter of a
    whole number is snapped to it. *)
Lemma snap_to_whole (div : Q) (k : Z) :
  (- 2 ^ 53 < k < 2 ^ 53)%Z ->
  inject_Z k - (1 # 4) <= div -> div <= inject_Z k + (1 # 4) ->
  (if negb (Qeq_bool div 0) then
     if Qltb (1 # 2) (fl (div - inject_Z (Qfloor div)))
     then fl (inject_Z (Qfloor div) + 1) else inject_Z (Qfloor div)
   else 0) == inject_Z k.
Proof.
  intros Hk Hlo Hhi. set (K := inject_Z k) in *.
  destruct (Qeq_bool div 0) eqn:Hz; cbn [negb].
  - apply Qeq_bool_iff in Hz.
    assert (H1 : inject_Z (-1) < K) by (change (inject_Z (-1)) with (-1); lra).
    assert (H2 : K < inject_Z 1) by (change (inject_Z 1) with 1; lra).
    unfold K in H1, H2. rewrite <- Zlt_Qlt in H1, H2.
    assert (k = 0%Z) as -> by lia. reflexivity.
  - destruct (Qlt_le_dec div K) as [Hlow | Hhigh].
    + assert (Hf : Qfloor div = (k - 1)%Z).
      { apply Qfloor_unique; rewrite inject_Z_sub;
          change (inject_Z 1) with 1; fold K; lra. }
      rewrite Hf.
      assert (Hgap : 0 < div - inject_Z (k - 1)).
      { rewrite inject_Z_sub. change (inject_Z 1) with 1. fold K. lra. }
      destruct (fl_error _ Hgap) as [Hg1 _]. unfold eps in Hg1.
      assert (Hround : Qltb (1 # 2) (fl (div - inject_Z (k - 1))) = true).
      { apply Qltb_lt. rewrite inject_Z_sub in Hg1 |- *.
        change (inject_Z 1) with 1 in Hg1 |- *. fold K in Hg1 |- *. lra. }
      rewrite Hround.
      transitivity (fl (inject_Z k)); [| apply fl_small_int; lia].
      apply fl_proper. rewrite inject_Z_sub. change (inject_Z 1) with 1.
      ring.
    + assert (Hf : Qfloor div = k).
      { apply Qfloor_unique; fold K; lra. }
      rewrite Hf. fold K.
      assert (Hround : Qltb (1 # 2) (fl (div - K)) = false).
      { apply Qltb_ge.
        destruct (Qlt_le_dec 0 (div - K)) as [Hgap | Hnone].
        - destruct (fl_error _ Hgap) as [_ Hg2]. unfold eps in Hg2. lra.
        - rewrite (fl_zero (div - K)) by lra. lra. }
      now rewrite Hround.
Qed.

(** The quotient that the floor division first computes: the truncated
    quotient of the operands, up to two roundings. *)
Lemma first_quotient (wx : Q) (T : Z) :
  0 < wx -> (- 2 ^ 49 <= T <= 2 ^ 49)%Z ->
  inject_Z T - (1 # 7) <= fl (fl (wx * inject_Z T) / wx)
  /\ fl (fl (wx * inject_Z T) / wx) <= inject_Z T + (1 # 7).
Proof.
  intros Hwx HT.
  assert (HT1 : - 562949953421312 <= inject_Z T).
  { change (- 562949953421312) with (inject_Z (- 2 ^ 49)).
    rewrite <- Zle_Qle. lia. }
  assert (HT2 : inject_Z T <= 562949953421312).
  { change 562949953421312 with (inject_Z (2 ^ 49)).
    rewrite <- Zle_Qle. lia. }
  set (K := inject_Z T) in *.
  destruct (fl_error_within (wx * K) (wx * 562949953421312)
              ltac:(nra) ltac:(nra)) as [Ha1 Ha2].
  set (a := fl (wx * K)) in *.
  assert (HA_eq : a / wx * wx == a) by (field; lra).
  set (A := a / wx) in *. unfold eps in *.
  assert (HA : K - (1 # 16) <= A /\ A <= K + (1 # 16)) by (split; nra).
  destruct (fl_error_within A 562949953421313 ltac:(lra) ltac:(lra))
    as [Hd1 Hd2].
  unfold eps in *. split; lra.
Qed.

(** On a positive divisor the floor division returns the floor of the exact
    quotient of its two operands, as long as that quotient is below [2^49]
    in size. *)
Lemma float_floor_div_exact (vx wx : Q) :
  0 < wx ->
  (- 2 ^ 49 < Qfloor (vx / wx) < 2 ^ 49)%Z ->
  float_floor_div vx wx == inject_Z (Qfloor (vx / wx)).
Proof.
  intros Hwx Hbig.
  assert (Hq_eq : vx / wx * wx == vx) by (field; lra).
  pose proof (Qfloor_le (vx / wx)) as Hk1.
  pose proof (Qlt_floor (vx / wx)) as Hk2.
  rewrite inject_Z_plus in Hk2. change (inject_Z 1) with 1 in Hk2.
  unfold float_floor_div. cbv zeta. unfold fmod.
  assert (Hsign : Qltb wx 0 = false) by (apply Qltb_ge; lra).
  rewrite Hsign.
  destruct (Qlt_le_dec (vx / wx) 0) as [Hneg | Hpos].
  - assert (Hint : PyNum.int_of_float (vx / wx) = Qceiling (vx / wx)).
    { rewrite PyNumFacts.int_of_float_cases.
      destruct (Qle_bool 0 (vx / wx)) eqn:E; [| reflexivity].
      apply Qle_bool_iff in E. lra. }
    rewrite Hint.
    pose proof (Qle_ceiling (vx / wx)) as Hc1.
    pose proof (Qceiling_lt (vx / wx)) as Hc2.
    rewrite inject_Z_sub in Hc2. change (inject_Z 1) with 1 in Hc2.
    set (q := vx / wx) in *. set (T := Qceiling q) in *.
    set (m := vx - wx * inject_Z T).
    assert (Hm : - wx < m /\ m <= 0) by (unfold m; split; nra).
    assert (Harg : vx - m == wx * inject_Z T) by (unfold m; ring).
    rewrite (fl_ext _ _ Harg).
    destruct (Qeq_bool m 0) eqn:Ezero; cbn [negb andb].
    + apply Qeq_bool_iff in Ezero.
      assert (HqT : q == inject_Z T) by (unfold m in Ezero; nra).
      assert (Hk : Qfloor q = T).
      { rewrite (Qfloor_comp _ _ HqT). apply Qfloor_Z. }
      rewrite Hk in *.
      destruct (first_quotient wx T Hwx ltac:(lia)) as [Hd1 Hd2].
      apply snap_to_whole; [lia | lra | lra].
    + apply Qeq_bool_false in Ezero.
      assert (Hmneg : Qltb m 0 = true) by (apply Qltb_lt; lra).
      rewrite Hmneg. cbn [Bool.eqb negb].
      assert (Hk : Qfloor q = (T - 1)%Z).
      { apply Qfloor_unique; rewrite inject_Z_sub;
          change (inject_Z 1) with 1; [lra|].
        unfold m in *. nra. }
      rewrite Hk in *.
      destruct (first_quotient wx T Hwx ltac:(lia)) as [Hd1 Hd2].
      set (div := fl (fl (wx * inject_Z T) / wx)) in *.
      assert (HT2 : - 562949953421312 <= inject_Z T
                    /\ inject_Z T <= 562949953421312).
      { change (- 562949953421312) with (inject_Z (- 2 ^ 49)).
        change 562949953421312 with (inject_Z (2 ^ 49)).
        rewrite <- !Zle_Qle. lia. }
      destruct (fl_error_within (div - 1) 562949953421314
                  ltac:(lra) ltac:(lra)) as [He1 He2].
      unfold eps in *.
      apply snap_to_whole; [lia | |];
        rewrite inject_Z_sub; change (inject_Z 1) with 1; lra.
  - assert (Hint : PyNum.int_of_float (vx / wx) = Qfloor (vx / wx))
      by now apply Regen.int_of_float_floor.
    rewrite Hint.
    set (q := vx / wx) in *. set (k := Qfloor q) in *.
    set (m := vx - wx * inject_Z k).
    assert (Hm : 0 <= m /\ m < wx) by (unfold m; split; nra).
    assert (Hmneg : Qltb m 0 = false) by (apply Qltb_ge; lra).
    rewrite Hmneg. cbn [Bool.eqb negb]. rewrite andb_false_r.
    assert (Harg : vx - m == wx * inject_Z k) by (unfold m; ring).
    rewrite (fl_ext _ _ Harg).
    destruct (first_quotient wx k Hwx ltac:(lia)) as [Hd1 Hd2].
    apply snap_to_whole; [lia | lra | lra].
Qed.

End DayInDoubles.

(** * The day index and the rounding of its operands *)

Module DayRounding.

Import Double DoubleFacts DayInDoubles.

Local Open Scope Q_scope.

(** The double of [cycle_duration / 13]: a little under a thirteenth of a
    cycle. *)
Lemma thirteenth_in_doubles :
  int_truediv cycle_duration 13 == 1217920572305723 # 1099511627776.
Proof. vm_compute. reflexivity. Qed.

Lemma floor_thirteen (u : Q) : Qfloor (u / 13) = (Qfloor u / 13)%Z.
Proof.
  pose proof (Qfloor_le u) as H1. pose proof (Qlt_floor u) as H2.
  rewrite inject_Z_plus in H2. change (inject_Z 1) with 1 in H2.
  pose proof (Z.div_mod (Qfloor u) 13 ltac:(lia)) as Hdm.
  pose proof (Z.mod_pos_bound (Qfloor u) 13 ltac:(lia)) as Hr.
  set (f := Qfloor u) in *. set (m := (f / 13)%Z) in *.
  assert (Hlo : inject_Z (13 * m) <= inject_Z f) by (rewrite <- Zle_Qle; lia).
  assert (Hhi : inject_Z (f + 1) <= inject_Z (13 * m + 13))
    by (rewrite <- Zle_Qle; lia).
  rewrite !inject_Z_plus, inject_Z_mult in Hhi. rewrite inject_Z_mult in Hlo.
  change (inject_Z 13) with 13 in *. change (inject_Z 1) with 1 in *.
  apply Qfloor_unique.
  - apply Qle_shift_div_l; [reflexivity | lra].
  - apply Qlt_shift_div_r; [reflexivity | lra].
Qed.

(** The formula of the specification is the quotient by a thirteenth of a
    cycle, reduced modulo 13. *)
Lemma day_index_of_seconds_quotient (s : Q) :
  day_index_of_seconds s
  = ((Qfloor (s / (inject_Z (4 * 3600) / 13)) mod 13) + 1)%Z.
Proof.
  unfold day_index_of_seconds. cbv zeta. f_equal.
  unfold PyNum.pymod, PyNum.floordiv.
  change (inject_Z (4 * 3600)) with 14400.
  set (u := s / (14400 / 13)).
  assert (Hm : Qfloor (s / 14400) = (Qfloor u / 13)%Z).
  { rewrite <- floor_thirteen. apply Qfloor_comp. unfold u. field. }
  rewrite Hm.
  assert (Hu : (s - 14400 * inject_Z (Qfloor u / 13)) / (14400 / 13)
               == u - inject_Z (13 * (Qfloor u / 13))).
  { unfold u. rewrite inject_Z_mult. change (inject_Z 13) with 13.
    field. }
  rewrite (Qfloor_comp _ _ Hu).
  pose proof (Qfloor_le u) as H1. pose proof (Qlt_floor u) as H2.
  rewrite inject_Z_plus in H2. change (inject_Z 1) with 1 in H2.
  rewrite Z.mod_eq by lia.
  apply Qfloor_unique; rewrite inject_Z_sub; lra.
Qed.

(** Line 35 in doubles: the elapsed seconds, rounded once. *)
Lemma elapsed_in_doubles (t : datetime) :
  total_seconds (t - epoch)%Z - eps * Qabs (total_seconds (t - epoch)%Z)
  <= int_truediv (t - epoch) us_per_second
  /\ int_truediv (t - epoch) us_per_second
     <= total_seconds (t - epoch)%Z
        + eps * Qabs (total_seconds (t - epoch)%Z).
Proof.
  unfold int_truediv. fold (total_seconds (t - epoch)%Z).
  set (tau := total_seconds (t - epoch)%Z).
  apply fl_error_within.
  - pose proof (Qle_Qabs (- tau)) as H. rewrite Qabs_opp in H. lra.
  - apply Qle_Qabs.
Qed.

Lemma elapsed_below (t : datetime) :
  (- 2 ^ 58 < t < 2 ^ 58)%Z ->
  Qabs (total_seconds (t - epoch)%Z) < 288230376152.
Proof.
  intros [Ht0 Ht1]. rewrite TimeFacts.elapsed_seconds.
  change (inject_Z us_per_second) with 1000000.
  assert (H0 : inject_Z (- 2 ^ 58) < inject_Z t) by now rewrite <- Zlt_Qlt.
  assert (H1 : inject_Z t < inject_Z (2 ^ 58)) by now rewrite <- Zlt_Qlt.
  change (inject_Z (2 ^ 58)) with 288230376151711744 in H1.
  change (inject_Z (- 2 ^ 58)) with (- 288230376151711744) in H0.
  apply Qabs_Qlt_condition. split.
  - apply Qlt_shift_div_l; [reflexivity | lra].
  - apply Qlt_shift_div_r; [reflexivity | lra].
Qed.

(** Within [2^58] microseconds of the epoch, the floor division and the
    remainder of line 36 add no error of their own: the day index is the
    floor of the quotient of the two doubles, reduced modulo 13. *)
Lemma game_day_in_doubles_quotient (t : datetime) :
  (- 2 ^ 58 < t < 2 ^ 58)%Z ->
  game_day_in_doubles t
  = (Qfloor (int_truediv (t - epoch) us_per_second
             / int_truediv cycle_duration 13) mod 13 + 1)%Z.
Proof.
  intros Ht.
  destruct (elapsed_in_doubles t) as (Hlo & Hhi).
  pose proof (elapsed_below t Ht) as Hbelow.
  pose proof (Qabs_nonneg (total_seconds (t - epoch)%Z)) as Habs.
  pose proof thirteenth_in_doubles as Hy.
  unfold game_day_in_doubles. cbv zeta.
  set (es := int_truediv (t - epoch) us_per_second) in *.
  set (y := int_truediv cycle_duration 13) in *.
  set (tau := total_seconds (t - epoch)%Z) in *. unfold eps in *.
  set (size := Qabs tau) in *.
  assert (Htau : - size <= tau /\ tau <= size).
  { split; [| apply Qle_Qabs].
    pose proof (Qle_Qabs (- tau)) as H. rewrite Qabs_opp in H.
    fold size in H. lra. }
  assert (Hypos : 0 < y) by (rewrite Hy; reflexivity).
  assert (Hsmall : - 562949953421311 < es / y /\ es / y < 562949953421311).
  { split.
    - apply Qlt_shift_div_l; [exact Hypos|]. rewrite Hy. lra.
    - apply Qlt_shift_div_r; [exact Hypos|]. rewrite Hy. lra. }
  pose proof (Qfloor_le (es / y)) as Hf1.
  pose proof (Qlt_floor (es / y)) as Hf2.
  rewrite inject_Z_plus in Hf2. change (inject_Z 1) with 1 in Hf2.
  assert (Hk49 : (- 2 ^ 49 < Qfloor (es / y) < 2 ^ 49)%Z).
  { rewrite !Zlt_Qlt. change (inject_Z (2 ^ 49)) with 562949953421312.
    change (inject_Z (- 2 ^ 49)) with (- 562949953421312). lra. }
  pose proof (float_floor_div_exact es y Hypos Hk49) as Hq.
  rewrite (PyNumFacts.int_of_float_proper _ _ (float_rem_int _ _ Hq)).
  now rewrite PyNumFacts.int_of_float_Z.
Qed.

(** Within [2^58] microseconds of the epoch, the day index of line 36 is
    the formula of the specification at a number of seconds that differs
    from the elapsed seconds by at most their [2^-52]-th part. *)
Lemma game_day_in_doubles_backward (t : datetime) :
  (- 2 ^ 58 < t < 2 ^ 58)%Z ->
  exists s : Q,
    total_seconds (t - epoch)%Z
    - double_rounding (total_seconds (t - epoch)%Z) <= s
    /\ s <= total_seconds (t - epoch)%Z
            + double_rounding (total_seconds (t - epoch)%Z)
    /\ game_day_in_doubles t = day_index_of_seconds s.
Proof.
  intros Ht.
  rewrite (game_day_in_doubles_quotient t Ht).
  destruct (elapsed_in_doubles t) as (Hlo & Hhi).
  pose proof (Qabs_nonneg (total_seconds (t - epoch)%Z)) as Habs.
  pose proof thirteenth_in_doubles as Hy.
  unfold double_rounding.
  set (es := int_truediv (t - epoch) us_per_second) in *.
  set (y := int_truediv cycle_duration 13) in *.
  set (tau := total_seconds (t - epoch)%Z) in *. unfold eps in *.
  set (size := Qabs tau) in *.
  assert (Htau : - size <= tau /\ tau <= size).
  { split; [| apply Qle_Qabs].
    pose proof (Qle_Qabs (- tau)) as H. rewrite Qabs_opp in H.
    fold size in H. lra. }
  assert (Hypos : 0 < y) by (rewrite Hy; reflexivity).
  assert (Hs : es / y * (14400 / 13)
               == es * (15832967439974400 # 15832967439974399)).
  { rewrite Hy. field. }
  exists (es / y * (14400 / 13)).
  split; [rewrite Hs; lra|]. split; [rewrite Hs; lra|].
  rewrite day_index_of_seconds_quotient.
  change (inject_Z (4 * 3600)) with 14400.
  do 2 f_equal. apply Qfloor_comp. field. lra.
Qed.

End DayRounding.

(** * Lines 38-39 in doubles: facts *)

Module NextStartInDoubles.

Import Double DoubleFacts DayInDoubles DayRounding.

Local Open Scope Q_scope.

(** The absolute error of rounding below [2^n] is at most [2^(n-54)]. *)
Lemma fl_abs_error (x : Q) (n : Z) :
  0 < x -> x < 2 ^ n ->
  x - 2 ^ (n - 54) <= fl x /\ fl x <= x + 2 ^ (n - 54).
Proof.
  intros Hx Hn. rewrite (fl_pos x Hx). unfold round_pos. cbv zeta.
  destruct (ilog2_spec x Hx) as [Hlo _].
  assert (Hl : (ilog2 x < n)%Z).
  { apply (Qpower_lt_compat_l_inv 2); [lra | reflexivity]. }
  assert (He : 2 ^ (ilog2 x - 52) <= 2 ^ (n - 53)).
  { apply Qpower_le_compat_l; [lia | discriminate]. }
  pose proof (pow2_pred (n - 53)) as Hhalf.
  replace (n - 53 - 1)%Z with (n - 54)%Z in Hhalf by lia.
  pose proof (pow2_pos (ilog2 x - 52)) as Hpos.
  set (p := 2 ^ (ilog2 x - 52)) in *.
  destruct (round_half_even_error (x / p)) as [Hm1 Hm2].
  set (m := inject_Z (PyNum.round_half_even (x / p))) in *.
  assert (Hq : x / p * p == x) by (field; lra).
  set (q := x / p) in *.
  set (h := 2 ^ (n - 54)) in *. set (P := 2 ^ (n - 53)) in *.
  split; nra.
Qed.

Lemma fl_abs_error_within (x : Q) (n : Z) :
  - 2 ^ n < x -> x < 2 ^ n ->
  x - 2 ^ (n - 54) <= fl x /\ fl x <= x + 2 ^ (n - 54).
Proof.
  intros Hlo Hhi. pose proof (pow2_pos (n - 54)) as Hp.
  destruct (Q_dec x 0) as [[Hneg | Hpos] | Hzero].
  - rewrite (fl_neg x Hneg), <- (fl_pos (- x)) by lra.
    destruct (fl_abs_error (- x) n) as [H1 H2]; [lra | lra |].
    split; lra.
  - now apply fl_abs_error.
  - rewrite (fl_ext _ _ Hzero). change (fl 0) with 0. split; lra.
Qed.

(** Rounding to the nearest integer finds an integer that is less than one
    half away. *)
Lemma round_half_even_near (x : Q) (z : Z) :
  inject_Z z - (1 # 2) < x -> x < inject_Z z + (1 # 2) ->
  PyNum.round_half_even x = z.
Proof.
  intros Hlo Hhi. unfold PyNum.round_half_even. cbv zeta.
  destruct (Qlt_le_dec x (inject_Z z)) as [Hbelow | Habove].
  - assert (Hf : Qfloor x = (z - 1)%Z).
    { apply Qfloor_unique; rewrite inject_Z_sub;
        change (inject_Z 1) with 1; lra. }
    rewrite Hf.
    assert (Hgt : 1 # 2 < x - inject_Z (z - 1)).
    { rewrite inject_Z_sub. change (inject_Z 1) with 1. lra. }
    destruct (Qcompare_spec (x - inject_Z (z - 1)) (1 # 2)) as [E | E | E];
      [lra | lra | lia].
  - assert (Hf : Qfloor x = z) by (apply Qfloor_unique; lra).
    rewrite Hf.
    destruct (Qcompare_spec (x - inject_Z z) (1 # 2)) as [E | E | E];
      [lra | reflexivity | lra].
Qed.

(** [x % y] on a positive [y]: the remainder of the floor division, exact
    on a non-negative [x] and rounded once below zero. *)
Lemma float_rem_positive (x y : Q) :
  0 < y ->
  x - y * inject_Z (Qfloor (x / y)) - eps * y <= float_rem x y
  /\ float_rem x y <= x - y * inject_Z (Qfloor (x / y)) + eps * y.
Proof.
  intros Hy.
  assert (Hq_eq : x / y * y == x) by (field; lra).
  pose proof (Qfloor_le (x / y)) as Hk1.
  pose proof (Qlt_floor (x / y)) as Hk2.
  rewrite inject_Z_plus in Hk2. change (inject_Z 1) with 1 in Hk2.
  unfold float_rem. cbv zeta. unfold fmod.
  assert (Hsign : Qltb y 0 = false) by (apply Qltb_ge; lra).
  rewrite Hsign. unfold eps.
  destruct (Qlt_le_dec (x / y) 0) as [Hneg | Hpos].
  - assert (Hint : PyNum.int_of_float (x / y) = Qceiling (x / y)).
    { rewrite PyNumFacts.int_of_float_cases.
      destruct (Qle_bool 0 (x / y)) eqn:E; [| reflexivity].
      apply Qle_bool_iff in E. lra. }
    rewrite Hint.
    pose proof (Qle_ceiling (x / y)) as Hc1.
    pose proof (Qceiling_lt (x / y)) as Hc2.
    rewrite inject_Z_sub in Hc2. change (inject_Z 1) with 1 in Hc2.
    set (q := x / y) in *. set (T := Qceiling q) in *.
    set (m := x - y * inject_Z T).
    assert (Hm : - y < m /\ m <= 0) by (unfold m; split; nra).
    destruct (Qeq_bool m 0) eqn:Ezero; cbn [negb].
    + apply Qeq_bool_iff in Ezero.
      assert (HqT : q == inject_Z T) by (unfold m in Ezero; nra).
      assert (Hk : Qfloor q = T).
      { rewrite (Qfloor_comp _ _ HqT). apply Qfloor_Z. }
      rewrite Hk. fold m. split; lra.
    + apply Qeq_bool_false in Ezero.
      assert (Hmneg : Qltb m 0 = true) by (apply Qltb_lt; lra).
      rewrite Hmneg. cbn [Bool.eqb negb].
      assert (Hk : Qfloor q = (T - 1)%Z).
      { apply Qfloor_unique; rewrite inject_Z_sub;
          change (inject_Z 1) with 1; [lra|].
        unfold m in *. nra. }
      rewrite Hk, inject_Z_sub. change (inject_Z 1) with 1.
      destruct (fl_error_within (m + y) y ltac:(lra) ltac:(lra))
        as [H1 H2].
      unfold eps in *. unfold m in *. split; lra.
  - rewrite (Regen.int_of_float_floor _ Hpos).
    set (K := inject_Z (Qfloor (x / y))) in *. set (q := x / y) in *.
    set (m := x - y * K).
    assert (Hm : 0 <= m) by (unfold m; nra).
    assert (Hmneg : Qltb m 0 = false) by (apply Qltb_ge; lra).
    rewrite Hmneg. cbn [Bool.eqb negb].
    destruct (Qeq_bool m 0) eqn:E; cbn [negb]; [| split; lra].
    apply Qeq_bool_iff in E. split; lra.
Qed.

(** A float within 0.477 microseconds of a whole positive number of
    microseconds builds the [timedelta] of that number. *)
Lemma timedelta_seconds_in_doubles_near (v : Q) (N : Z) :
  (0 < N)%Z ->
  inject_Z N - (477 # 1000) <= v * 1000000 ->
  v * 1000000 <= inject_Z N + (477 # 1000) ->
  timedelta_seconds_in_doubles v = N.
Proof.
  intros HN Hlo Hhi.
  assert (HN1 : 1 <= inject_Z N).
  { change 1 with (inject_Z 1). rewrite <- Zle_Qle. lia. }
  assert (Hv : 0 <= v) by lra.
  unfold timedelta_seconds_in_doubles. cbv zeta.
  rewrite (Regen.int_of_float_floor v Hv).
  pose proof (Qfloor_le v) as Hf1. pose proof (Qlt_floor v) as Hf2.
  rewrite inject_Z_plus in Hf2. change (inject_Z 1) with 1 in Hf2.
  change (inject_Z us_per_second) with 1000000.
  set (i := Qfloor v) in *.
  set (x := 1000000 * (v - inject_Z i)).
  assert (Hx : 0 <= x /\ x < 1000000) by (unfold x; split; lra).
  assert (Hd : x - (1 # 1000) <= fl x /\ fl x <= x + (1 # 1000)).
  { destruct Hx as [Hx0 Hx1].
    destruct (Qle_lt_or_eq _ _ Hx0) as [Hpos | Hzero].
    - destruct (fl_error x Hpos) as [H1 H2]. unfold eps in *. split; lra.
    - symmetry in Hzero. rewrite (fl_ext _ _ Hzero). change (fl 0) with 0.
      split; lra. }
  assert (Hround : PyNum.round_half_even (fl x) = (N - i * us_per_second)%Z).
  { apply round_half_even_near;
      rewrite inject_Z_sub, inject_Z_mult;
      change (inject_Z us_per_second) with 1000000; unfold x in *; lra. }
  rewrite Hround. lia.
Qed.

(** The elapsed seconds of line 35 stay in the cycle of the instant and
    within half a microsecond of it, up to [2^33] seconds from the epoch. *)
Lemma elapsed_in_cycle (t : datetime) :
  (- (2 ^ 33 * us_per_second) < t < 2 ^ 33 * us_per_second)%Z ->
  let tau := total_seconds (t - epoch)%Z in
  let es := int_truediv (t - epoch) us_per_second in
  tau - (1 # 2097152) <= es /\ es <= tau + (1 # 2097152)
  /\ 14400 * inject_Z (t / cycle_us) <= es
  /\ es < 14400 * inject_Z (t / cycle_us) + 14400.
Proof.
  intros [Ht0 Ht1] tau es.
  pose proof Cycle.cycle_us_pos as Hc.
  pose proof (Z.div_mod t cycle_us ltac:(lia)) as Hdm.
  pose proof (Z.mod_pos_bound t cycle_us Hc) as Hrho.
  set (k := (t / cycle_us)%Z) in *. set (rho := (t mod cycle_us)%Z) in *.
  assert (Hcv : cycle_us = 14400000000%Z) by reflexivity.
  assert (Htau : tau * 1000000
                 == 14400000000 * inject_Z k + inject_Z rho).
  { unfold tau. rewrite TimeFacts.elapsed_seconds.
    change (inject_Z us_per_second) with 1000000.
    rewrite Hdm, Hcv, inject_Z_plus, inject_Z_mult.
    change (inject_Z 14400000000) with 14400000000. field. }
  assert (HT : - 8589934592000000 < tau * 1000000
               /\ tau * 1000000 < 8589934592000000).
  { assert (Hinj : inject_Z t
                   == 14400000000 * inject_Z k + inject_Z rho).
    { rewrite Hdm at 1. rewrite Hcv, inject_Z_plus, inject_Z_mult.
      reflexivity. }
    rewrite Zlt_Qlt in Ht0, Ht1. rewrite inject_Z_opp in Ht0.
    change (inject_Z (2 ^ 33 * us_per_second))
      with 8589934592000000 in Ht0, Ht1.
    split; lra. }
  unfold es, int_truediv. fold (total_seconds (t - epoch)%Z). fold tau.
  destruct (Z.eq_dec rho 0%Z) as [Hzero | Hnonzero].
  - assert (Hint : tau == inject_Z (14400 * k)).
    { rewrite inject_Z_mult. change (inject_Z 14400) with 14400.
      rewrite Hzero in Htau. change (inject_Z 0) with 0 in Htau. lra. }
    rewrite (fl_ext _ _ Hint).
    assert (Hfl : fl (inject_Z (14400 * k)) == inject_Z (14400 * k)).
    { apply fl_small_int. unfold us_per_second in Ht0, Ht1. lia. }
    rewrite inject_Z_mult in Hint, Hfl.
    change (inject_Z 14400) with 14400 in Hint, Hfl.
    rewrite inject_Z_mult. change (inject_Z 14400) with 14400.
    set (e := fl (14400 * inject_Z k)) in *. lra.
  - assert (HR : 1 <= inject_Z rho /\ inject_Z rho <= 14399999999).
    { change 1 with (inject_Z 1).
      change 14399999999 with (inject_Z 14399999999).
      rewrite <- !Zle_Qle. lia. }
    assert (Hbelow : - 2 ^ 33 < tau /\ tau < 2 ^ 33).
    { change (2 ^ 33) with 8589934592. lra. }
    destruct (fl_abs_error_within tau 33 (proj1 Hbelow) (proj2 Hbelow))
      as [H1 H2].
    change (2 ^ (33 - 54)) with (1 # 2097152) in H1, H2.
    lra.
Qed.

(** While doubles resolve microseconds, lines 35-39 return the exact time
    to the next start of a cycle. *)
Lemma time_to_next_in_doubles_exact (t : datetime) :
  (- (2 ^ 33 * us_per_second) < t < 2 ^ 33 * us_per_second)%Z ->
  time_to_next_in_doubles t = (cycle_us - t mod cycle_us)%Z.
Proof.
  intros Ht.
  destruct (elapsed_in_cycle t Ht) as (Hlo & Hhi & Hfloor1 & Hfloor2).
  pose proof Cycle.cycle_us_pos as Hc.
  pose proof (Z.div_mod t cycle_us ltac:(lia)) as Hdm.
  pose proof (Z.mod_pos_bound t cycle_us Hc) as Hrho.
  set (k := (t / cycle_us)%Z) in *. set (rho := (t mod cycle_us)%Z) in *.
  assert (Hcv : cycle_us = 14400000000%Z) by reflexivity.
  assert (Htau : total_seconds (t - epoch)%Z * 1000000
                 == 14400000000 * inject_Z k + inject_Z rho).
  { rewrite TimeFacts.elapsed_seconds.
    change (inject_Z us_per_second) with 1000000.
    rewrite Hdm, Hcv, inject_Z_plus, inject_Z_mult.
    change (inject_Z 14400000000) with 14400000000. field. }
  assert (HR : 0 <= inject_Z rho /\ inject_Z rho <= 14399999999).
  { change 0 with (inject_Z 0).
    change 14399999999 with (inject_Z 14399999999).
    rewrite <- !Zle_Qle. lia. }
  unfold time_to_next_in_doubles. cbv zeta.
  change (inject_Z cycle_duration) with 14400.
  set (tau := total_seconds (t - epoch)%Z) in *.
  set (es := int_truediv (t - epoch) us_per_second) in *.
  destruct (float_rem_positive es 14400 ltac:(reflexivity)) as [Hr1 Hr2].
  assert (Hk : Qfloor (es / 14400) = k).
  { apply Qfloor_unique.
    - apply Qle_shift_div_l; [reflexivity | lra].
    - apply Qlt_shift_div_r; [reflexivity | lra]. }
  rewrite Hk in Hr1, Hr2. unfold eps in *.
  set (r := float_rem es 14400) in *.
  assert (Hw : 0 < 14400 - r) by lra.
  destruct (fl_error _ Hw) as [Hv1 Hv2]. unfold eps in *.
  set (v := fl (14400 - r)) in *.
  assert (HN : inject_Z (cycle_us - rho) == 14400000000 - inject_Z rho).
  { rewrite inject_Z_sub, Hcv. reflexivity. }
  apply timedelta_seconds_in_doubles_near; [lia | |]; rewrite HN; lra.
Qed.

(** The whole hours of a duration of at most one cycle are found exactly
    by the two divisions in doubles. *)
Lemma hours_in_doubles_exact (td : timedelta) :
  (0 <= td <= cycle_us)%Z ->
  hours_in_doubles td = (td / (3600 * us_per_second))%Z.
Proof.
  intros [Htd0 Htd1].
  assert (Hcv : cycle_us = 14400000000%Z) by reflexivity.
  assert (Hunit : (3600 * us_per_second)%Z = 3600000000%Z) by reflexivity.
  rewrite Hunit.
  pose proof (Z.div_mod td 3600000000 ltac:(lia)) as Hdm.
  pose proof (Z.mod_pos_bound td 3600000000 ltac:(lia)) as Hrho.
  assert (Hh : (0 <= td / 3600000000 <= 4)%Z).
  { split; [apply Z.div_pos; lia | apply Z.div_le_upper_bound; lia]. }
  set (h := (td / 3600000000)%Z) in *.
  set (rho := (td mod 3600000000)%Z) in *.
  assert (Hx : inject_Z td / inject_Z us_per_second * 1000000
               == 3600000000 * inject_Z h + inject_Z rho).
  { change (inject_Z us_per_second) with 1000000.
    rewrite Hdm, inject_Z_plus, inject_Z_mult.
    change (inject_Z 3600000000) with 3600000000. field. }
  assert (HH : 0 <= inject_Z h /\ inject_Z h <= 4).
  { change 0 with (inject_Z 0). change 4 with (inject_Z 4).
    rewrite <- !Zle_Qle. lia. }
  unfold hours_in_doubles, int_truediv.
  set (x := inject_Z td / inject_Z us_per_second) in *.
  destruct (Z.eq_dec rho 0%Z) as [Hzero | Hnonzero].
  - assert (Hint : x == inject_Z (3600 * h)).
    { rewrite inject_Z_mult. change (inject_Z 3600) with 3600.
      rewrite Hzero in Hx. change (inject_Z 0) with 0 in Hx. lra. }
    rewrite (fl_ext _ _ Hint).
    assert (Hfl : fl (inject_Z (3600 * h)) / 3600 == inject_Z h).
    { rewrite fl_small_int by lia. rewrite inject_Z_mult.
      change (inject_Z 3600) with 3600. field. }
    rewrite (fl_ext _ _ Hfl).
    assert (Hfl' : fl (inject_Z h) == inject_Z h)
      by (apply fl_small_int; lia).
    rewrite (PyNumFacts.int_of_float_proper _ _ Hfl').
    apply PyNumFacts.int_of_float_Z.
  - assert (HR : 1 <= inject_Z rho /\ inject_Z rho <= 3599999999).
    { change 1 with (inject_Z 1).
      change 3599999999 with (inject_Z 3599999999).
      rewrite <- !Zle_Qle. lia. }
    assert (Hpos : 0 < x) by lra.
    destruct (fl_error x Hpos) as [Ha1 Ha2]. unfold eps in *.
    set (a := fl x) in *.
    assert (Hy : a / 3600 * 3600 == a) by field.
    set (y := a / 3600) in *.
    assert (Hypos : 0 < y) by lra.
    destruct (fl_error y Hypos) as [Hb1 Hb2]. unfold eps in *.
    set (b := fl y) in *.
    rewrite Regen.int_of_float_floor by lra.
    apply Qfloor_unique; lra.
Qed.

End NextStartInDoubles.

(** * The oracle in doubles and the formula of the specification *)

Module OracleInDoubles.

Import Double DoubleFacts DayInDoubles DayRounding NextStartInDoubles.

Local Open Scope Q_scope.

Lemma Qle_bool_false (x y : Q) : Qle_bool x y = false -> y < x.
Proof.
  intros H. apply Qnot_le_lt. intros Hle.
  apply Qle_bool_iff in Hle. congruence.
Qed.

(** Away from the boundaries a small change of the seconds does not change
    the day of the formula. *)
Lemma day_index_away (tau s tol : Q) :
  near_day_boundary tau tol = false ->
  tau - tol <= s -> s <= tau + tol ->
  day_index_of_seconds s = day_index_of_seconds tau.
Proof.
  unfold near_day_boundary, PyNum.pymod, PyNum.floordiv. cbv zeta.
  change (inject_Z cycle_duration) with 14400.
  intros Hfar Hlo Hhi. apply orb_false_elim in Hfar as [Hlast Hnext].
  apply Qle_bool_false in Hlast, Hnext.
  rewrite !day_index_of_seconds_quotient.
  change (inject_Z (4 * 3600)) with 14400.
  do 2 f_equal.
  set (a := Qfloor (tau / (14400 / 13))) in *.
  apply Qfloor_unique.
  - apply Qle_shift_div_l; [reflexivity | lra].
  - apply Qlt_shift_div_r; [reflexivity | lra].
Qed.

Lemma day_index_of_seconds_proper (s s' : Q) :
  s == s' -> day_index_of_seconds s = day_index_of_seconds s'.
Proof.
  intros E. rewrite !day_index_of_seconds_quotient. do 2 f_equal.
  apply Qfloor_comp. now rewrite E.
Qed.

(** The formula of the specification repeats every four hours. *)
Lemma day_index_of_seconds_period (s : Q) :
  day_index_of_seconds (s + 14400) = day_index_of_seconds s.
Proof.
  rewrite !day_index_of_seconds_quotient.
  change (inject_Z (4 * 3600)) with 14400. f_equal.
  pose proof (Qfloor_le (s / (14400 / 13))) as H1.
  pose proof (Qlt_floor (s / (14400 / 13))) as H2.
  rewrite inject_Z_plus in H2. change (inject_Z 1) with 1 in H2.
  assert (Hq : (s + 14400) / (14400 / 13) == s / (14400 / 13) + 13)
    by field.
  assert (Hf : Qfloor ((s + 14400) / (14400 / 13))
               = (Qfloor (s / (14400 / 13)) + 1 * 13)%Z).
  { apply Qfloor_unique; rewrite Hq, inject_Z_plus;
      change (inject_Z (1 * 13)) with 13; lra. }
  rewrite Hf. apply Z.mod_add. lia.
Qed.

Lemma seconds_four_hours_later (t : datetime) :
  total_seconds (t + timedelta_hours 4 - epoch)%Z
  == total_seconds (t - epoch)%Z + 14400.
Proof.
  rewrite !TimeFacts.elapsed_seconds, inject_Z_plus.
  change (inject_Z (timedelta_hours 4)) with 14400000000.
  change (inject_Z us_per_second) with 1000000. field.
Qed.

(** Away from the boundaries line 36 returns the day of the formula. *)
Lemma game_day_in_doubles_away (t : datetime) :
  (- 2 ^ 58 < t < 2 ^ 58)%Z ->
  near_day_boundary (total_seconds (t - epoch)%Z)
    (double_rounding (total_seconds (t - epoch)%Z)) = false ->
  game_day_in_doubles t = day_index_spec t.
Proof.
  intros Ht Hfar.
  destruct (game_day_in_doubles_backward t Ht) as (s & Hs1 & Hs2 & ->).
  change (day_index_spec t)
    with (day_index_of_seconds (total_seconds (t - epoch)%Z)).
  now apply (day_index_away _ _ _ Hfar).
Qed.

(** Away from the boundaries the day index is the same four hours later. *)
Lemma game_day_in_doubles_period (t : datetime) :
  (- 2 ^ 58 < t)%Z -> (t + timedelta_hours 4 < 2 ^ 58)%Z ->
  near_day_boundary (total_seconds (t - epoch)%Z)
    (double_rounding (total_seconds (t - epoch)%Z)) = false ->
  near_day_boundary (total_seconds (t + timedelta_hours 4 - epoch)%Z)
    (double_rounding (total_seconds (t + timedelta_hours 4 - epoch)%Z))
  = false ->
  game_day_in_doubles (t + timedelta_hours 4)%Z = game_day_in_doubles t.
Proof.
  intros Ht0 Ht1 Hfar Hfar'.
  assert (Hfour : (0 < timedelta_hours 4)%Z) by reflexivity.
  rewrite (game_day_in_doubles_away t) by (lia || exact Hfar).
  rewrite (game_day_in_doubles_away (t + timedelta_hours 4)%Z)
    by (lia || exact Hfar').
  change (day_index_spec (t + timedelta_hours 4)%Z)
    with (day_index_of_seconds
            (total_seconds (t + timedelta_hours 4 - epoch)%Z)).
  rewrite (day_index_of_seconds_proper _ _ (seconds_four_hours_later t)).
  apply day_index_of_seconds_period.
Qed.

(** Where the exact reading of [get_game_time] and its evaluation in
    doubles return the same triple: up to [2^33] seconds from the epoch,
    away from the boundaries between game days. *)
Lemma game_time_in_doubles_agrees (t : datetime) :
  (- (2 ^ 33 * us_per_second) < t < 2 ^ 33 * us_per_second)%Z ->
  near_day_boundary (total_seconds (t - epoch)%Z)
    (double_rounding (total_seconds (t - epoch)%Z)) = false ->
  game_time_in_doubles t = game_time_at t.
Proof.
  intros Ht Hfar.
  assert (Ht' : (- 2 ^ 58 < t < 2 ^ 58)%Z)
    by (unfold us_per_second in Ht; lia).
  rewrite Cycle.game_time_at_parts. unfold game_time_in_doubles.
  unfold is_night_in_doubles.
  rewrite (game_day_in_doubles_away t Ht' Hfar), TimeFacts.game_day_at_spec.
  rewrite (time_to_next_in_doubles_exact t Ht), TimeFacts.time_to_next_at_Z.
  reflexivity.
Qed.

End OracleInDoubles.

(** C4. In double precision the time oracle keeps the day index in 1..13
    and night is exactly a day index above 6, at every timestamp.  Within
    [2^58] microseconds of the epoch (every [datetime] is) the day index is
    [floor((s mod cycleDuration) / (cycleDuration/13)) + 1] for a number of
    seconds [s] that differs from the seconds since the epoch by at most
    their [2^-52]-th part, so it is the value of the formula at the
    timestamp itself unless a boundary between two game days is that close;
    when neither the timestamp nor the one four hours later is that close
    to a boundary, day index and night flag are the same four hours later.
    The time to the next start of a cycle repeats every four hours, and
    after no shorter time, while doubles resolve microseconds (up to [2^33]
    seconds from the epoch). *)
Theorem time_oracle_in_doubles :
  (forall t : datetime,
      1 <= game_day_in_doubles t <= 13
      /\ is_night_in_doubles t = (6 <? game_day_in_doubles t))
  /\ (forall t : datetime,
        - 2 ^ 58 < t < 2 ^ 58 ->
        let seconds := total_seconds (t - epoch) in
        (exists s : Q,
            (seconds - double_rounding seconds <= s)%Q
            /\ (s <= seconds + double_rounding seconds)%Q
            /\ game_day_in_doubles t = day_index_of_seconds s)
        /\ (near_day_boundary seconds (double_rounding seconds) = false ->
            game_day_in_doubles t = day_index_spec t))
  /\ (forall t : datetime,
        - 2 ^ 58 < t -> t + timedelta_hours 4 < 2 ^ 58 ->
        let seconds := total_seconds (t - epoch) in
        let later := total_seconds (t + timedelta_hours 4 - epoch) in
        near_day_boundary seconds (double_rounding seconds) = false ->
        near_day_boundary later (double_rounding later) = false ->
        game_day_in_doubles (t + timedelta_hours 4) = game_day_in_doubles t
        /\ is_night_in_doubles (t + timedelta_hours 4)
           = is_night_in_doubles t)
  /\ (forall t : datetime,
        - (2 ^ 33 * us_per_second) < t ->
        t + timedelta_hours 4 < 2 ^ 33 * us_per_second ->
        time_to_next_in_doubles (t + timedelta_hours 4)
        = time_to_next_in_doubles t)
  /\ (forall p : timedelta,
        0 < p < timedelta_hours 4 ->
        time_to_next_in_doubles (epoch + p) <> time_to_next_in_doubles epoch).
Proof.
  split; [| split; [| split; [| split]]].
  - intros t. split; [apply DayInDoubles.game_day_in_doubles_range|].
    reflexivity.
  - intros t Ht seconds. split.
    + destruct (DayRounding.game_day_in_doubles_backward t Ht)
        as (s & Hlo & Hhi & Hday).
      exists s. now repeat split.
    + now apply OracleInDoubles.game_day_in_doubles_away.
  - intros t Ht0 Ht1 seconds later Hfar Hfar'.
    assert (Hday : game_day_in_doubles (t + timedelta_hours 4)
                   = game_day_in_doubles t)
      by now apply OracleInDoubles.game_day_in_doubles_period.
    split; [exact Hday|]. unfold is_night_in_doubles. now rewrite Hday.
  - intros t Ht0 Ht1.
    assert (Hfour : timedelta_hours 4 = 1 * cycle_us) by reflexivity.
    assert (Hcv : cycle_us = 14400000000) by reflexivity.
    assert (Hrange : 2 ^ 33 * us_per_second = 8589934592000000)
      by reflexivity.
    unfold datetime in *.
    rewrite !NextStartInDoubles.time_to_next_in_doubles_exact by lia.
    rewrite Hfour, Z.mod_add by lia. reflexivity.
  - intros p Hp.
    assert (Hfour : timedelta_hours 4 = cycle_us) by reflexivity.
    assert (Hcv : cycle_us = 14400000000) by reflexivity.
    assert (Hrange : 2 ^ 33 * us_per_second = 8589934592000000)
      by reflexivity.
    unfold epoch, timedelta in *.
    rewrite !NextStartInDoubles.time_to_next_in_doubles_exact by lia.
    rewrite Z.add_0_l, Z.mod_0_l, Z.mod_small by lia. lia.
Qed.

Lemma time_oracle_in_doubles_witness :
  let t := 1793707201000000 in
  game_day_in_doubles t = day_index_spec t
  /\ game_day_in_doubles (t + timedelta_hours 4) = game_day_in_doubles t
  /\ time_to_next_in_doubles (t + timedelta_hours 4)
     = time_to_next_in_doubles t
  /\ time_to_next_in_doubles (epoch + 1) <> time_to_next_in_doubles epoch.
Proof.
  intros t. split; [| split; [| split]].
  - apply (proj1 (proj2 time_oracle_in_doubles) t);
      [split; reflexivity | vm_compute; reflexivity].
  - apply (proj1 (proj2 (proj2 time_oracle_in_doubles)) t);
      [reflexivity | reflexivity | vm_compute; reflexivity
       | vm_compute; reflexivity].
  - apply (proj1 (proj2 (proj2 (proj2 time_oracle_in_doubles))) t);
      reflexivity.
  - apply (proj2 (proj2 (proj2 (proj2 time_oracle_in_doubles))) 1).
    split; reflexivity.
Defined.

(** C4, as the specification states it, fails.  At
    2034-05-30T17:50:46.153846, the last microsecond of day 6, line 36
    returns day 7 and night; at 2004-01-10T12:55:23.076923, the last
    microsecond of day 3, it returns day 4, and day 3 four hours later; at
    1969-12-31T20:00:00, where a cycle starts, it returns day 13. *)
Lemma day_index_misses_formula :
  game_day_in_doubles 2032624246153846 = 7
  /\ is_night_in_doubles 2032624246153846 = true
  /\ day_index_spec 2032624246153846 = 6
  /\ game_day_in_doubles 1073739323076923 = 4
  /\ day_index_spec 1073739323076923 = 3
  /\ game_day_in_doubles (1073739323076923 + timedelta_hours 4) = 3
  /\ game_day_in_doubles (epoch - timedelta_hours 4) = 13
  /\ day_index_spec (epoch - timedelta_hours 4) = 1
  /\ ~ (forall t : datetime, game_day_in_doubles t = day_index_spec t).
Proof.
  assert (H7 : game_day_in_doubles 2032624246153846 = 7)
    by (vm_compute; reflexivity).
  assert (H6 : day_index_spec 2032624246153846 = 6)
    by (vm_compute; reflexivity).
  split; [exact H7|]. split; [vm_compute; reflexivity|].
  split; [exact H6|]. split; [vm_compute; reflexivity|].
  split; [vm_compute; reflexivity|]. split; [vm_compute; reflexivity|].
  split; [vm_compute; reflexivity|]. split; [vm_compute; reflexivity|].
  intros Hall. rewrite (Hall 2032624246153846), H6 in H7. discriminate.
Qed.

(** * The squirrel check *)

Module Gate.

Import Run.

#[local] Arguments energy_at : simpl never.

Lemma resting_injured d w :
  resting d w = true ->
  exists recovery_time,
    squirrel_status d = injured
    /\ squirrel_recovery_time d = Some recovery_time
    /\ reading w 2 < recovery_time.
Proof.
  unfold resting. destruct (squirrel_status d); [discriminate|].
  destruct (squirrel_recovery_time d) as [rt|]; [|discriminate].
  intros H. exists rt. repeat split. now apply Z.ltb_lt.
Qed.

(** A resting squirrel: the handler stops after the energy update. *)
Lemma button_resting user data w d recovery_time :
  users_collection w !! user = Some d ->
  squirrel_status d = injured ->
  squirrel_recovery_time d = Some recovery_time ->
  reading w 2 < recovery_time ->
  button user data w =
  (Returned tt,
   send (msg_resting
           (PyNum.int_of_float
              (total_seconds (recovery_time - reading w 3)%Z / 60)%Q))
     (tick_clock
        (tick_clock
           (store
              (alter (fun d' => set_last_energy_update (reading w 1)
                                  (set_energy (energy_at d (reading w 0)) d'))
                 user)
              (tick_clock (tick_clock w)))))).
Proof.
  intros Hd Hs Hr Hlt. rewrite (button_run _ _ _ _ Hd). cbv zeta.
  rewrite Hs, Hr. apply Z.ltb_lt in Hlt. now rewrite Hlt.
Qed.

(** Otherwise the action is dispatched. *)
Lemma button_let_through user data w d :
  users_collection w !! user = Some d ->
  resting d w = false ->
  button user data w = dispatch user (briefed d w) data (let_through user d w).
Proof.
  intros Hd Hrest. rewrite (button_run _ _ _ _ Hd). cbv zeta.
  unfold resting in Hrest. unfold briefed, let_through.
  destruct (squirrel_status d); [reflexivity|].
  destruct (squirrel_recovery_time d); [|reflexivity].
  now rewrite Hrest.
Qed.

Lemma let_through_doc user d w :
  users_collection w !! user = Some d ->
  users_collection (let_through user d w) !! user = Some (cleared d w).
Proof.
  intros Hd. unfold let_through, cleared, regenerated.
  destruct (squirrel_status d); [| destruct (squirrel_recovery_time d)];
    cbn [users_collection store tick_clock];
    rewrite ?lookup_alter_eq, Hd; reflexivity.
Qed.

Lemma let_through_others user d w u :
  u <> user ->
  users_collection (let_through user d w) !! u = users_collection w !! u.
Proof.
  intros Hu. unfold let_through.
  destruct (squirrel_status d); [| destruct (squirrel_recovery_time d)];
    cbn [users_collection store tick_clock];
    rewrite ?lookup_alter_ne by congruence; reflexivity.
Qed.


Lemma let_through_rest user d w :
  random_calls (let_through user d w) = random_calls w
  /\ entropy (let_through user d w) = entropy w
  /\ sent (let_through user d w) = sent w.
Proof.
  unfold let_through.
  destruct (squirrel_status d); [| destruct (squirrel_recovery_time d)];
    repeat split.
Qed.

Lemma briefed_fields d w :
  energy (briefed d w) = Some (energy_at d (reading w 0))
  /\ stars (briefed d w) = stars d.
Proof. unfold briefed. destruct (squirrel_status d); split; reflexivity. Qed.

Lemma cleared_fields d w :
  energy (cleared d w) = Some (energy_at d (reading w 0))
  /\ level (cleared d w) = level d
  /\ stars (cleared d w) = stars d
  /\ acorns (cleared d w) = acorns d.
Proof. unfold cleared. destruct (squirrel_status d); repeat split. Qed.

End Gate.

(** * The handler returns *)

Module Total.

Import Run.

#[local] Arguments energy_at : simpl never.
#[local] Arguments game_time_at : simpl never.
#[local] Arguments hours_of : simpl never.
#[local] Arguments Z.mul : simpl never.
#[local] Arguments Z.add : simpl never.
#[local] Arguments Z.modulo : simpl never.
#[local] Arguments Z.ltb : simpl never.
#[local] Arguments Z.leb : simpl never.

(** No branch of the dispatch raises when the handler's copy and the stored
    document both carry an energy. *)
Lemma dispatch_returns user ud data w d0 e e0 :
  energy ud = Some e ->
  energy d0 = Some e0 ->
  users_collection w !! user = Some d0 ->
  fst (dispatch user ud data w) = Returned tt.
Proof.
  intros He He0 Hd.
  destruct (String.prefix "explore_" data) eqn:Hp.
  - rewrite (dispatch_area _ _ _ _ Hp).
    rewrite (explore_area_run user ud data (tick_clock w) d0 e He Hd Hp).
    destruct (e <? 1); [reflexivity|]. cbv zeta.
    destruct (threat_met _); [| destruct (_ <=? _)]; reflexivity.
  - unfold dispatch, bind, get_game_time, bind, utcnow, ret.
    destruct (game_time_at _) as [[game_day is_night] time_to_next].
    rewrite Hp.
    destruct (String.eqb data "explore").
    { rewrite He. cbn [getitem ret]. destruct (e <? 1); reflexivity. }
    destruct (String.eqb data "collect_star").
    { destruct (negb is_night); reflexivity. }
    destruct (String.prefix "star_" data); [reflexivity|].
    destruct (String.eqb data "status").
    { unfold find_one. cbn [users_collection tick_clock]. rewrite Hd.
      unfold getitem. rewrite He0. reflexivity. }
    destruct (String.eqb data "help"); reflexivity.
Qed.

(** The handler never raises, whoever presses whatever button. *)
Lemma button_returns user data w : fst (button user data w) = Returned tt.
Proof.
  destruct (users_collection w !! user) as [d|] eqn:Hd.
  - destruct (resting d w) eqn:Hrest.
    + destruct (Gate.resting_injured d w Hrest) as (rt & Hs & Hr & Hlt).
      now rewrite (Gate.button_resting _ _ _ _ _ Hd Hs Hr Hlt).
    + rewrite (Gate.button_let_through _ _ _ _ Hd Hrest).
      destruct (Gate.briefed_fields d w) as (Hbe & _).
      destruct (Gate.cleared_fields d w) as (Hce & _).
      exact (dispatch_returns _ _ _ _ _ _ _ Hbe Hce
               (Gate.let_through_doc user d w Hd)).
  - unfold button, bind, find_one. now rewrite Hd.
Qed.

End Total.

(** * Explorations *)

Module Explore.

Lemma acorn_roll_range w : 0 <= acorn_roll w <= 5.
Proof.
  unfold acorn_roll. cbn.
  pose proof (Z.mod_pos_bound (entropy w (random_calls w)) 6 ltac:(lia)).
  change (5 - 0 + 1) with 6. lia.
Qed.

Lemma acorn_roll_randint w : fst (randint 0 5 w) = Returned (acorn_roll w).
Proof. reflexivity. Qed.

(** The loop of lines 167-170 in an exploration: it runs after the acorn
    roll has taken one output of the generator. *)
Lemma threat_met_roll w :
  fst (roll_threat threats (tick_random w)) = Returned (threat_met w).
Proof. rewrite Run.roll_threat_run. reflexivity. Qed.

End Explore.

(** C6. In every accepted exploration whose threat roll succeeds, the stored
    document ends with the squirrel injured and its recovery time two hours
    after the reading of the clock taken for it (the handler's last
    reading); the acorns are unchanged and the energy is the regenerated
    energy minus 1. *)
Theorem hazard_injures user d data w t_name :
  accepted user d data w ->
  threat_met w = Some t_name ->
  let w' := exec (button user data) w in
  let now := reading w (3 + check_reads d) in
  exists d',
    users_collection w' !! user = Some d'
    /\ squirrel_status d' = injured
    /\ squirrel_recovery_time d' = Some (now + timedelta_hours 2)
    /\ utcnow_calls w' = (4 + check_reads d + utcnow_calls w)%nat
    /\ acorns d' = acorns d
    /\ energy d' = Some (energy_at d (reading w 0) - 1)
    /\ sent w' = sent w ++ [msg_threat t_name]
    /\ fst (button user data w) = Returned tt.
Proof.
  intros Hacc Hthreat w' now.
  pose proof (Total.button_returns user data w) as Hret.
  destruct (Outcome.exploration_outcome user d data w Hacc) as [_ H].
  rewrite Hthreat in H. destruct H as (Hdoc & Hsent & Hclock).
  eexists. split; [exact Hdoc|].
  destruct (Gate.cleared_fields d w) as (He & _ & _ & Ha).
  cbn [squirrel_status squirrel_recovery_time acorns energy
       set_squirrel_recovery_time set_squirrel_status inc_energy set_energy].
  rewrite He, Ha. repeat split; assumption.
Qed.

Lemma hazard_injures_witness :
  let w := world_of (new_user None by_day) (clock_from by_day) (stormy 3) in
  exists d',
    users_collection (exec (button player "explore_north") w) !! player
    = Some d'
    /\ squirrel_status d' = injured
    /\ squirrel_recovery_time d' = Some (by_day + 3 + timedelta_hours 2)
    /\ acorns d' = 0
    /\ energy d' = Some 9.
Proof.
  intros w.
  destruct (hazard_injures player (new_user None by_day) "explore_north" w "fox")
    as (d' & Hdoc & Hs & Hr & _ & Ha & He & _).
  - repeat split. vm_compute. discriminate.
  - reflexivity.
  - exists d'. repeat split; assumption.
Defined.

(** C7. In every accepted exploration that meets no threat, the acorns grow
    by [randint(0, 5) * star_bonus], the bonus being 2 when the player had a
    star before the action and 1 otherwise. *)
Theorem acorn_yield user d data w :
  accepted user d data w ->
  threat_met w = None ->
  let w' := exec (button user data) w in
  exists d',
    users_collection w' !! user = Some d'
    /\ acorns d' = acorns d + acorn_roll w * (if 0 <? stars d then 2 else 1)
    /\ fst (randint 0 5 w) = Returned (acorn_roll w)
    /\ 0 <= acorn_roll w <= 5
    /\ fst (button user data w) = Returned tt.
Proof.
  intros Hacc Hthreat w'.
  pose proof (Total.button_returns user data w) as Hret.
  destruct (Outcome.exploration_outcome user d data w Hacc) as [_ H].
  rewrite Hthreat in H. destruct H as (_ & H).
  destruct (Gate.cleared_fields d w) as (_ & _ & _ & Ha).
  fold (star_bonus d).
  destruct (_ <=? _); destruct H as (Hdoc & _); eexists;
    (split; [exact Hdoc|]);
    cbn [acorns inc_energy inc_stars set_level set_energy inc_acorns];
    rewrite Ha;
    (split; [reflexivity|]);
    (split; [reflexivity|]);
    (split; [apply Explore.acorn_roll_range | exact Hret]).
Qed.

Lemma acorn_yield_witness :
  let w := world_of starred (clock_from by_day) (calm 3) in
  exists d',
    users_collection (exec (button player "explore_south") w) !! player
    = Some d'
    /\ acorns d' = 6.
Proof.
  intros w.
  destruct (acorn_yield player starred "explore_south" w)
    as (d' & Hdoc & Ha & _).
  - repeat split. vm_compute. discriminate.
  - reflexivity.
  - exists d'. split; [exact Hdoc|]. rewrite Ha. reflexivity.
Defined.

(** C3. In every accepted exploration that meets no threat, the acorns found
    are committed and the level is then checked once: if the acorns have
    reached [level * 50], the level grows by exactly 1, the stars by 1 and
    the energy by 5 in the same transition, however many levels the acorns
    would pay for; otherwise level and stars stay. *)
Theorem level_up_once user d data w :
  accepted user d data w ->
  threat_met w = None ->
  let w' := exec (button user data) w in
  let found := acorn_roll w * star_bonus d in
  let e := energy_at d (reading w 0) in
  exists d',
    users_collection w' !! user = Some d'
    /\ acorns d' = acorns d + found
    /\ (level d * 50 <= acorns d + found ->
        level d' = level d + 1
        /\ stars d' = stars d + 1
        /\ energy d' = Some (e - 1 + 5)
        /\ sent w' = sent w ++ [msg_level_up (location_of data) found
                                  (level d + 1)])
    /\ (acorns d + found < level d * 50 ->
        level d' = level d
        /\ stars d' = stars d
        /\ energy d' = Some (e - 1)
        /\ sent w' = sent w ++ [msg_found (location_of data) found])
    /\ fst (button user data w) = Returned tt.
Proof.
  intros Hacc Hthreat w' found e.
  pose proof (Total.button_returns user data w) as Hret.
  destruct (Outcome.exploration_outcome user d data w Hacc) as [_ H].
  rewrite Hthreat in H. destruct H as (_ & H).
  destruct (Gate.cleared_fields d w) as (He & Hl & Hs & Ha).
  fold found in H.
  destruct (Z.leb_spec (level d * 50) (acorns d + found)) as [Hup | Hno];
    destruct H as (Hdoc & Hsent); eexists; (split; [exact Hdoc|]);
    cbn [acorns level stars energy
         inc_energy inc_stars set_level set_energy inc_acorns];
    rewrite ?He, ?Hl, ?Hs, ?Ha; cbn [default];
    (split; [reflexivity|]);
    (split; [intros ? | split; [intros ? | exact Hret] ]);
    try lia; repeat split; assumption.
Qed.

Lemma level_up_once_witness :
  let w := world_of nearly_level_2 (clock_from by_day) (calm 1) in
  exists d',
    users_collection (exec (button player "explore_north") w) !! player
    = Some d'
    /\ acorns d' = 50 /\ level d' = 2 /\ stars d' = 1
    /\ energy d' = Some (10 - 1 + 5).
Proof.
  intros w.
  destruct (level_up_once player nearly_level_2 "explore_north" w)
    as (d' & Hdoc & Ha & Hup & _).
  - repeat split. vm_compute. discriminate.
  - reflexivity.
  - destruct Hup as (Hl & Hs & He & _); [vm_compute; discriminate|].
    exists d'. repeat split; assumption.
Defined.

(** One increment only: with 499 acorns at level 1, an exploration that
    finds one acorn ends at level 2, although 500 acorns reach the
    thresholds of levels 2 to 10. *)
Example level_up_is_single :
  let w := world_of (inc_acorns 499 (new_user None by_day))
             (clock_from by_day) (calm 1) in
  (level <$> users_collection (exec (button player "explore_north") w) !! player)
  = Some 2
  /\ (acorns <$> users_collection (exec (button player "explore_north") w)
        !! player) = Some 500.
Proof. split; reflexivity. Qed.

(** * Energy along the handler *)

Module Energy.

Import Run.

#[local] Arguments energy_at : simpl never.
#[local] Arguments game_time_at : simpl never.
#[local] Arguments hours_of : simpl never.
#[local] Arguments Z.mul : simpl never.
#[local] Arguments Z.add : simpl never.
#[local] Arguments Z.modulo : simpl never.
#[local] Arguments Z.ltb : simpl never.
#[local] Arguments Z.leb : simpl never.

Lemma energy_at_le d now : energy_at d now <= 10.
Proof. unfold energy_at. apply Regen.regen_le. Qed.

Lemma elapsed_nonneg (td : timedelta) :
  0 <= td -> 0 <= PyNum.int_of_float (total_seconds td / 3600 * 2)%Q.
Proof.
  intros H. unfold PyNum.int_of_float, total_seconds, us_per_second.
  cbn [Qnum Qden Qmult Qdiv Qinv inject_Z].
  apply Z.quot_pos; lia.
Qed.

Lemma energy_at_ge d now :
  (forall e, energy d = Some e -> 0 <= e) ->
  (forall t, last_energy_update d = Some t -> t <= now) ->
  0 <= energy_at d now.
Proof.
  intros He Ht. unfold energy_at, regen. cbv zeta.
  assert (Hstored : 0 <= default 10 (energy d)).
  { destruct (energy d) as [e|]; unfold default; cbn [from_option id];
      [apply He; reflexivity | lia]. }
  assert (Hpast : 0 <= now - default now (last_energy_update d)).
  { destruct (last_energy_update d) as [t|]; unfold default;
      cbn [from_option id];
      [specialize (Ht t eq_refl) |]; lia. }
  pose proof (elapsed_nonneg _ Hpast). unfold datetime in *. lia.
Qed.

(** What the dispatch does to the energy and the level of the stored
    document, whatever the action. *)
Lemma dispatch_energy user ud data w d0 e :
  energy ud = Some e ->
  energy d0 = Some e ->
  users_collection w !! user = Some d0 ->
  exists d',
    users_collection (exec (dispatch user ud data) w) !! user = Some d'
    /\ ((level d' = level d0
         /\ (energy d' = Some e \/ (1 <= e /\ energy d' = Some (e - 1))))
        \/ (1 <= e /\ level d' = level d0 + 1
            /\ energy d' = Some (e - 1 + 5))).
Proof.
  intros He He0 Hd.
  destruct (String.prefix "explore_" data) eqn:Hp.
  - unfold exec. rewrite (dispatch_area _ _ _ _ Hp).
    rewrite (explore_area_run user ud data (tick_clock w) d0 e He Hd Hp).
    destruct (Z.ltb_spec e 1) as [Hlow | Hok].
    + exists d0. split; [exact Hd|]. left. split; [reflexivity | now left].
    + cbv zeta. destruct (threat_met _); [| destruct (_ <=? _)];
        cbn [snd users_collection send store tick_clock seek_random];
        rewrite ?lookup_alter_eq, Hd; cbn [fmap option_fmap option_map];
        eexists; (split; [reflexivity|]);
        cbn [level energy inc_energy inc_stars set_level set_energy
             inc_acorns set_squirrel_recovery_time set_squirrel_status];
        rewrite He0; cbn [default].
      * left. split; [reflexivity|]. right. split; [lia | reflexivity].
      * right. repeat split. lia.
      * left. split; [reflexivity|]. right. split; [lia | reflexivity].
  - unfold exec, dispatch, bind, get_game_time, bind, utcnow, ret.
    destruct (game_time_at _) as [[game_day is_night] time_to_next].
    rewrite Hp.
    destruct (String.eqb data "explore").
    { rewrite He. cbn [getitem ret]. destruct (e <? 1);
        exists d0; (split; [exact Hd|]); left;
        (split; [reflexivity | now left]). }
    destruct (String.eqb data "collect_star").
    { destruct (negb is_night);
        exists d0; (split; [exact Hd|]); left;
        (split; [reflexivity | now left]). }
    destruct (String.prefix "star_" data).
    { cbn [snd update_one reply_text users_collection send store tick_clock].
      rewrite lookup_alter_eq, Hd. eexists. split; [reflexivity|].
      left. split; [reflexivity | now left]. }
    destruct (String.eqb data "status").
    { unfold find_one. cbn [users_collection tick_clock]. rewrite Hd.
      unfold getitem. rewrite He0. cbn [snd send users_collection].
      exists d0. split; [exact Hd|]. left.
      split; [reflexivity | now left]. }
    destruct (String.eqb data "help");
      exists d0; (split; [exact Hd|]); left;
      (split; [reflexivity | now left]).
Qed.

End Energy.

(** Every path but the level-up keeps the energy under the cap.  Take a
    player whose stored energy is not negative and whose last energy update
    is not in the future.  The regenerated energy is in [[0, 10]], and after
    every action that does not level the player up the stored energy is in
    [[0, 10]].  An exploration that levels the player up stores the
    regenerated energy minus 1 plus the reward of 5. *)
Theorem energy_range user d data w :
  users_collection w !! user = Some d ->
  (forall e0, energy d = Some e0 -> 0 <= e0) ->
  (forall t, last_energy_update d = Some t -> t <= reading w 0) ->
  let w' := exec (button user data) w in
  let e := energy_at d (reading w 0) in
  0 <= e <= 10
  /\ exists d',
      users_collection w' !! user = Some d'
      /\ ((level d' = level d
           /\ exists e', energy d' = Some e' /\ 0 <= e' <= 10)
          \/ (level d' = level d + 1
              /\ energy d' = Some (e - 1 + 5)
              /\ 5 <= e - 1 + 5 <= 14)).
Proof.
  intros Hd He0 Ht w' e.
  assert (Hrange : 0 <= e <= 10).
  { split; [now apply Energy.energy_at_ge | apply Energy.energy_at_le]. }
  split; [exact Hrange|].
  destruct (resting d w) eqn:Hrest.
  - destruct (Gate.resting_injured d w Hrest) as (rt & Hs & Hr & Hlt).
    subst w'. unfold exec.
    rewrite (Gate.button_resting _ _ _ _ _ Hd Hs Hr Hlt).
    cbn [snd users_collection send store tick_clock].
    rewrite lookup_alter_eq, Hd. eexists. split; [reflexivity|].
    left. split; [reflexivity|]. exists e. split; [reflexivity | exact Hrange].
  - subst w'. unfold exec. rewrite (Gate.button_let_through _ _ _ _ Hd Hrest).
    destruct (Gate.briefed_fields d w) as (Hbe & _).
    destruct (Gate.cleared_fields d w) as (Hae & Hal & _).
    destruct (Energy.dispatch_energy user (briefed d w) data
                (let_through user d w) (cleared d w) e Hbe Hae
                (Gate.let_through_doc user d w Hd))
      as (d' & Hdoc & Hcases).
    exists d'. split; [exact Hdoc|]. rewrite Hal in Hcases.
    destruct Hcases as [(Hl & [Hen | (H1 & Hen)]) | (H1 & Hl & Hen)].
    + left. split; [exact Hl|]. exists e. split; [exact Hen | exact Hrange].
    + left. split; [exact Hl|]. exists (e - 1). split; [exact Hen | lia].
    + right. split; [exact Hl|]. split; [exact Hen | lia].
Qed.

Lemma energy_range_witness :
  let w := world_of nearly_level_2 (clock_from by_day) (calm 1) in
  exists d',
    users_collection (exec (button player "explore_north") w) !! player
    = Some d'
    /\ ((level d' = 1 /\ exists e', energy d' = Some e' /\ 0 <= e' <= 10)
        \/ (level d' = 2 /\ energy d' = Some 14 /\ 5 <= 14 <= 14)).
Proof.
  intros w.
  destruct (energy_range player nearly_level_2 "explore_north" w)
    as (_ & H).
  - reflexivity.
  - intros e0 H. injection H as <-. discriminate.
  - intros t H. injection H as <-. discriminate.
  - exact H.
Defined.

(** C1. The level-up reward escapes the cap of 10 that every other path
    keeps: a player with full energy and 49 acorns who finds one acorn
    levels up and is left with 14 energy, outside [[0, 10]]; the next
    callback of the player, here the status, regenerates with the cap of
    line 46 and stores 10 again. *)
Lemma level_up_exceeds_energy_cap :
  let w := world_of nearly_level_2 (clock_from by_day) (calm 1) in
  let w1 := exec (button player "explore_north") w in
  let w2 := exec (button player "status") w1 in
  accepted player nearly_level_2 "explore_north" w
  /\ (energy <$> users_collection w1 !! player) = Some (Some 14)
  /\ ~ (0 <= 14 <= 10)
  /\ (energy <$> users_collection w2 !! player) = Some (Some 10).
Proof.
  intros w w1 w2. split; [| split; [| split]].
  - repeat split. vm_compute. discriminate.
  - vm_compute. reflexivity.
  - lia.
  - vm_compute. reflexivity.
Qed.

(** C5. In every accepted exploration the threats are tried in the order
    fox (0.1), eagle (0.05), storm (0.05), each against its own output of
    the generator, taken after the one of the acorn roll; the first threat
    whose draw is below its probability is the one the loop returns and the
    one applied, and no draw is taken for a later threat: when the fox draw
    succeeds the generator has given two outputs in all (acorn roll and fox
    draw), whatever the next outputs would have been.  When no draw
    succeeds the exploration yields acorns. *)
Theorem threat_priority user d data w :
  accepted user d data w ->
  let w' := exec (button user data) w in
  let u k := draws w (k + S (random_calls w)) in
  threat_met w
  = (if Qltb (u 0%nat) 0.1 then Some "fox"%string
     else if Qltb (u 1%nat) 0.05 then Some "eagle"%string
     else if Qltb (u 2%nat) 0.05 then Some "storm"%string
     else None)
  /\ fst (roll_threat threats (tick_random w)) = Returned (threat_met w)
  /\ random_calls w'
     = ((if Qltb (u 0%nat) 0.1 then 2
         else if Qltb (u 1%nat) 0.05 then 3
         else 4) + random_calls w)%nat
  /\ match threat_met w with
     | Some t_name =>
         sent w' = sent w ++ [msg_threat t_name]
         /\ (acorns <$> users_collection w' !! user) = Some (acorns d)
         /\ (squirrel_status <$> users_collection w' !! user) = Some injured
     | None =>
         let found := acorn_roll w * star_bonus d in
         (sent w' = sent w ++ [msg_found (location_of data) found]
          \/ sent w' = sent w ++ [msg_level_up (location_of data) found
                                    (level d + 1)])
         /\ (acorns <$> users_collection w' !! user)
            = Some (acorns d + found)
         /\ (squirrel_status <$> users_collection w' !! user) = Some healthy
     end.
Proof.
  intros Hacc w' u.
  destruct (Outcome.exploration_outcome user d data w Hacc) as [Hcur H].
  split; [| split; [apply Explore.threat_met_roll | split] ].
  - unfold threat_met, threats, first_threat, u. cbn [Nat.add]. reflexivity.
  - fold w' in Hcur. rewrite Hcur.
    unfold threats, cursor_after, u. cbn [Nat.add].
    repeat destruct (Qltb _ _); reflexivity.
  - fold w' in H.
    destruct (Gate.cleared_fields d w) as (_ & _ & _ & Ha).
    assert (Hs : squirrel_status (cleared d w) = healthy).
    { unfold cleared. destruct (squirrel_status d) eqn:E; [exact E|].
      reflexivity. }
    destruct (threat_met w) as [t|].
    + destruct H as (Hdoc & Hsent & _). rewrite Hdoc.
      cbn [fmap option_fmap option_map acorns squirrel_status
           set_squirrel_recovery_time set_squirrel_status inc_energy
           set_energy].
      rewrite Ha. repeat split. exact Hsent.
    + destruct H as (_ & H). cbv zeta.
      destruct (_ <=? _); destruct H as (Hdoc & Hsent); rewrite Hdoc;
        cbn [fmap option_fmap option_map acorns squirrel_status
             inc_energy inc_stars set_level set_energy inc_acorns];
        rewrite Ha, Hs; repeat split; auto.
Qed.

Lemma threat_priority_witness :
  let w := world_of (new_user None by_day) (clock_from by_day) (stormy 3) in
  threat_met w = Some "fox"%string
  /\ random_calls (exec (button player "explore_north") w) = 2%nat
  /\ sent (exec (button player "explore_north") w) = [msg_threat "fox"].
Proof.
  intros w.
  destruct (threat_priority player (new_user None by_day) "explore_north" w)
    as (Hmet & _ & Hcalls & Happlied).
  - repeat split. vm_compute. discriminate.
  - assert (Hfox : threat_met w = Some "fox"%string) by reflexivity.
    rewrite Hfox in Happlied. destruct Happlied as (Hsent & _).
    split; [exact Hfox|]. split; [exact Hcalls | exact Hsent].
Defined.

(** * The squirrel check and the stars *)

Module Stars.

Import Run.




End Stars.




(** C8, as the code has it. Take any action on a player whose squirrel is
    injured, with a recovery time.  If the clock read for the check is
    before the recovery time, the action is rejected and the answer gives
    the whole minutes left; the energy regeneration of lines 108-112 has
    already been committed, so the stored energy and last energy update are
    the regenerated ones, and nothing else of the collection changes.  If
    the clock has reached the recovery time, the stored squirrel becomes
    healthy, its recovery time is cleared, no message is sent for the
    recovery, and the handler goes on with the requested action. *)
Theorem squirrel_check user d data w recovery_time :
  users_collection w !! user = Some d ->
  squirrel_status d = injured ->
  squirrel_recovery_time d = Some recovery_time ->
  let w' := exec (button user data) w in
  (reading w 2 < recovery_time ->
   sent w'
   = sent w ++ [msg_resting
                  (PyNum.int_of_float
                     (total_seconds (recovery_time - reading w 3)%Z / 60)%Q)]
   /\ random_calls w' = random_calls w
   /\ users_collection w' !! user
      = Some (set_last_energy_update (reading w 1)
                (set_energy (energy_at d (reading w 0)) d))
   /\ (forall u, u <> user ->
                 users_collection w' !! u = users_collection w !! u))
  /\ (recovery_time <= reading w 2 ->
      button user data w
      = dispatch user (briefed d w) data (let_through user d w)
      /\ squirrel_status (briefed d w) = healthy
      /\ sent (let_through user d w) = sent w
      /\ exists d1,
          users_collection (let_through user d w) !! user = Some d1
          /\ squirrel_status d1 = healthy
          /\ squirrel_recovery_time d1 = None
          /\ acorns d1 = acorns d /\ stars d1 = stars d
          /\ level d1 = level d).
Proof.
  intros Hd Hs Hr w'. split.
  - intros Hlt. subst w'. unfold exec.
    rewrite (Gate.button_resting _ _ _ _ _ Hd Hs Hr Hlt).
    cbn [snd sent send store tick_clock random_calls users_collection].
    rewrite lookup_alter_eq, Hd. repeat split.
    intros u Hu. now rewrite lookup_alter_ne by congruence.
  - intros Hge.
    assert (Hrest : resting d w = false).
    { unfold resting. rewrite Hs, Hr. apply Z.ltb_ge. exact Hge. }
    split; [apply (Gate.button_let_through _ _ _ _ Hd Hrest)|].
    split; [unfold briefed; now rewrite Hs|].
    split; [apply Gate.let_through_rest|].
    exists (cleared d w). split; [apply (Gate.let_through_doc _ _ _ Hd)|].
    unfold cleared. rewrite Hs. repeat split.
Qed.

Lemma squirrel_check_witness :
  let resting_world :=
    world_of (set_energy 5 (hurt by_day))
      (clock_from (by_day + timedelta_hours 1)) (calm 0) in
  let recovered_world :=
    world_of (hurt by_day) (clock_from (by_day + timedelta_hours 3)) (calm 0) in
  sent (exec (button player "status") resting_world) = [msg_resting 59]
  /\ button player "status" recovered_world
     = dispatch player (briefed (hurt by_day) recovered_world) "status"
         (let_through player (hurt by_day) recovered_world).
Proof.
  intros resting_world recovered_world. split.
  - pose proof (squirrel_check player (set_energy 5 (hurt by_day)) "status"
                  resting_world (by_day + timedelta_hours 2)
                  eq_refl eq_refl eq_refl) as (Hrest & _).
    exact (proj1 (Hrest eq_refl)).
  - pose proof (squirrel_check player (hurt by_day) "status"
                  recovered_world (by_day + timedelta_hours 2)
                  eq_refl eq_refl eq_refl) as (_ & Hgo).
    apply Hgo. vm_compute. discriminate.
Defined.

(** C8, as the specification states it, fails: an hour after the injury,
    the rejected action of a resting squirrel's player has moved the stored
    energy from 5 to 7 and the last energy update to the time of the
    action. *)
Lemma rejected_action_regenerates :
  let w := world_of (set_energy 5 (hurt by_day))
             (clock_from (by_day + timedelta_hours 1)) (calm 0) in
  let w' := exec (button player "status") w in
  sent w' = [msg_resting 59]
  /\ (energy <$> users_collection w !! player) = Some (Some 5)
  /\ (energy <$> users_collection w' !! player) = Some (Some 7)
  /\ (last_energy_update <$> users_collection w !! player)
     = Some (Some by_day)
  /\ (last_energy_update <$> users_collection w' !! player)
     = Some (Some (by_day + timedelta_hours 1 + 1))
  /\ users_collection w' <> users_collection w.
Proof.
  intros w w'. repeat split.
  intros H. apply (f_equal (fun m => energy <$> m !! player)) in H.
  discriminate H.
Qed.

(** C10. Every star selection (a callback whose data starts with [star_])
    of a player whose squirrel is healthy adds exactly 1 to the stored stars
    and answers that a star was caught.  Nothing else is asked: the
    statement holds for every clock, night or day, and for every history of
    messages, with or without an offer of stars; the generator is not
    used. *)
Theorem star_selection user d data w :
  users_collection w !! user = Some d ->
  squirrel_status d = healthy ->
  String.prefix "star_" data = true ->
  let w' := exec (button user data) w in
  exists d',
    users_collection w' !! user = Some d'
    /\ stars d' = stars d + 1
    /\ acorns d' = acorns d
    /\ level d' = level d
    /\ sent w' = sent w ++ [msg_caught]
    /\ random_calls w' = random_calls w
    /\ fst (button user data w) = Returned tt.
Proof.
  intros Hd Hs Hp w'.
  assert (Hrest : resting d w = false) by (unfold resting; now rewrite Hs).
  subst w'. unfold exec.
  rewrite (Gate.button_let_through _ _ _ _ Hd Hrest).
  rewrite (Run.dispatch_star _ _ _ _ Hp).
  cbn [snd sent send store tick_clock random_calls users_collection].
  rewrite lookup_alter_eq, (Gate.let_through_doc _ _ _ Hd).
  destruct (Gate.let_through_rest user d w) as (Hcalls & _ & Hsent).
  destruct (Gate.cleared_fields d w) as (_ & Hl & Hst & Ha).
  eexists. split; [reflexivity|].
  cbn [stars acorns level inc_stars]. rewrite Hl, Hst, Ha, Hsent, Hcalls.
  repeat split.
Qed.

Lemma star_selection_witness :
  let w := world_of (new_user None by_day) (clock_from by_day) (calm 0) in
  is_night_at (reading w 2) = false
  /\ sent w = []
  /\ exists d',
      users_collection (exec (button player "star_2") w) !! player = Some d'
      /\ stars d' = 1.
Proof.
  intros w. split; [reflexivity|]. split; [reflexivity|].
  destruct (star_selection player (new_user None by_day) "star_2" w
              eq_refl eq_refl eq_refl)
    as (d' & Hdoc & Hst & _).
  exists d'. split; [exact Hdoc | exact Hst].
Defined.

(** * The effect of one action on the collection *)

Module Effects.

Import Run.

#[local] Arguments energy_at : simpl never.
#[local] Arguments game_time_at : simpl never.
#[local] Arguments hours_of : simpl never.
#[local] Arguments Z.mul : simpl never.
#[local] Arguments Z.add : simpl never.
#[local] Arguments Z.modulo : simpl never.
#[local] Arguments Z.ltb : simpl never.
#[local] Arguments Z.leb : simpl never.

Lemma randint_0_5_range n : 0 <= 0 + n mod (5 - 0 + 1) <= 5.
Proof.
  change (5 - 0 + 1) with 6.
  pose proof (Z.mod_pos_bound n 6 ltac:(lia)). lia.
Qed.

(** The dispatch leaves the player's document in one of the five forms. *)
Lemma dispatch_effect user ud data w c e :
  energy ud = Some e ->
  energy c = Some e ->
  stars ud = stars c ->
  users_collection w !! user = Some c ->
  exists d',
    users_collection (exec (dispatch user ud data) w) !! user = Some d'
    /\ action_effect c d'.
Proof.
  intros He Hc Hst Hd.
  destruct (String.prefix "explore_" data) eqn:Hp.
  - unfold exec. rewrite (dispatch_area _ _ _ _ Hp).
    rewrite (explore_area_run user ud data (tick_clock w) c e He Hd Hp).
    destruct (Z.ltb_spec e 1) as [Hlow | Hok].
    + exists c. split; [exact Hd | constructor].
    + cbv zeta. rewrite Hst. fold (star_bonus c).
      pose proof (randint_0_5_range (raw_draw (tick_clock w) 0)) as Hr.
      destruct (threat_met _);
        [| destruct (Z.leb_spec (level c * 50)
                       (acorns c
                        + (0 + raw_draw (tick_clock w) 0 mod (5 - 0 + 1))
                          * star_bonus c)) ];
        cbn [snd users_collection send store tick_clock seek_random];
        rewrite ?lookup_alter_eq, Hd; cbn [fmap option_fmap option_map];
        eexists; (split; [reflexivity|]).
      * now apply effect_threat with (e := e).
      * now apply effect_level_up with (e := e).
      * now apply effect_found with (e := e).
  - unfold exec, dispatch, bind, get_game_time, bind, utcnow, ret.
    destruct (game_time_at _) as [[game_day is_night] time_to_next].
    rewrite Hp.
    destruct (String.eqb data "explore").
    { rewrite He. cbn [getitem ret]. destruct (e <? 1);
        exists c; (split; [exact Hd | constructor]). }
    destruct (String.eqb data "collect_star").
    { destruct (negb is_night);
        exists c; (split; [exact Hd | constructor]). }
    destruct (String.prefix "star_" data).
    { cbn [snd update_one reply_text users_collection send store tick_clock].
      rewrite lookup_alter_eq, Hd. eexists. split; [reflexivity|].
      constructor. }
    destruct (String.eqb data "status").
    { unfold find_one. cbn [users_collection tick_clock]. rewrite Hd.
      unfold getitem. rewrite Hc. cbn [snd send users_collection].
      exists c. split; [exact Hd | constructor]. }
    destruct (String.eqb data "help");
      exists c; (split; [exact Hd | constructor]).
Qed.

(** The dispatch touches no other document. *)
Lemma dispatch_others user ud data w c e e0 u :
  energy ud = Some e ->
  energy c = Some e0 ->
  users_collection w !! user = Some c ->
  u <> user ->
  users_collection (exec (dispatch user ud data) w) !! u
  = users_collection w !! u.
Proof.
  intros He Hc Hd Hu.
  destruct (String.prefix "explore_" data) eqn:Hp.
  - unfold exec. rewrite (dispatch_area _ _ _ _ Hp).
    rewrite (explore_area_run user ud data (tick_clock w) c e He Hd Hp).
    destruct (e <? 1); [reflexivity|]. cbv zeta.
    destruct (threat_met _); [| destruct (_ <=? _)];
      cbn [snd users_collection send store tick_clock seek_random];
      rewrite ?lookup_alter_ne by congruence; reflexivity.
  - unfold exec, dispatch, bind, get_game_time, bind, utcnow, ret.
    destruct (game_time_at _) as [[game_day is_night] time_to_next].
    rewrite Hp.
    destruct (String.eqb data "explore").
    { rewrite He. cbn [getitem ret]. destruct (e <? 1); reflexivity. }
    destruct (String.eqb data "collect_star").
    { destruct (negb is_night); reflexivity. }
    destruct (String.prefix "star_" data).
    { cbn [snd update_one reply_text users_collection send store tick_clock].
      now rewrite lookup_alter_ne by congruence. }
    destruct (String.eqb data "status").
    { unfold find_one. cbn [users_collection tick_clock]. rewrite Hd.
      unfold getitem. rewrite Hc. reflexivity. }
    destruct (String.eqb data "help"); reflexivity.
Qed.

(** The whole handler on the document of a player who has one. *)
Lemma button_effect user d data w :
  users_collection w !! user = Some d ->
  exists d',
    users_collection (exec (button user data) w) !! user = Some d'
    /\ if resting d w then d' = regenerated d w
       else action_effect (cleared d w) d'.
Proof.
  intros Hd. unfold exec. destruct (resting d w) eqn:Hrest.
  - destruct (Gate.resting_injured d w Hrest) as (rt & Hs & Hr & Hlt).
    rewrite (Gate.button_resting _ _ _ _ _ Hd Hs Hr Hlt).
    cbn [snd users_collection send store tick_clock].
    rewrite lookup_alter_eq, Hd. eexists. split; reflexivity.
  - rewrite (Gate.button_let_through _ _ _ _ Hd Hrest).
    destruct (Gate.briefed_fields d w) as (Hbe & Hbs).
    destruct (Gate.cleared_fields d w) as (Hce & _ & Hcs & _).
    apply (dispatch_effect user (briefed d w) data (let_through user d w)
             (cleared d w) (energy_at d (reading w 0)) Hbe Hce).
    + now rewrite Hbs, Hcs.
    + apply (Gate.let_through_doc _ _ _ Hd).
Qed.

(** The whole handler on the documents of the other players. *)
Lemma button_others user data w u :
  u <> user ->
  users_collection (exec (button user data) w) !! u
  = users_collection w !! u.
Proof.
  intros Hu. unfold exec.
  destruct (users_collection w !! user) as [d|] eqn:Hd.
  - destruct (resting d w) eqn:Hrest.
    + destruct (Gate.resting_injured d w Hrest) as (rt & Hs & Hr & Hlt).
      rewrite (Gate.button_resting _ _ _ _ _ Hd Hs Hr Hlt).
      cbn [snd users_collection send store tick_clock].
      now rewrite lookup_alter_ne by congruence.
    + rewrite (Gate.button_let_through _ _ _ _ Hd Hrest).
      destruct (Gate.briefed_fields d w) as (Hbe & _).
      destruct (Gate.cleared_fields d w) as (Hce & _).
      fold (exec (dispatch user (briefed d w) data) (let_through user d w)).
      rewrite (dispatch_others user (briefed d w) data (let_through user d w)
                 (cleared d w) _ _ u Hbe Hce
                 (Gate.let_through_doc _ _ _ Hd) Hu).
      now apply Gate.let_through_others.
  - unfold button, bind, find_one. rewrite Hd. reflexivity.
Qed.

(** Apart from the exploration of an area, an action at most adds a star. *)
Lemma button_quiet user d data w :
  users_collection w !! user = Some d ->
  String.prefix "explore_" data = false ->
  exists d',
    users_collection (exec (button user data) w) !! user = Some d'
    /\ (d' = regenerated d w \/ d' = cleared d w
        \/ d' = inc_stars 1 (cleared d w)).
Proof.
  intros Hd Hp. unfold exec. destruct (resting d w) eqn:Hrest.
  - destruct (Gate.resting_injured d w Hrest) as (rt & Hs & Hr & Hlt).
    rewrite (Gate.button_resting _ _ _ _ _ Hd Hs Hr Hlt).
    cbn [snd users_collection send store tick_clock].
    rewrite lookup_alter_eq, Hd. eexists. split; [reflexivity | now left].
  - rewrite (Gate.button_let_through _ _ _ _ Hd Hrest).
    destruct (Gate.briefed_fields d w) as (Hbe & _).
    destruct (Gate.cleared_fields d w) as (Hce & _).
    pose proof (Gate.let_through_doc user d w Hd) as Hdoc.
    unfold dispatch, bind, get_game_time, bind, utcnow, ret.
    destruct (game_time_at _) as [[game_day is_night] time_to_next].
    rewrite Hp.
    destruct (String.eqb data "explore").
    { rewrite Hbe. cbn [getitem ret].
      destruct (_ <? 1); eexists; (split; [exact Hdoc | right; now left]). }
    destruct (String.eqb data "collect_star").
    { destruct (negb is_night);
        eexists; (split; [exact Hdoc | right; now left]). }
    destruct (String.prefix "star_" data).
    { cbn [snd update_one reply_text users_collection send store tick_clock].
      rewrite lookup_alter_eq, Hdoc. eexists.
      split; [reflexivity | right; now right]. }
    destruct (String.eqb data "status").
    { unfold find_one. cbn [users_collection tick_clock]. rewrite Hdoc.
      unfold getitem. rewrite Hce. cbn [snd send users_collection].
      eexists. split; [exact Hdoc | right; now left]. }
    destruct (String.eqb data "help");
      eexists; (split; [exact Hdoc | right; now left]).
Qed.

(** A user without a document is only told to start again. *)
Lemma button_unregistered user data w :
  users_collection w !! user = None ->
  button user data w = (Returned tt, send msg_start_again w).
Proof.
  intros Hd. unfold button, bind, find_one. rewrite Hd. reflexivity.
Qed.

(** What [start] does to the collection and what it answers. *)
Lemma start_effect user name w :
  let w' := exec (start user name) w in
  (forall u d, users_collection w !! u = Some d ->
               users_collection w' !! u = Some d)
  /\ (forall u, u <> user ->
                users_collection w' !! u = users_collection w !! u)
  /\ (users_collection w !! user = None ->
      users_collection w' !! user = Some (new_user name (reading w 0)))
  /\ sent w' = sent w ++ [msg_welcome (is_night_at (reading w 1))
                            (game_day_at (reading w 1))].
Proof.
  intros w'. subst w'.
  unfold exec, start, bind, utcnow, get_game_time, bind, utcnow, ret.
  cbn [fst snd users_collection store tick_clock clock utcnow_calls].
  unfold is_night_at, game_day_at, reading. cbn [Nat.add].
  destruct (game_time_at _) as [[game_day is_night] time_to_next].
  cbn [fst snd users_collection send reply_text sent store tick_clock].
  unfold insert_if_absent.
  split; [| split; [| split; [| reflexivity] ] ].
  - intros u d Hu.
    destruct (users_collection w !! user) eqn:Hd; [exact Hu|].
    destruct (decide (u = user)) as [-> | Hne]; [congruence|].
    now rewrite lookup_insert_ne by congruence.
  - intros u Hne.
    destruct (users_collection w !! user) eqn:Hd; [reflexivity|].
    now rewrite lookup_insert_ne by congruence.
  - intros Hd. rewrite Hd. apply lookup_insert_eq.
Qed.

End Effects.

(** * Rejections *)

(** X1. A callback of a user who has no document is answered with the
    invitation to start again and nothing else happens: the collection is
    unchanged, the clock is not read and the generator is not used. *)
Theorem unregistered_player_is_sent_back user data w :
  users_collection w !! user = None ->
  button user data w = (Returned tt, send msg_start_again w).
Proof. apply Effects.button_unregistered. Qed.

Lemma unregistered_player_is_sent_back_witness :
  let w := fresh_world (clock_from by_day) (calm 3) in
  exec (button player "explore_north") w = send msg_start_again w.
Proof.
  intros w. unfold exec.
  rewrite (unregistered_player_is_sent_back player "explore_north" w eq_refl).
  reflexivity.
Defined.

(** X2. When the regenerated energy is below 1, both the exploration menu
    and the exploration of an area are refused with the tired message: no
    energy is deducted, no acorn is rolled, no threat is drawn, and the
    stored document is the one the squirrel check left. *)
Theorem tired_squirrel_explores_nothing user d data w :
  users_collection w !! user = Some d ->
  resting d w = false ->
  energy_at d (reading w 0) < 1 ->
  data = "explore"%string \/ String.prefix "explore_" data = true ->
  let w' := exec (button user data) w in
  sent w' = sent w ++ [msg_tired]
  /\ users_collection w' !! user = Some (cleared d w)
  /\ random_calls w' = random_calls w
  /\ utcnow_calls w' = (3 + check_reads d + utcnow_calls w)%nat.
Proof.
  intros Hd Hrest Hlow Hdata w'. subst w'. unfold exec.
  rewrite (Gate.button_let_through _ _ _ _ Hd Hrest).
  destruct (Gate.briefed_fields d w) as (Hbe & _).
  destruct (Gate.let_through_rest user d w) as (Hcalls & _ & Hsent).
  pose proof (Gate.let_through_doc user d w Hd) as Hdoc.
  assert (Hclock : utcnow_calls (let_through user d w)
                   = (2 + check_reads d + utcnow_calls w)%nat).
  { unfold let_through, check_reads.
    destruct (squirrel_status d); [| destruct (squirrel_recovery_time d)];
      reflexivity. }
  apply Z.ltb_lt in Hlow.
  destruct Hdata as [-> | Hp].
  - unfold dispatch, bind, get_game_time, bind, utcnow, ret.
    destruct (game_time_at _) as [[game_day is_night] time_to_next].
    cbn [String.eqb Ascii.eqb Bool.eqb]. rewrite Hbe. cbn [getitem ret].
    rewrite Hlow.
    cbn [snd reply_text sent send users_collection random_calls utcnow_calls
         tick_clock].
    rewrite Hsent, Hcalls, Hclock. repeat split. exact Hdoc.
  - rewrite (Run.dispatch_area _ _ _ _ Hp).
    rewrite (Run.explore_area_run user (briefed d w) data
               (tick_clock (let_through user d w)) (cleared d w) _
               Hbe Hdoc Hp).
    rewrite Hlow.
    cbn [snd reply_text sent send users_collection random_calls utcnow_calls
         tick_clock].
    rewrite Hsent, Hcalls, Hclock. repeat split. exact Hdoc.
Qed.

Lemma tired_squirrel_explores_nothing_witness :
  let w := world_of (set_energy 0 (new_user None by_day))
             (clock_from by_day) (calm 3) in
  sent (exec (button player "explore_north") w) = [msg_tired]
  /\ (energy <$> users_collection (exec (button player "explore_north") w)
        !! player) = Some (Some 0).
Proof.
  intros w.
  destruct (tired_squirrel_explores_nothing player
              (set_energy 0 (new_user None by_day)) "explore_north" w
              eq_refl eq_refl eq_refl (or_intror eq_refl))
    as (Hsent & Hdoc & _).
  split; [exact Hsent | rewrite Hdoc; reflexivity].
Defined.

(** X3. With energy left, the exploration menu costs nothing: it answers
    with the regenerated energy, and the stored document is the one the
    squirrel check left; the generator is not used. *)
Theorem exploration_menu_is_free user d w :
  users_collection w !! user = Some d ->
  resting d w = false ->
  1 <= energy_at d (reading w 0) ->
  let w' := exec (button user "explore") w in
  sent w' = sent w ++ [msg_where (energy_at d (reading w 0))]
  /\ users_collection w' !! user = Some (cleared d w)
  /\ random_calls w' = random_calls w.
Proof.
  intros Hd Hrest He w'. subst w'. unfold exec.
  rewrite (Gate.button_let_through _ _ _ _ Hd Hrest).
  destruct (Gate.briefed_fields d w) as (Hbe & _).
  destruct (Gate.let_through_rest user d w) as (Hcalls & _ & Hsent).
  pose proof (Gate.let_through_doc user d w Hd) as Hdoc.
  assert (Hok : (energy_at d (reading w 0) <? 1) = false)
    by (apply Z.ltb_ge; lia).
  unfold dispatch, bind, get_game_time, bind, utcnow, ret.
  destruct (game_time_at _) as [[game_day is_night] time_to_next].
  cbn [String.eqb Ascii.eqb Bool.eqb]. rewrite Hbe. cbn [getitem ret].
  rewrite Hok.
  cbn [snd reply_text sent send users_collection random_calls tick_clock].
  rewrite Hsent, Hcalls. repeat split. exact Hdoc.
Qed.

Lemma exploration_menu_is_free_witness :
  let w := world_of (new_user None by_day) (clock_from by_day) (calm 3) in
  sent (exec (button player "explore") w) = [msg_where 10]
  /\ (energy <$> users_collection (exec (button player "explore") w)
        !! player) = Some (Some 10).
Proof.
  intros w.
  destruct (exploration_menu_is_free player (new_user None by_day) w
              eq_refl eq_refl)
    as (Hsent & Hdoc & _).
  - vm_compute. discriminate.
  - split; [exact Hsent | rewrite Hdoc; reflexivity].
Defined.

(** * What every action keeps *)

Module Shape.

Lemma star_bonus_range d : 1 <= star_bonus d <= 2.
Proof. unfold star_bonus. destruct (0 <? stars d); lia. Qed.

Lemma cleared_keeps d w :
  acorns (cleared d w) = acorns d
  /\ stars (cleared d w) = stars d
  /\ level (cleared d w) = level d
  /\ username (cleared d w) = username d
  /\ trees (cleared d w) = trees d
  /\ squirrels (cleared d w) = squirrels d
  /\ energy (cleared d w) = Some (energy_at d (reading w 0))
  /\ last_energy_update (cleared d w) = Some (reading w 1).
Proof. unfold cleared. destruct (squirrel_status d); repeat split. Qed.

Lemma cleared_squirrel d w :
  resting d w = false ->
  (squirrel_status d = injured <-> is_Some (squirrel_recovery_time d)) ->
  squirrel_status (cleared d w) = healthy
  /\ squirrel_recovery_time (cleared d w) = None.
Proof.
  intros _ Hinv. unfold cleared.
  destruct (squirrel_status d) eqn:Hs; [| split; reflexivity].
  split; [exact Hs|]. cbn.
  destruct (squirrel_recovery_time d) as [rt|]; [| reflexivity].
  assert (H : healthy = injured) by (apply Hinv; eauto).
  discriminate H.
Qed.

(** What the five effects do to the counters and leave alone. *)
Lemma effect_counters c d' :
  action_effect c d' ->
  acorns c <= acorns d' <= acorns c + 10
  /\ stars c <= stars d' <= stars c + 1
  /\ level c <= level d' <= level c + 1
  /\ username d' = username c
  /\ trees d' = trees c
  /\ squirrels d' = squirrels c
  /\ last_energy_update d' = last_energy_update c.
Proof.
  intros H. pose proof (star_bonus_range c) as Hb.
  destruct H; cbn; repeat split; nia.
Qed.

(** The threshold of the next level stays ahead of the acorns. *)
Lemma effect_threshold c d' :
  acorns c < level c * 50 ->
  action_effect c d' ->
  acorns d' < level d' * 50.
Proof.
  intros Hc H. pose proof (star_bonus_range c) as Hb.
  destruct H; cbn; nia.
Qed.

Lemma effect_energy c d' e :
  energy c = Some e ->
  action_effect c d' ->
  exists e', energy d' = Some e' /\ e - 1 <= e' <= e + 4.
Proof.
  intros He H.
  destruct H; cbn; rewrite ?He; cbn; eexists; (split; [reflexivity|]); lia.
Qed.

Lemma effect_squirrel c d' :
  squirrel_status c = healthy ->
  squirrel_recovery_time c = None ->
  action_effect c d' ->
  squirrel_status d' = injured <-> is_Some (squirrel_recovery_time d').
Proof.
  intros Hs Hr H.
  destruct H; cbn; rewrite ?Hs, ?Hr; split; intros Hx;
    try discriminate; try (inversion Hx; discriminate);
    eauto.
Qed.

End Shape.

(** X4. A callback of one player never changes the document of another
    player. *)
Theorem button_leaves_other_players user data w u :
  u <> user ->
  users_collection (exec (button user data) w) !! u
  = users_collection w !! u.
Proof. apply Effects.button_others. Qed.

Lemma button_leaves_other_players_witness :
  let w := store (fun m => <[8 := starred]> m)
             (world_of nearly_level_2 (clock_from by_day) (calm 1)) in
  users_collection (exec (button player "explore_north") w) !! 8
  = Some starred.
Proof.
  intros w.
  rewrite (button_leaves_other_players player "explore_north" w 8).
  - reflexivity.
  - discriminate.
Defined.

(** X6. Whatever the action, the acorns, the stars and the level of the
    player never decrease: one action adds at most 10 acorns, at most one
    star and at most one level, and leaves the user name, the trees and the
    squirrels as they were. *)
Theorem counters_never_decrease user d data w :
  users_collection w !! user = Some d ->
  exists d',
    users_collection (exec (button user data) w) !! user = Some d'
    /\ acorns d <= acorns d' <= acorns d + 10
    /\ stars d <= stars d' <= stars d + 1
    /\ level d <= level d' <= level d + 1
    /\ username d' = username d
    /\ trees d' = trees d
    /\ squirrels d' = squirrels d.
Proof.
  intros Hd.
  destruct (Effects.button_effect user d data w Hd) as (d' & Hdoc & Heff).
  exists d'. split; [exact Hdoc|].
  destruct (resting d w).
  - subst d'. cbn. repeat split; lia.
  - destruct (Shape.cleared_keeps d w) as (Ha & Hs & Hl & Hu & Ht & Hq & _).
    destruct (Shape.effect_counters _ _ Heff)
      as (Ha' & Hs' & Hl' & Hu' & Ht' & Hq' & _).
    rewrite Ha in Ha'. rewrite Hs in Hs'. rewrite Hl in Hl'.
    rewrite Hu in Hu'. rewrite Ht in Ht'. rewrite Hq in Hq'.
    repeat split; try assumption; lia.
Qed.

Lemma counters_never_decrease_witness :
  let w := world_of nearly_level_2 (clock_from by_day) (calm 5) in
  exists d',
    users_collection (exec (button player "explore_north") w) !! player
    = Some d'
    /\ 49 <= acorns d' <= 59 /\ 0 <= stars d' <= 1 /\ 1 <= level d' <= 2.
Proof.
  intros w.
  destruct (counters_never_decrease player nearly_level_2 "explore_north" w
              eq_refl)
    as (d' & Hdoc & Ha & Hs & Hl & _).
  exists d'. split; [exact Hdoc|]. split; [exact Ha|].
  split; [exact Hs | exact Hl].
Defined.

(** X7. Every callback of a player who has a document restarts the
    regeneration timer: whatever the action, accepted or rejected, the
    stored last energy update is the second reading of the clock taken by
    the handler. *)
Theorem energy_timer_restarts user d data w :
  users_collection w !! user = Some d ->
  exists d',
    users_collection (exec (button user data) w) !! user = Some d'
    /\ last_energy_update d' = Some (reading w 1).
Proof.
  intros Hd.
  destruct (Effects.button_effect user d data w Hd) as (d' & Hdoc & Heff).
  exists d'. split; [exact Hdoc|].
  destruct (resting d w).
  - subst d'. reflexivity.
  - destruct (Shape.cleared_keeps d w) as (_ & _ & _ & _ & _ & _ & _ & Ht).
    destruct (Shape.effect_counters _ _ Heff) as (_ & _ & _ & _ & _ & _ & Ht').
    now rewrite Ht', Ht.
Qed.

Lemma energy_timer_restarts_witness :
  let w := world_of (hurt by_day) (clock_from (by_day + timedelta_hours 1))
             (calm 0) in
  exists d',
    users_collection (exec (button player "help") w) !! player = Some d'
    /\ last_energy_update d' = Some (by_day + timedelta_hours 1 + 1).
Proof.
  intros w.
  exact (energy_timer_restarts player (hurt by_day) "help" w eq_refl).
Defined.

(** X8. One action never leaves acorns enough for a further level: if the
    acorns are below the threshold [level * 50] before an action, they are
    below the threshold of the level reached after it.  The single
    level-up test of lines 193-199 therefore never falls behind. *)
Theorem level_threshold_stays_ahead user d data w :
  users_collection w !! user = Some d ->
  acorns d < level d * 50 ->
  exists d',
    users_collection (exec (button user data) w) !! user = Some d'
    /\ acorns d' < level d' * 50.
Proof.
  intros Hd Hinv.
  destruct (Effects.button_effect user d data w Hd) as (d' & Hdoc & Heff).
  exists d'. split; [exact Hdoc|].
  destruct (resting d w).
  - subst d'. exact Hinv.
  - destruct (Shape.cleared_keeps d w) as (Ha & _ & Hl & _).
    apply (Shape.effect_threshold (cleared d w)); [| exact Heff].
    now rewrite Ha, Hl.
Qed.

Lemma level_threshold_stays_ahead_witness :
  let w := world_of (inc_stars 1 nearly_level_2) (clock_from by_day) (calm 5) in
  exists d',
    users_collection (exec (button player "explore_north") w) !! player
    = Some d'
    /\ acorns d' < level d' * 50.
Proof.
  intros w.
  apply (level_threshold_stays_ahead player (inc_stars 1 nearly_level_2)
           "explore_north" w eq_refl).
  reflexivity.
Defined.

(** * More on the time cycle *)

Module Daylight.

Import TimeFacts.

Lemma game_day_in_cycle t :
  game_day_at t = (t mod cycle_us) * 13 / cycle_us + 1.
Proof. rewrite game_day_at_spec. apply day_index_spec_Z. Qed.

Lemma night_in_cycle t :
  is_night_at t = true <-> 6 * cycle_us <= 13 * (t mod cycle_us).
Proof.
  pose proof Cycle.cycle_us_pos as Hc.
  rewrite is_night_at_eq, game_day_in_cycle, Z.ltb_lt. split.
  - intros H.
    assert (Hq : 6 <= (t mod cycle_us) * 13 / cycle_us) by lia.
    destruct (Z.lt_ge_cases (13 * (t mod cycle_us)) (6 * cycle_us))
      as [Hlt | Hge]; [| exact Hge].
    assert ((t mod cycle_us) * 13 / cycle_us < 6); [| lia].
    apply Z.div_lt_upper_bound; lia.
  - intros H.
    assert (6 <= (t mod cycle_us) * 13 / cycle_us); [| lia].
    apply Z.div_le_lower_bound; lia.
Qed.


End Daylight.

(** X9. Night is the last seven thirteenths of every four-hour cycle: away
    from the boundaries between game days (farther than the rounding of a
    double), it is night exactly when at least 6/13 of the cycle has
    elapsed since its start. *)
Theorem night_is_the_end_of_the_cycle (t : datetime) :
  - 2 ^ 58 < t < 2 ^ 58 ->
  near_day_boundary (total_seconds (t - epoch))
    (double_rounding (total_seconds (t - epoch))) = false ->
  is_night_in_doubles t = true <-> 6 * cycle_us <= 13 * (t mod cycle_us).
Proof.
  intros Ht Hfar. unfold is_night_in_doubles.
  rewrite (OracleInDoubles.game_day_in_doubles_away t Ht Hfar).
  rewrite <- TimeFacts.game_day_at_spec, <- TimeFacts.is_night_at_eq.
  apply Daylight.night_in_cycle.
Qed.

Lemma night_is_the_end_of_the_cycle_witness :
  is_night_in_doubles by_night = true
  <-> 6 * cycle_us <= 13 * (by_night mod cycle_us).
Proof.
  apply (night_is_the_end_of_the_cycle by_night).
  - split; reflexivity.
  - vm_compute. reflexivity.
Defined.

(** X10. While doubles resolve microseconds (up to [2^33] seconds from
    the epoch), the time to the next cycle restart is never zero and at
    most four hours; the whole hours shown to the player are between 0 and
    4, and 4 is shown only at the very instant a cycle starts. *)
Theorem hours_shown_range (t : datetime) :
  - (2 ^ 33 * us_per_second) < t < 2 ^ 33 * us_per_second ->
  0 < time_to_next_in_doubles t <= timedelta_hours 4
  /\ 0 <= hours_in_doubles (time_to_next_in_doubles t) <= 4
  /\ (hours_in_doubles (time_to_next_in_doubles t) = 4
      <-> t mod cycle_us = 0).
Proof.
  intros Ht.
  pose proof Cycle.cycle_us_pos as Hc.
  pose proof (Z.mod_pos_bound t cycle_us Hc) as Hr.
  rewrite (NextStartInDoubles.time_to_next_in_doubles_exact t Ht).
  rewrite NextStartInDoubles.hours_in_doubles_exact by lia.
  rewrite Cycle.four_hours.
  assert (Hunit : 0 < 3600 * us_per_second) by reflexivity.
  assert (Hfour : cycle_us = 4 * (3600 * us_per_second)) by reflexivity.
  split; [lia|]. split; [split|split].
  - apply Z.div_pos; lia.
  - apply Z.div_le_upper_bound; lia.
  - intros H.
    destruct (Z.eq_dec (t mod cycle_us) 0) as [E | E]; [exact E|].
    assert ((cycle_us - t mod cycle_us) / (3600 * us_per_second) < 4);
      [| lia].
    apply Z.div_lt_upper_bound; lia.
  - intros ->. rewrite Z.sub_0_r. reflexivity.
Qed.

Lemma hours_shown_range_witness :
  0 < time_to_next_in_doubles by_day <= timedelta_hours 4
  /\ 0 <= hours_in_doubles (time_to_next_in_doubles by_day) <= 4
  /\ (hours_in_doubles (time_to_next_in_doubles by_day) = 4
      <-> by_day mod cycle_us = 0).
Proof.
  apply (hours_shown_range by_day). split; reflexivity.
Defined.



(** * More on regeneration *)

Module HalfHours.

Lemma int_twice_hours (td : timedelta) :
  PyNum.int_of_float (total_seconds td / 3600 * 2)%Q
  = Z.quot td (1800 * us_per_second).
Proof.
  unfold PyNum.int_of_float, total_seconds, us_per_second.
  cbn [Qnum Qden Qmult Qdiv Qinv inject_Z].
  rewrite !Z.mul_1_r.
  change (Z.pos (1 * 1000000 * 3600 * 1)) with (1800000000 * 2).
  change (1800 * 1000000) with 1800000000.
  apply Z.quot_mul_cancel_r; lia.
Qed.

Lemma energy_at_half_hours d now :
  energy_at d now
  = Z.min (default 10 (energy d)
           + Z.quot (now - default now (last_energy_update d))
               (1800 * us_per_second)) 10.
Proof. unfold energy_at, regen. cbv zeta. now rewrite int_twice_hours. Qed.

End HalfHours.

(** X12. Regeneration counts completed half hours: the regenerated energy
    is the stored energy (10 when absent) plus one point per whole half
    hour elapsed since the last update (none when absent), capped at 10.
    Less than half an hour after the last update nothing is gained. *)
Theorem regeneration_counts_half_hours d now :
  energy_at d now
  = Z.min (default 10 (energy d)
           + Z.quot (now - default now (last_energy_update d))
               (1800 * us_per_second)) 10
  /\ (0 <= now - default now (last_energy_update d) < 1800 * us_per_second ->
      energy_at d now = Z.min (default 10 (energy d)) 10).
Proof.
  split; [apply HalfHours.energy_at_half_hours|].
  intros H. rewrite HalfHours.energy_at_half_hours.
  rewrite Z.quot_small by exact H. now rewrite Z.add_0_r.
Qed.

Lemma regeneration_counts_half_hours_witness :
  energy_at (set_energy 3 (new_user None by_day))
    (by_day + 1799 * us_per_second) = 3.
Proof.
  rewrite (proj2 (regeneration_counts_half_hours
                    (set_energy 3 (new_user None by_day))
                    (by_day + 1799 * us_per_second))).
  - reflexivity.
  - vm_compute. split; [discriminate | reflexivity].
Defined.

(** X13. The minutes waited are lost: an action other than the exploration
    of an area, taken less than half an hour after the last energy update
    by a player whose stored energy is at most 10, leaves the energy as it
    was and still moves the last energy update to the time of the action. *)
Theorem waiting_is_lost user d data w e t :
  users_collection w !! user = Some d ->
  energy d = Some e ->
  e <= 10 ->
  last_energy_update d = Some t ->
  0 <= reading w 0 - t < 1800 * us_per_second ->
  String.prefix "explore_" data = false ->
  exists d',
    users_collection (exec (button user data) w) !! user = Some d'
    /\ energy d' = Some e
    /\ last_energy_update d' = Some (reading w 1).
Proof.
  intros Hd He Hcap Ht Hwait Hp.
  assert (Hsame : energy_at d (reading w 0) = e).
  { rewrite HalfHours.energy_at_half_hours, He, Ht.
    unfold default. cbn [from_option id].
    rewrite Z.quot_small by exact Hwait. lia. }
  destruct (Effects.button_quiet user d data w Hd Hp) as (d' & Hdoc & Hform).
  exists d'. split; [exact Hdoc|].
  destruct (Shape.cleared_keeps d w) as (_ & _ & _ & _ & _ & _ & Hce & Hct).
  rewrite Hsame in Hce.
  destruct Hform as [-> | [-> | ->]].
  - unfold regenerated. cbn. now rewrite Hsame.
  - split; assumption.
  - cbn. split; assumption.
Qed.

Lemma waiting_is_lost_witness :
  let w := world_of (set_energy 3 (new_user None by_day))
             (clock_from (by_day + 1799 * us_per_second)) (calm 0) in
  exists d',
    users_collection (exec (button player "status") w) !! player = Some d'
    /\ energy d' = Some 3
    /\ last_energy_update d' = Some (by_day + 1799 * us_per_second + 1).
Proof.
  intros w.
  apply (waiting_is_lost player (set_energy 3 (new_user None by_day))
           "status" w 3 by_day eq_refl eq_refl).
  - discriminate.
  - reflexivity.
  - vm_compute. split; [discriminate | reflexivity].
  - reflexivity.
Defined.

(** X14. An injured squirrel whose recovery time is missing is taken as
    recovered: the action is let through at once, without reading the clock
    for the check, and the stored squirrel becomes healthy. *)
Theorem injured_without_recovery_time_is_healed user d data w :
  users_collection w !! user = Some d ->
  squirrel_status d = injured ->
  squirrel_recovery_time d = None ->
  button user data w = dispatch user (briefed d w) data (let_through user d w)
  /\ utcnow_calls (let_through user d w) = (2 + utcnow_calls w)%nat
  /\ sent (let_through user d w) = sent w
  /\ exists d1,
      users_collection (let_through user d w) !! user = Some d1
      /\ squirrel_status d1 = healthy
      /\ squirrel_recovery_time d1 = None.
Proof.
  intros Hd Hs Hr.
  assert (Hrest : resting d w = false) by (unfold resting; now rewrite Hs, Hr).
  split; [apply (Gate.button_let_through _ _ _ _ Hd Hrest)|].
  split; [unfold let_through; now rewrite Hs, Hr|].
  split; [apply Gate.let_through_rest|].
  exists (cleared d w). split; [apply (Gate.let_through_doc _ _ _ Hd)|].
  unfold cleared. rewrite Hs. split; reflexivity.
Qed.

Lemma injured_without_recovery_time_is_healed_witness :
  let d := set_squirrel_status injured (new_user None by_day) in
  let w := world_of d (clock_from by_day) (calm 0) in
  sent (exec (button player "help") w) = [msg_help]
  /\ (squirrel_status <$> users_collection (exec (button player "help") w)
        !! player) = Some healthy.
Proof.
  intros d w.
  destruct (injured_without_recovery_time_is_healed player d "help" w
              eq_refl eq_refl eq_refl) as (Hrun & _).
  unfold exec. rewrite Hrun. split; reflexivity.
Defined.





(** X17. A callback the dispatch does not know is not answered at all; the
    handler has nevertheless regenerated the energy and run the squirrel
    check. *)
Theorem unknown_callback_is_silent user d data w :
  users_collection w !! user = Some d ->
  resting d w = false ->
  String.eqb data "explore" = false ->
  String.prefix "explore_" data = false ->
  String.eqb data "collect_star" = false ->
  String.prefix "star_" data = false ->
  String.eqb data "status" = false ->
  String.eqb data "help" = false ->
  let w' := exec (button user data) w in
  sent w' = sent w
  /\ users_collection w' !! user = Some (cleared d w)
  /\ random_calls w' = random_calls w.
Proof.
  intros Hd Hrest H1 H2 H3 H4 H5 H6 w'. subst w'. unfold exec.
  rewrite (Gate.button_let_through _ _ _ _ Hd Hrest).
  destruct (Gate.let_through_rest user d w) as (Hcalls & _ & Hsent).
  unfold dispatch, bind, get_game_time, bind, utcnow, ret.
  destruct (game_time_at _) as [[game_day is_night] time_to_next].
  rewrite H1, H2, H3, H4, H5, H6.
  cbn [snd sent tick_clock users_collection random_calls].
  split; [exact Hsent|]. split; [| exact Hcalls].
  apply (Gate.let_through_doc _ _ _ Hd).
Qed.

Lemma unknown_callback_is_silent_witness :
  let w := world_of (set_energy 3 (new_user None by_day))
             (clock_from (by_day + timedelta_hours 1)) (calm 0) in
  sent (exec (button player "star") w) = []
  /\ (energy <$> users_collection (exec (button player "star") w) !! player)
     = Some (Some 5).
Proof.
  intros w.
  destruct (unknown_callback_is_silent player
              (set_energy 3 (new_user None by_day)) "star" w
              eq_refl eq_refl eq_refl eq_refl eq_refl eq_refl eq_refl eq_refl)
    as (Hsent & Hdoc & _).
  split; [exact Hsent | rewrite Hdoc; reflexivity].
Defined.



(** * The documents stay well formed *)

Module Formed.

Lemma new_user_well_formed name now : well_formed (new_user name now).
Proof.
  unfold well_formed. cbn. repeat split; try lia; eauto.
  - discriminate.
  - intros [? H]. discriminate H.
  - exists 10. split; [reflexivity | lia].
Qed.

Lemma regenerated_well_formed d w :
  well_formed d -> well_formed (regenerated d w).
Proof.
  intros (Ha & Hs & Hl & Hth & Hsq & _ & _ & Ht & Hq).
  unfold well_formed, regenerated. cbn.
  repeat split; try assumption; try apply Hsq; eauto.
  exists (energy_at d (reading w 0)). split; [reflexivity|].
  pose proof (Energy.energy_at_le d (reading w 0)). lia.
Qed.

Lemma effect_well_formed d w d' :
  well_formed d ->
  resting d w = false ->
  action_effect (cleared d w) d' ->
  well_formed d'.
Proof.
  intros (Ha & Hs & Hl & Hth & Hsq & _ & _ & Ht & Hq) Hrest Heff.
  destruct (Shape.cleared_keeps d w)
    as (Hca & Hcs & Hcl & _ & Hct & Hcq & Hce & Hcu).
  destruct (Shape.cleared_squirrel d w Hrest Hsq) as (Hh & Hn).
  destruct (Shape.effect_counters _ _ Heff)
    as (Ha' & Hs' & Hl' & _ & Ht' & Hq' & Hu').
  pose proof (Shape.effect_threshold (cleared d w) d') as Hth'.
  destruct (Shape.effect_energy _ _ _ Hce Heff) as (e' & He' & Hbound).
  pose proof (Energy.energy_at_le d (reading w 0)) as Hcap.
  unfold well_formed. rewrite Hca, Hcs, Hcl in *.
  split; [lia|]. split; [lia|]. split; [lia|].
  split; [apply Hth'; [lia | exact Heff] |].
  split; [apply (Shape.effect_squirrel _ _ Hh Hn Heff)|].
  split; [exists e'; split; [exact He' | lia] |].
  split; [rewrite Hu', Hcu; eauto|].
  split; congruence.
Qed.

(** One update keeps every document well formed. *)
Lemma handle_well_formed u w :
  (forall k d, users_collection w !! k = Some d -> well_formed d) ->
  forall k d,
    users_collection (exec (handle u) w) !! k = Some d -> well_formed d.
Proof.
  intros Hw k d. destruct u as [user name | | user data]; cbn [handle].
  - destruct (decide (k = user)) as [-> | Hne].
    + destruct (start_registers user name w) as [Hdoc _]. rewrite Hdoc.
      destruct (users_collection w !! user) as [d0|] eqn:Hd0.
      * intros [= <-]. apply (Hw user d0 Hd0).
      * intros [= <-]. apply new_user_well_formed.
    + unfold exec, start, bind, utcnow, get_game_time, bind, utcnow, ret.
      cbn [fst snd users_collection store tick_clock clock utcnow_calls].
      destruct (game_time_at _) as [[game_day is_night] time_to_next].
      cbn [fst snd users_collection send reply_text store tick_clock].
      unfold insert_if_absent.
      destruct (users_collection w !! user); [apply Hw|].
      rewrite lookup_insert_ne by congruence. apply Hw.
  - apply Hw.
  - destruct (decide (k = user)) as [-> | Hne].
    + destruct (users_collection w !! user) as [d0|] eqn:Hd0.
      * destruct (Effects.button_effect user d0 data w Hd0)
          as (d' & Hdoc & Heff).
        rewrite Hdoc. intros [= <-].
        destruct (resting d0 w) eqn:Hrest.
        -- subst d'. apply regenerated_well_formed, (Hw user d0 Hd0).
        -- apply (effect_well_formed d0 w d' (Hw user d0 Hd0) Hrest Heff).
      * unfold exec, button, bind, find_one. rewrite Hd0.
        cbn [snd reply_text users_collection send]. rewrite Hd0.
        discriminate.
    + rewrite Effects.button_others by exact Hne. apply Hw.
Qed.

End Formed.

(** X19. The handlers keep every document well formed.  If, before a
    sequence of [/start] and [/help] commands and callbacks of any users,
    every document has non-negative acorns and stars, a level of at least
    1, acorns below the threshold [level * 50], a recovery time exactly
    when the squirrel is injured, an energy of at most 14, a last energy
    update and the single default tree and squirrel, then so has every
    document after the sequence: with any clock and any generator. *)
Theorem handlers_keep_documents_well_formed (us : list update) (w : world) :
  (forall k d, users_collection w !! k = Some d -> well_formed d) ->
  forall k d,
    users_collection (after us w) !! k = Some d -> well_formed d.
Proof.
  revert w. induction us as [| u us IH]; intros w Hw; cbn [after].
  - exact Hw.
  - apply IH. apply Formed.handle_well_formed. exact Hw.
Qed.

Lemma handlers_keep_documents_well_formed_witness :
  let w := fresh_world (clock_from by_night) (calm 5) in
  let us := [command_start player None;
             callback_query player "explore_north";
             callback_query player "collect_star";
             callback_query player "star_1"] in
  exists d,
    users_collection (after us w) !! player = Some d
    /\ stars d = 1 /\ acorns d = 5
    /\ well_formed d.
Proof.
  intros w us.
  pose proof (handlers_keep_documents_well_formed us w) as Hinv.
  specialize (Hinv ltac:(intros k d H; discriminate H) player).
  remember (users_collection (after us w) !! player) as found eqn:Hfound.
  vm_compute in Hfound. subst found.
  eexists. split; [reflexivity|]. split; [reflexivity|].
  split; [reflexivity|]. apply Hinv. reflexivity.
Defined.

(** * The location of an exploration *)

Module Location.

Lemma split_on_lacks sep a : lacks sep a = true -> split_on sep a = [a].
Proof.
  induction a as [| c a IH]; intros H; [reflexivity|].
  cbn [lacks] in H. apply andb_prop in H as [Hc Ha].
  apply negb_true_iff in Hc. cbn [split_on]. rewrite Hc, (IH Ha). reflexivity.
Qed.

Lemma split_on_cut sep a b :
  lacks sep a = true ->
  split_on sep (String.append a (String sep b)) = a :: split_on sep b.
Proof.
  induction a as [| c a IH]; intros H.
  - change (String.append "" (String sep b)) with (String sep b).
    cbn [split_on]. now rewrite Ascii.eqb_refl.
  - cbn [lacks] in H. apply andb_prop in H as [Hc Ha].
    apply negb_true_iff in Hc.
    change (String.append (String c a) (String sep b))
      with (String c (String.append a (String sep b))).
    cbn [split_on]. rewrite Hc, (IH Ha). reflexivity.
Qed.

Lemma split_on_explore rest :
  split_on "_" (String.append "explore_" rest)
  = "explore"%string :: split_on "_" rest.
Proof.
  change (String.append "explore_" rest)
    with (String.append "explore" (String "_" rest)).
  now apply split_on_cut.
Qed.

End Location.

(** X20. The location shown after an exploration is the text between the
    first and the second underscore of the callback data, its first letter
    in upper case and the others in lower case; what follows a second
    underscore is dropped. *)
Theorem location_is_the_second_part (a rest : string) :
  lacks "_" a = true ->
  location_of (String.append "explore_" a) = capitalize a
  /\ location_of (String.append "explore_" (String.append a (String "_" rest)))
     = capitalize a.
Proof.
  intros Ha. unfold location_of. rewrite !Location.split_on_explore.
  rewrite (Location.split_on_lacks _ _ Ha), (Location.split_on_cut _ _ _ Ha).
  split; [reflexivity|].
  destruct (split_on "_" rest); reflexivity.
Qed.

Lemma location_is_the_second_part_witness :
  location_of "explore_underground" = "Underground"%string
  /\ location_of "explore_nORTH_east" = "North"%string.
Proof.
  split.
  - exact (proj1 (location_is_the_second_part "underground" "" eq_refl)).
  - exact (proj2 (location_is_the_second_part "nORTH" "east" eq_refl)).
Defined.

(** * Energy under a clock that never goes back *)

Module Clocks.

Import Run.

#[local] Arguments energy_at : simpl never.
#[local] Arguments game_time_at : simpl never.
#[local] Arguments hours_of : simpl never.
#[local] Arguments Z.mul : simpl never.
#[local] Arguments Z.add : simpl never.
#[local] Arguments Z.modulo : simpl never.
#[local] Arguments Z.ltb : simpl never.
#[local] Arguments Z.leb : simpl never.

(** The dispatch reads the clock without changing it. *)
Lemma dispatch_clock user ud data w c e e0 :
  energy ud = Some e ->
  energy c = Some e0 ->
  users_collection w !! user = Some c ->
  clock (exec (dispatch user ud data) w) = clock w
  /\ (utcnow_calls w <= utcnow_calls (exec (dispatch user ud data) w))%nat.
Proof.
  intros He Hc Hd.
  destruct (String.prefix "explore_" data) eqn:Hp.
  - unfold exec. rewrite (dispatch_area _ _ _ _ Hp).
    rewrite (explore_area_run user ud data (tick_clock w) c e He Hd Hp).
    destruct (e <? 1); [cbn; split; [reflexivity | lia] |]. cbv zeta.
    destruct (threat_met _); [| destruct (_ <=? _)];
      cbn [snd clock utcnow_calls send store tick_clock seek_random];
      (split; [reflexivity | lia]).
  - unfold exec, dispatch, bind, get_game_time, bind, utcnow, ret.
    destruct (game_time_at _) as [[game_day is_night] time_to_next].
    rewrite Hp.
    destruct (String.eqb data "explore").
    { rewrite He. cbn [getitem ret].
      destruct (e <? 1); cbn; (split; [reflexivity | lia]). }
    destruct (String.eqb data "collect_star").
    { destruct (negb is_night); cbn; (split; [reflexivity | lia]). }
    destruct (String.prefix "star_" data).
    { cbn. split; [reflexivity | lia]. }
    destruct (String.eqb data "status").
    { unfold find_one. cbn [users_collection tick_clock]. rewrite Hd.
      unfold getitem. rewrite Hc. cbn. split; [reflexivity | lia]. }
    destruct (String.eqb data "help"); cbn; (split; [reflexivity | lia]).
Qed.

Lemma let_through_clock user d w :
  clock (let_through user d w) = clock w
  /\ (2 + utcnow_calls w <= utcnow_calls (let_through user d w))%nat.
Proof.
  unfold let_through.
  destruct (squirrel_status d); [| destruct (squirrel_recovery_time d)];
    cbn; (split; [reflexivity | lia]).
Qed.

(** The handler of a player with a document takes at least two readings. *)
Lemma button_clock user d data w :
  users_collection w !! user = Some d ->
  clock (exec (button user data) w) = clock w
  /\ (2 + utcnow_calls w <= utcnow_calls (exec (button user data) w))%nat.
Proof.
  intros Hd. unfold exec. destruct (resting d w) eqn:Hrest.
  - destruct (Gate.resting_injured d w Hrest) as (rt & Hs & Hr & Hlt).
    rewrite (Gate.button_resting _ _ _ _ _ Hd Hs Hr Hlt).
    cbn. split; [reflexivity | lia].
  - rewrite (Gate.button_let_through _ _ _ _ Hd Hrest).
    destruct (Gate.briefed_fields d w) as (Hbe & _).
    destruct (Gate.cleared_fields d w) as (Hce & _).
    destruct (dispatch_clock user (briefed d w) data (let_through user d w)
                (cleared d w) _ _ Hbe Hce (Gate.let_through_doc _ _ _ Hd))
      as (Hclk & Hcalls).
    destruct (let_through_clock user d w) as (Hclk0 & Hcalls0).
    unfold exec in Hclk, Hcalls. rewrite Hclk, Hclk0.
    split; [reflexivity | lia].
Qed.

Lemma handle_clock u w :
  clock (exec (handle u) w) = clock w
  /\ (utcnow_calls w <= utcnow_calls (exec (handle u) w))%nat.
Proof.
  destruct u as [user name | | user data]; cbn [handle].
  - unfold exec, start, bind, utcnow, get_game_time, bind, utcnow, ret.
    cbn [fst snd tick_clock store clock utcnow_calls].
    destruct (game_time_at _) as [[game_day is_night] time_to_next].
    cbn. split; [reflexivity | lia].
  - cbn. split; [reflexivity | lia].
  - destruct (users_collection w !! user) as [d|] eqn:Hd.
    + destruct (button_clock user d data w Hd) as (Hclk & Hcalls).
      split; [exact Hclk | lia].
    + unfold exec, button, bind, find_one. rewrite Hd.
      cbn. split; [reflexivity | lia].
Qed.

Lemma start_calls user name w :
  utcnow_calls (exec (start user name) w) = (2 + utcnow_calls w)%nat.
Proof.
  unfold exec, start, bind, utcnow, get_game_time, bind, utcnow, ret.
  cbn [fst snd tick_clock store clock utcnow_calls].
  destruct (game_time_at _) as [[game_day is_night] time_to_next].
  reflexivity.
Qed.

(** The energy after an effect, from an energy that is not negative. *)
Lemma effect_energy_range c d' e :
  energy c = Some e ->
  0 <= e <= 10 ->
  action_effect c d' ->
  exists e', energy d' = Some e' /\ 0 <= e' <= 14.
Proof.
  intros He Hrange H.
  destruct H as [| | now e1 He1 H1 | r e1 He1 H1 Hr Hth | r e1 He1 H1 Hr Hth];
    cbn; rewrite ?He; cbn;
    try (rewrite He in He1; injection He1 as <-);
    eexists; (split; [reflexivity|]); lia.
Qed.

(** A charged document stays charged when more readings have been taken. *)
Lemma charged_later w w' d :
  clock w' = clock w ->
  (utcnow_calls w <= utcnow_calls w')%nat ->
  charged w d -> charged w' d.
Proof.
  intros Hclk Hcalls (He & t & Ht & Hpast).
  split; [exact He|]. exists t. split; [exact Ht|].
  intros j Hj. rewrite Hclk. apply Hpast. lia.
Qed.

Lemma charged_now w w' d i e :
  clock_never_goes_back w ->
  clock w' = clock w ->
  (i < utcnow_calls w')%nat ->
  energy d = Some e -> 0 <= e <= 14 ->
  last_energy_update d = Some (clock w i) ->
  charged w' d.
Proof.
  intros Hmono Hclk Hi He Hrange Ht.
  split; [exists e; split; assumption|].
  exists (clock w i). split; [exact Ht|].
  intros j Hj. rewrite Hclk. apply Hmono. lia.
Qed.

(** One update keeps every document charged. *)
Lemma handle_charged u w :
  clock_never_goes_back w ->
  (forall k d, users_collection w !! k = Some d -> charged w d) ->
  forall k d,
    users_collection (exec (handle u) w) !! k = Some d ->
    charged (exec (handle u) w) d.
Proof.
  intros Hmono Hw k d Hk.
  destruct (handle_clock u w) as (Hclk & Hcalls).
  destruct u as [user name | | user data]; cbn [handle] in *.
  - destruct (Effects.start_effect user name w)
      as (_ & Hothers & Hnew & _).
    destruct (decide (k = user)) as [-> | Hne].
    + destruct (users_collection w !! user) as [d0|] eqn:Hd0.
      * destruct (start_registers user name w) as [Hdoc _].
        rewrite Hd0 in Hdoc. rewrite Hdoc in Hk. injection Hk as <-.
        apply (charged_later w _ d0 Hclk Hcalls), (Hw user d0 Hd0).
      * rewrite (Hnew eq_refl) in Hk. injection Hk as <-.
        apply (charged_now w _ _ (utcnow_calls w) 10 Hmono Hclk);
          [rewrite start_calls; lia | reflexivity | lia | reflexivity].
    + rewrite (Hothers k Hne) in Hk.
      apply (charged_later w _ d Hclk Hcalls), (Hw k d Hk).
  - apply (charged_later w _ d Hclk Hcalls), (Hw k d Hk).
  - destruct (decide (k = user)) as [-> | Hne].
    + destruct (users_collection w !! user) as [d0|] eqn:Hd0.
      * destruct (Hw user d0 Hd0) as ((e0 & He0 & Hr0) & t & Ht & Hpast).
        assert (Hregen : 0 <= energy_at d0 (reading w 0) <= 10).
        { split; [| apply Energy.energy_at_le].
          apply Energy.energy_at_ge.
          - intros e H. rewrite He0 in H. injection H as <-. lia.
          - intros t' H. rewrite Ht in H. injection H as <-.
            apply Hpast. unfold reading. lia. }
        destruct (button_clock user d0 data w Hd0) as (_ & Hcalls2).
        destruct (Effects.button_effect user d0 data w Hd0)
          as (d' & Hdoc & Heff).
        rewrite Hdoc in Hk. injection Hk as <-.
        destruct (Shape.cleared_keeps d0 w)
          as (_ & _ & _ & _ & _ & _ & Hce & Hct).
        destruct (resting d0 w).
        -- subst d'.
           apply (charged_now w _ _ (1 + utcnow_calls w)
                    (energy_at d0 (reading w 0)) Hmono Hclk);
             [lia | reflexivity | lia | reflexivity].
        -- destruct (effect_energy_range _ _ _ Hce Hregen Heff)
             as (e' & He' & Hr').
           destruct (Shape.effect_counters _ _ Heff)
             as (_ & _ & _ & _ & _ & _ & Hu).
           apply (charged_now w _ _ (1 + utcnow_calls w) e' Hmono Hclk);
             [lia | exact He' | exact Hr' | now rewrite Hu, Hct].
      * unfold exec in Hk.
        rewrite (Effects.button_unregistered user data w Hd0) in Hk.
        cbn [snd users_collection send] in Hk. congruence.
    + rewrite Effects.button_others in Hk by exact Hne.
      apply (charged_later w _ d Hclk Hcalls), (Hw k d Hk).
Qed.

End Clocks.

(** X21. With a clock that never goes back, the energy never leaves
    [[0, 14]].  If every document has an energy in [[0, 14]] and a last
    energy update that no coming reading of the clock precedes, then after
    any sequence of commands and callbacks every document is so again:
    regeneration never takes energy away and an exploration never takes the
    energy below 0. *)
Theorem energy_stays_in_range (us : list update) (w : world) :
  clock_never_goes_back w ->
  (forall k d, users_collection w !! k = Some d -> charged w d) ->
  forall k d,
    users_collection (after us w) !! k = Some d -> charged (after us w) d.
Proof.
  revert w. induction us as [| u us IH]; intros w Hmono Hw; cbn [after].
  - exact Hw.
  - destruct (Clocks.handle_clock u w) as (Hclk & _).
    apply IH.
    + intros i j Hij. rewrite Hclk. now apply Hmono.
    + now apply Clocks.handle_charged.
Qed.

Lemma energy_stays_in_range_witness :
  let w := fresh_world (clock_from by_day) (calm 5) in
  let us := [command_start player None;
             callback_query player "explore_north";
             callback_query player "explore_south";
             callback_query player "status"] in
  exists d e,
    users_collection (after us w) !! player = Some d
    /\ energy d = Some e /\ 0 <= e <= 14.
Proof.
  intros w us.
  pose proof (energy_stays_in_range us w) as Hinv.
  specialize (Hinv ltac:(intros i j Hij; unfold w, fresh_world, clock_from;
                         cbn [clock]; lia)
                   ltac:(intros k d H; discriminate H) player).
  remember (users_collection (after us w) !! player) as found eqn:Hfound.
  vm_compute in Hfound. subst found.
  destruct (Hinv _ eq_refl) as ((e & He & Hrange) & _).
  eexists. exists e. split; [reflexivity|]. split; [exact He | exact Hrange].
Defined.
